(** * EstiBuild [utils.py]: drawing entities to rooms to material quantities

    A shallow embedding of the three computational functions of
    [src/utils.py]

      - [parse_dxf_to_polygons]             (segment extraction and face filter),
      - [compute_areas_and_walls]           (per-room metrics and totals),
      - [estimate_materials_for_workitems]  (work-item quantities),

    followed by the properties the specification states about them.

    Numbers.  Python's [float] is IEEE binary64.  The functions are written
    once over an interface [Scalar] of the arithmetic the source uses, and
    the interface has two instances: [binary64] (Rocq's primitive floats,
    the arithmetic Python really performs; used to run the code on concrete
    drawings) and [exact] (rationals; used where a property needs the laws
    of an ordered field, which rounding does not obey).  A theorem stated
    for every [Scalar] holds in particular for [binary64].

    Faults.  A Python exception that can leave a function is modelled by the
    [Raise] constructor of [result]; [try]/[except] becomes a [match] on it.

    Libraries.  [ezdxf] entities and [shapely] geometries are objects of
    external libraries: they are modelled by records of what the source
    observes on them (attributes read, methods called), and the two shapely
    operations [unary_union] and [polygonize] are parameters. *)

From Stdlib Require Import ZArith QArith Qround List String Bool Lia Lqa.
From Stdlib Require Import PrimFloat FloatOps FloatAxioms SpecFloat Uint63.
Import ListNotations.

Set Implicit Arguments.
#[local] Set Warnings "-inexact-float".

(* ================================================================= *)
(** * Python faults *)

Inductive exn : Type :=
| ZeroDivisionError
| OverflowError
| ValueError
| AttributeError
| GEOSException.

Inductive result (A : Type) : Type :=
| OK (a : A)
| Raise (e : exn).

Arguments OK {A} a.
Arguments Raise {A} e.

Definition bind {A B : Type} (r : result A) (k : A -> result B) : result B :=
  match r with
  | OK a => k a
  | Raise e => Raise e
  end.

Declare Scope py_scope.
Delimit Scope py_scope with py.

Notation "x <- r ;; k" := (bind r (fun x => k))
  (at level 61, r at next level, right associativity) : py_scope.

(* ================================================================= *)
(** * The arithmetic of the source *)

(** What [utils.py] does with numbers.  [of_int] is the promotion of a
    Python [int] operand to [float]; [lit] is a [float] literal written in
    decimal; [fdiv] is the quotient for a divisor known to be non-zero (the
    zero test of Python's [/] is [py_div] below); [fsquare] is [x ** 2] and
    [fceil] is [math.ceil], the two operations of the source besides [/]
    that can raise. *)
Class Scalar (F : Type) : Type := {
  of_int : Z -> F;
  lit : Q -> F;
  fneg : F -> F;
  fadd : F -> F -> F;
  fsub : F -> F -> F;
  fmul : F -> F -> F;
  fdiv : F -> F -> F;
  feqb : F -> F -> bool;
  fltb : F -> F -> bool;
  fsquare : F -> result F;
  fceil : F -> result Z
}.

Infix "+" := fadd : py_scope.
Infix "-" := fsub : py_scope.
Infix "*" := fmul : py_scope.
Infix "/" := fdiv : py_scope.
Notation "- x" := (fneg x) : py_scope.
Notation "x >? y" := (fltb y x) (at level 70, no associativity) : py_scope.
Notation "x ==? y" := (feqb x y) (at level 70, no associativity) : py_scope.

(** ** IEEE binary64, as Python computes *)

Module Binary64.

(** [float(n)] for an [int] of magnitude below [2^63] (beyond it the
    conversion to a machine integer wraps, where Python rounds or raises
    [OverflowError]); exact up to [2^53]. *)
Definition of_int (n : Z) : float :=
  match n with
  | Zneg p => PrimFloat.opp (PrimFloat.of_uint63 (Uint63.of_Z (Zpos p)))
  | _ => PrimFloat.of_uint63 (Uint63.of_Z n)
  end.

(** A decimal literal denotes the double nearest to it.  Numerator and
    denominator of the literals of [utils.py] are exact doubles, so the
    correctly rounded quotient is that nearest double. *)
Definition lit (q : Q) : float :=
  PrimFloat.div (of_int (Qnum q)) (of_int (Zpos (Qden q))).

(** [float.__pow__] at exponent [2]: an overflow of finite operands
    raises [OverflowError].  The value is the correctly rounded square;
    the [pow] of the C library, which CPython calls, may differ from it in
    the last place. *)
Definition fsquare (x : float) : result float :=
  let y := PrimFloat.mul x x in
  if PrimFloat.is_infinity y && negb (PrimFloat.is_infinity x)
  then Raise OverflowError
  else OK y.

(** [math.ceil]: the least integer not below [x]; [ValueError] on a NaN
    and [OverflowError] on an infinity. *)
Definition fceil (x : float) : result Z :=
  match Prim2SF x with
  | S754_nan => Raise ValueError
  | S754_infinity _ => Raise OverflowError
  | S754_zero _ => OK 0%Z
  | S754_finite s m e =>
      let v := if s then Zneg m else Zpos m in
      OK (match e with
          | Zneg k => (- ((- v) / Z.pow_pos 2 k))%Z
          | _ => (v * 2 ^ e)%Z
          end)
  end.

(** Classes of doubles, read on the IEEE specification of the value:
    a zero of either sign; a zero or a finite non-zero number; not a NaN. *)
Definition zero (x : float) : bool :=
  match Prim2SF x with
  | S754_zero _ => true
  | _ => false
  end.

Definition finite (x : float) : bool :=
  match Prim2SF x with
  | S754_zero _ | S754_finite _ _ _ => true
  | _ => false
  end.

Definition not_nan (x : float) : bool :=
  match Prim2SF x with
  | S754_nan => false
  | _ => true
  end.

End Binary64.

#[export] Instance binary64 : Scalar float := {
  of_int := Binary64.of_int;
  lit := Binary64.lit;
  fneg := PrimFloat.opp;
  fadd := PrimFloat.add;
  fsub := PrimFloat.sub;
  fmul := PrimFloat.mul;
  fdiv := PrimFloat.div;
  feqb := PrimFloat.eqb;
  fltb := PrimFloat.ltb;
  fsquare := Binary64.fsquare;
  fceil := Binary64.fceil
}.

(** ** Exact rational arithmetic *)

#[export] Instance exact : Scalar Q := {
  of_int := inject_Z;
  lit := fun q => q;
  fneg := Qopp;
  fadd := Qplus;
  fsub := Qminus;
  fmul := Qmult;
  fdiv := Qdiv;
  feqb := Qeq_bool;
  fltb := fun x y => negb (Qle_bool y x);
  fsquare := fun x => OK (Qmult x x);
  fceil := fun x => OK (Qceiling x)
}.

(** ** Python operators built on the interface *)

Section PythonOps.

Context {F : Type} `{Scalar F}.
Local Open Scope py_scope.

(** [x / y] on floats: a zero divisor raises. *)
Definition py_div (x y : F) : result F :=
  if y ==? of_int 0 then Raise ZeroDivisionError else OK (x / y).

(** [a / b] on two [int]s (true division): the quotient of the two
    promoted operands.  This is Python's correctly rounded quotient as long
    as both operands are exactly representable (magnitude at most [2^53]),
    as are the parts of every mix [utils.py] uses; beyond that Python
    rounds the exact quotient once, or raises [OverflowError]. *)
Definition int_truediv (a b : Z) : result F :=
  if (b =? 0)%Z then Raise ZeroDivisionError else OK (of_int a / of_int b).

(** [max(a, b)]: the first argument is kept unless the second is greater. *)
Definition py_max (a b : F) : F := if b >? a then b else a.

(** The running total of [total = 0.0; for x in l: total += x]. *)
Definition fsum (l : list F) : F := fold_left fadd l (lit 0.0).

(** Equality of coordinate tuples: same length, equal components. *)
Fixpoint tuple_eqb (p q : list F) : bool :=
  match p, q with
  | [], [] => true
  | x :: p', y :: q' => (x ==? y) && tuple_eqb p' q'
  | _, _ => false
  end.

End PythonOps.


(* ================================================================= *)
(** * Objects of the external libraries *)

Section Objects.

Variable F : Type.

(** A coordinate tuple: [(x, y)] or [(x, y, z)]. *)
Definition point : Type := list F.

(** [shapely.geometry.LineString(pts)]: its coordinate sequence. *)
Definition LineString : Type := list point.

(** A drawing entity of [ezdxf], as [parse_dxf_to_polygons] reads it:
    [e.dxftype()], [e.dxf.start], [e.dxf.end], [e.get_points()] and the
    locations of [e.vertices]; the last two may raise. *)
Record Entity : Type := {
  dxftype : string;
  dxf_start : point;
  dxf_end : point;
  get_points : result (list point);
  vertices : result (list point)
}.

(** The geometry returned by [poly.buffer(d)]: [is_empty] and [area]. *)
Record Geometry : Type := {
  is_empty : bool;
  geom_area : F
}.

(** [poly.bounds]: [(minx, miny, maxx, maxy)]. *)
Definition Bounds : Type := (F * F * F * F)%type.

End Objects.

(** A ring is closed when it starts and ends at the same point. *)
Definition closed_ring {F : Type} (ring : list (point F)) : Prop :=
  ring <> [] /\ nth 0 ring [] = last ring [].

(** A [shapely] polygon, as the source uses it: [poly.exterior] (its
    boundary ring), [poly.area], [poly.length], [poly.bounds] and
    [poly.buffer(d)], which may raise; and the invariant of its ring. *)
Module Polygon.

Record t (F : Type) : Type := {
  exterior : list (point F);
  area : F;
  length : F;
  bounds : Bounds F;
  buffer : F -> result (Geometry F);
  (** Modelled from the spec: the class of polygons is not code of this
      repository; this is its invariant, first and last point coincide
      (section 3, Data model), which [shapely] keeps for the ring of
      every polygon by closing it when it is built. *)
  ring_closed : closed_ring exterior
}.

End Polygon.

(** The straight edges of a coordinate sequence: consecutive pairs. *)
Definition edges {F : Type} (ls : LineString F) : list (point F * point F) :=
  combine ls (tl ls).

(** [enumerate(l, start)]. *)
Fixpoint enumerate {A : Type} (start : Z) (l : list A) : list (Z * A) :=
  match l with
  | [] => []
  | x :: l' => (start, x) :: enumerate (start + 1) l'
  end.

(* ================================================================= *)
(** * [parse_dxf_to_polygons] *)

Section Parse.

Context {F : Type} `{Scalar F}.
Local Open Scope py_scope.

(** [unary_union] and [polygonize] of [shapely.ops]; [Merged] is the
    noded geometry handed from one to the other. *)
Variable Merged : Type.
Variable unary_union : list (LineString F) -> Merged.
Variable polygonize : Merged -> list (Polygon.t F).

(** [tuple(p[:2]) if len(p) >= 2 else tuple(p)] *)
Definition xy_of (p : point F) : point F :=
  if (2 <=? List.length p)%nat then firstn 2 p else p.

(** The [try]/[except] ladder that reads the vertices of a polyline. *)
Definition polyline_points (e : Entity F) : list (point F) :=
  match get_points e with
  | OK ps => map xy_of ps
  | Raise _ =>
      match vertices e with
      | OK locations => locations
      | Raise _ => []
      end
  end.

(** The chain built from [pts] once [len(pts) >= 3]:
    [if pts[0] != pts[-1]: pts.append(pts[0])]. *)
Definition close_chain (pts : list (point F)) : list (point F) :=
  if negb (tuple_eqb (nth 0 pts []) (last pts []))
  then pts ++ [nth 0 pts []]
  else pts.

(** What one entity appends to [geom_lines]. *)
Definition entity_lines (e : Entity F) : list (LineString F) :=
  let t := dxftype e in
  if (t =? "LINE")%string then
    [[dxf_start e; dxf_end e]]
  else if (t =? "LWPOLYLINE")%string || (t =? "POLYLINE")%string then
    let pts := polyline_points e in
    if (3 <=? List.length pts)%nat then [close_chain pts] else []
  else [].

(** One iteration of [for e in msp]. *)
Definition extract_step (geom_lines : list (LineString F)) (e : Entity F)
  : list (LineString F) :=
  geom_lines ++ entity_lines e.

Definition extract_lines (msp : list (Entity F)) : list (LineString F) :=
  fold_left extract_step msp [].

(** The flat collection of segments carried by [geom_lines]. *)
Definition segments (geom_lines : list (LineString F))
  : list (point F * point F) :=
  flat_map (@edges F) geom_lines.

Definition noise_threshold : F := lit 1e-6.

(** [poly.area > 1e-6] *)
Definition above_noise (poly : Polygon.t F) : bool :=
  Polygon.area poly >? noise_threshold.

(** The candidate faces: [list(polygonize(unary_union(geom_lines)))]. *)
Definition candidate_faces (geom_lines : list (LineString F))
  : list (Polygon.t F) :=
  polygonize (unary_union geom_lines).

(** The reconstruction stage, from the extracted lines on. *)
Definition reconstruct (geom_lines : list (LineString F))
  : list (Polygon.t F) :=
  match geom_lines with
  | [] => []
  | _ :: _ => filter above_noise (candidate_faces geom_lines)
  end.

(** The function, from the modelspace [msp] of the document on. *)
Definition parse_dxf_to_polygons (msp : list (Entity F))
  : list (Polygon.t F) :=
  reconstruct (extract_lines msp).

End Parse.

(* ================================================================= *)
(** * [compute_areas_and_walls] *)

(** One entry of [results["rooms"]]. *)
Module Room.

Record t (F : Type) : Type := {
  id : Z;
  area : F;
  carpet_area : F;
  perimeter : F;
  long_wall_length : F;
  short_wall_length : F;
  bounds : Bounds F
}.

End Room.

(** [results["totals"]]. *)
Module Totals.

Record t (F : Type) : Type := {
  built_up_area : F;
  carpet_area : F;
  perimeter : F
}.

End Totals.

(** The dictionary returned by [compute_areas_and_walls]. *)
Record AggregateResult (F : Type) : Type := {
  units : string;
  wall_thickness : F;
  rooms : list (Room.t F);
  totals : Totals.t F;
  notes : list string
}.

(** The f-string of the advisory note.  Its only field is the local
    constant [recommended_setback = 1.5], which Python prints as [1.5];
    the letter [m] after it is part of the literal text. *)
Definition recommended_setback : Q := 1.5.
Definition str_recommended_setback : string := "1.5".
Definition margin_note : string :=
  "Recommended minimum setback/margin around building: "
  ++ str_recommended_setback ++ " m (adjust per local rules).".

Section Metrics.

Context {F : Type} `{Scalar F}.
Local Open Scope py_scope.

(** [max(0.0, area - perim * wall_thickness)] *)
Definition linear_carpet (area perim wall_thickness : F) : F :=
  py_max (lit 0.0) (area - perim * wall_thickness).

(** The [try]/[except] block that computes [carpet_area]. *)
Definition carpet_of (poly : Polygon.t F) (wall_thickness : F) : F :=
  let area := Polygon.area poly in
  let perim := Polygon.length poly in
  match Polygon.buffer poly (- wall_thickness) with
  | OK inner =>
      if negb (is_empty inner) then geom_area inner
      else linear_carpet area perim wall_thickness
  | Raise _ => linear_carpet area perim wall_thickness
  end.

(** The dictionary appended to [rooms] for polygon [poly] at index [idx]. *)
Definition room_of (wall_thickness : F) (idx : Z) (poly : Polygon.t F)
  : Room.t F :=
  let area := Polygon.area poly in
  let perim := Polygon.length poly in
  let carpet_area := carpet_of poly wall_thickness in
  let '(minx, miny, maxx, maxy) := Polygon.bounds poly in
  let long_wall := of_int 2 * (maxx - minx) in
  let short_wall := of_int 2 * (maxy - miny) in
  {| Room.id := idx;
     Room.area := area;
     Room.carpet_area := carpet_area;
     Room.perimeter := perim;
     Room.long_wall_length := long_wall;
     Room.short_wall_length := short_wall;
     Room.bounds := Polygon.bounds poly |}.

(** The variables the loop updates:
    [rooms], [total_built_up], [total_carpet], [total_perimeter]. *)
Record loop_state : Type := {
  st_rooms : list (Room.t F);
  total_built_up : F;
  total_carpet : F;
  total_perimeter : F
}.

Definition loop_init : loop_state :=
  {| st_rooms := [];
     total_built_up := lit 0.0;
     total_carpet := lit 0.0;
     total_perimeter := lit 0.0 |}.

(** One iteration of [for idx, poly in enumerate(polygons, start=1)]. *)
Definition loop_body (wall_thickness : F) (st : loop_state)
  (ip : Z * Polygon.t F) : loop_state :=
  let '(idx, poly) := ip in
  let room := room_of wall_thickness idx poly in
  {| st_rooms := st_rooms st ++ [room];
     total_built_up := total_built_up st + Room.area room;
     total_carpet := total_carpet st + Room.carpet_area room;
     total_perimeter := total_perimeter st + Room.perimeter room |}.

Definition compute_areas_and_walls (polygons : list (Polygon.t F))
  (wall_thickness : F) (units : string) : AggregateResult F :=
  let st := fold_left (loop_body wall_thickness) (enumerate 1 polygons)
              loop_init in
  {| units := units;
     wall_thickness := wall_thickness;
     rooms := st_rooms st;
     totals := {| Totals.built_up_area := total_built_up st;
                  Totals.carpet_area := total_carpet st;
                  Totals.perimeter := total_perimeter st |};
     notes := [margin_note] |}.

(** The loop invariant: the totals are the running sums of the rooms
    collected so far. *)
Definition totals_match (st : loop_state) : Prop :=
  total_built_up st = fsum (map (@Room.area F) (st_rooms st)) /\
  total_carpet st = fsum (map (@Room.carpet_area F) (st_rooms st)) /\
  total_perimeter st = fsum (map (@Room.perimeter F) (st_rooms st)).

End Metrics.

(* ================================================================= *)
(** * [estimate_materials_for_workitems] *)

(** A quantity is a [float], or the [int] that [math.ceil] returns. *)
Inductive number (F : Type) : Type :=
| Float (x : F)
| Int (n : Z).

Arguments Float {F} x.
Arguments Int {F} n.

(** The key under which a work item stores its amount. *)
Inductive amount (F : Type) : Type :=
| quantity (v : number F)
| quantity_m3 (v : number F).

Arguments quantity {F} v.
Arguments quantity_m3 {F} v.

(** The unit label; [bags_of k] stands for the f-string
    [bags ({cement_bag_kg}kg)] at [cement_bag_kg = k]. *)
Inductive unit_label (F : Type) : Type :=
| label (s : string)
| bags_of (cement_bag_kg : F).

Arguments label {F} s.
Arguments bags_of {F} cement_bag_kg.

Record WorkItem (F : Type) : Type := {
  item : string;
  item_amount : amount F;
  unit : unit_label F
}.

(** The dictionary returned by [concrete_materials_for_volume]. *)
Record ConcreteMix (F : Type) : Type := {
  concrete_volume_m3 : F;
  cement_kg : F;
  cement_bags : F;
  sand_m3 : F;
  aggregate_m3 : F
}.

(** The dictionary returned by [estimate_materials_for_workitems]. *)
Record MaterialsResult (F : Type) : Type := {
  workitems : list (WorkItem F);
  concrete_breakdown : ConcreteMix F;
  plaster_volume_m3 : F;
  tiles_count : Z;
  bricks_count : F;
  paint_liters : F;
  contingency_note : string
}.

Section Materials.

Context {F : Type} `{Scalar F}.
Local Open Scope py_scope.

(** The nested function; [cement_bag_kg] is the variable it captures. *)
Definition concrete_materials_for_volume (cement_bag_kg : F) (vol_m3 : F)
  (mix : Z * Z * Z) : result (ConcreteMix F) :=
  let '(mix_0, mix_1, mix_2) := mix in
  let factor := lit 1.54 in
  let dry_volume := vol_m3 * factor in
  let total_parts := (mix_0 + mix_1 + mix_2)%Z in
  let cement_part := mix_0 in
  cement_share <- int_truediv cement_part total_parts ;;
  let cement_volume := dry_volume * cement_share in
  let cement_kg := cement_volume * of_int 1440 in
  cement_bags <- py_div cement_kg cement_bag_kg ;;
  sand_share <- int_truediv mix_1 total_parts ;;
  let sand_volume := dry_volume * sand_share in
  agg_share <- int_truediv mix_2 total_parts ;;
  let agg_volume := dry_volume * agg_share in
  OK {| concrete_volume_m3 := vol_m3;
        cement_kg := cement_kg;
        cement_bags := cement_bags;
        sand_m3 := sand_volume;
        aggregate_m3 := agg_volume |}.

(** [math.ceil(carpet / tile_area_m2) if tile_area_m2 > 0 else 0], with
    [tile_area_m2 = (tile_size_mm / 1000.0) ** 2]. *)
Definition tiles_for (carpet tile_size_mm : F) : result Z :=
  tile_area_m2 <- fsquare (tile_size_mm / lit 1000.0) ;;
  if tile_area_m2 >? of_int 0 then
    per_tile <- py_div carpet tile_area_m2 ;;
    fceil per_tile
  else OK 0%Z.

Definition contingency : string :=
  "Add ~10% contingency for waste and variations.".

Definition estimate_materials_for_workitems (results : AggregateResult F)
  (cement_bag_kg plaster_thickness_mm tile_size_mm : F)
  : result (MaterialsResult F) :=
  let built_up := Totals.built_up_area (totals results) in
  let carpet := Totals.carpet_area (totals results) in
  let perimeter := Totals.perimeter (totals results) in
  let excavation_volume := perimeter * lit 1.0 * lit 1.0 in
  let footing_depth := lit 0.5 in
  let footing_width := lit 0.6 in
  let footing_volume := perimeter * footing_width * footing_depth in
  let slab_thickness := lit 0.15 in
  let slab_volume := built_up * slab_thickness in
  let pcc_volume := built_up * lit 0.10 in
  let wall_height := lit 3.0 in
  let wall_volume := perimeter * wall_thickness results * wall_height in
  let bricks_per_m3 := 500%Z in
  let bricks_required := wall_volume * of_int bricks_per_m3 in
  let wall_area := perimeter * wall_height in
  let plaster_thickness_m := plaster_thickness_mm / lit 1000.0 in
  let plaster_volume := wall_area * plaster_thickness_m in
  tiles_required <- tiles_for carpet tile_size_mm ;;
  let total_concrete_volume := slab_volume + footing_volume + pcc_volume in
  concrete_mat <-
    concrete_materials_for_volume cement_bag_kg total_concrete_volume
      (1, 2, 4)%Z ;;
  let paint_coverage_m2_per_l := 10%Z in
  let paint_liters := wall_area / of_int paint_coverage_m2_per_l in
  let steel_per_m3 := 80%Z in
  let reinforcement_kg := total_concrete_volume * of_int steel_per_m3 in
  let workitems :=
    [ {| item := "Excavation";
         item_amount := quantity (Float excavation_volume);
         unit := label "m3" |};
      {| item := "PCC (under slab)";
         item_amount := quantity (Float pcc_volume);
         unit := label "m3" |};
      {| item := "Footing concrete";
         item_amount := quantity (Float footing_volume);
         unit := label "m3" |};
      {| item := "RCC slab/beams";
         item_amount := quantity (Float slab_volume);
         unit := label "m3" |};
      {| item := "Reinforcement steel";
         item_amount := quantity (Float reinforcement_kg);
         unit := label "kg" |};
      {| item := "Masonry (bricks)";
         item_amount := quantity (Float bricks_required);
         unit := label "nos" |};
      {| item := "Sand (for concrete/mortar)";
         item_amount := quantity_m3 (Float (sand_m3 concrete_mat));
         unit := label "m3" |};
      {| item := "Coarse aggregate";
         item_amount := quantity_m3 (Float (aggregate_m3 concrete_mat));
         unit := label "m3" |};
      {| item := "Cement";
         item_amount := quantity (Float (cement_bags concrete_mat));
         unit := bags_of cement_bag_kg |};
      {| item := "Plaster (both sides)";
         item_amount := quantity (Float plaster_volume);
         unit := label "m3" |};
      {| item := "Tiles / Flooring";
         item_amount := quantity (Int tiles_required);
         unit := label "nos" |};
      {| item := "Paint (liters)";
         item_amount := quantity (Float paint_liters);
         unit := label "liters" |} ] in
  OK {| workitems := workitems;
        concrete_breakdown := concrete_mat;
        plaster_volume_m3 := plaster_volume;
        tiles_count := tiles_required;
        bricks_count := bricks_required;
        paint_liters := paint_liters;
        contingency_note := contingency |}.

(** The keyword defaults of the two public functions:
    [wall_thickness=0.2], [units="meters"], [cement_bag_kg=50],
    [plaster_thickness_mm=12], [tile_size_mm=600]. *)
Definition default_wall_thickness : F := lit 0.2.
Definition default_units : string := "meters".
Definition default_cement_bag_kg : F := of_int 50.
Definition default_plaster_thickness_mm : F := of_int 12.
Definition default_tile_size_mm : F := of_int 600.

End Materials.

(* ================================================================= *)
(** * Concrete drawings *)

(** Stand-ins for [shapely] on drawings made of axis-aligned rectangles,
    on which the functions above can be run. *)
Section Rectangles.

Context {F : Type} `{Scalar F}.
Local Open Scope py_scope.

(** A ring through four points and back to the first is closed. *)
Definition ring_of_four_closed (a b c d : point F)
  : closed_ring [a; b; c; d; a] :=
  conj (fun H : [a; b; c; d; a] = [] =>
          @nil_cons (point F) a [b; c; d; a] (eq_sym H))
       eq_refl.

(** The rectangle [[x0, x1] x [y0, y1]].  For [d <= 0] the offset by [d] is
    the rectangle shrunk by [-d] on every side, empty once a side vanishes. *)
Definition rectangle (x0 y0 x1 y1 : F) : Polygon.t F :=
  {| Polygon.ring_closed :=
       ring_of_four_closed [x0; y0] [x1; y0] [x1; y1] [x0; y1];
     Polygon.exterior := [[x0; y0]; [x1; y0]; [x1; y1]; [x0; y1]; [x0; y0]];
     Polygon.area := (x1 - x0) * (y1 - y0);
     Polygon.length := of_int 2 * ((x1 - x0) + (y1 - y0));
     Polygon.bounds := (x0, y0, x1, y1);
     Polygon.buffer := fun d =>
       let w := (x1 - x0) + of_int 2 * d in
       let h := (y1 - y0) + of_int 2 * d in
       if (w >? of_int 0) && (h >? of_int 0)
       then OK {| is_empty := false; geom_area := w * h |}
       else OK {| is_empty := true; geom_area := of_int 0 |} |}.

(** The same rectangle in a build of the geometry library whose offset
    operation fails. *)
Definition rectangle_failing_buffer (x0 y0 x1 y1 : F) : Polygon.t F :=
  {| Polygon.ring_closed := Polygon.ring_closed (rectangle x0 y0 x1 y1);
     Polygon.exterior := Polygon.exterior (rectangle x0 y0 x1 y1);
     Polygon.area := Polygon.area (rectangle x0 y0 x1 y1);
     Polygon.length := Polygon.length (rectangle x0 y0 x1 y1);
     Polygon.bounds := Polygon.bounds (rectangle x0 y0 x1 y1);
     Polygon.buffer := fun _ => Raise GEOSException |}.

(** A closed five-point chain running around a rectangle from its lower
    left corner is that rectangle; nothing else bounds a face. *)
Definition face_of_chain (ls : LineString F) : list (Polygon.t F) :=
  match ls with
  | [[x0; y0]; [x1; _]; [_; y1]; [_; _]; [_; _]] => [rectangle x0 y0 x1 y1]
  | _ => []
  end.

Definition rect_union (geom_lines : list (LineString F))
  : list (LineString F) := geom_lines.

Definition rect_polygonize (merged : list (LineString F))
  : list (Polygon.t F) := flat_map face_of_chain merged.

(** An [LWPOLYLINE] with the given vertices [(x, y, start_width,
    end_width, bulge)]. *)
Definition lwpolyline (pts : list (point F)) : Entity F :=
  {| dxftype := "LWPOLYLINE";
     dxf_start := [];
     dxf_end := [];
     get_points := OK pts;
     vertices := Raise AttributeError |}.

(** A [LINE] from [a] to [b]. *)
Definition line (a b : point F) : Entity F :=
  {| dxftype := "LINE";
     dxf_start := a;
     dxf_end := b;
     get_points := Raise AttributeError;
     vertices := Raise AttributeError |}.

(** The rectangle of the specification's scenario, 10 by 6, drawn as an open
    polyline of four vertices. *)
Definition plan_10_by_6 : list (Entity F) :=
  [ lwpolyline [ [of_int 0; of_int 0; of_int 0; of_int 0; of_int 0];
                 [of_int 10; of_int 0; of_int 0; of_int 0; of_int 0];
                 [of_int 10; of_int 6; of_int 0; of_int 0; of_int 0];
                 [of_int 0; of_int 6; of_int 0; of_int 0; of_int 0] ] ].

(** The whole pipeline on a modelspace, with the rectangle stand-ins. *)
Definition run (msp : list (Entity F)) (wall_thickness : F) (units : string)
  (cement_bag_kg plaster_thickness_mm tile_size_mm : F)
  : result (MaterialsResult F) :=
  let polygons := parse_dxf_to_polygons rect_union rect_polygonize msp in
  let results := compute_areas_and_walls polygons wall_thickness units in
  estimate_materials_for_workitems results
    cement_bag_kg plaster_thickness_mm tile_size_mm.

End Rectangles.


(* ================================================================= *)
(** * Vocabulary of the statements *)

(** [sub in s] on strings. *)
Fixpoint contains (s sub : string) : bool :=
  match s with
  | EmptyString => prefix sub EmptyString
  | String _ s' => prefix sub s || contains s' sub
  end.

(** [long_wall] and [short_wall] as functions of [poly.bounds]. *)
Definition x_extent_twice {F : Type} `{Scalar F} (b : Bounds F) : F :=
  let '(minx, miny, maxx, maxy) := b in (of_int 2 * (maxx - minx))%py.

Definition y_extent_twice {F : Type} `{Scalar F} (b : Bounds F) : F :=
  let '(minx, miny, maxx, maxy) := b in (of_int 2 * (maxy - miny))%py.

(** ** Sample inputs, in binary64 *)

(** A room 6 wide and 10 tall. *)
Definition tall_room : Polygon.t float :=
  rectangle (of_int 0) (of_int 0) (of_int 6) (of_int 10).

(** Three rooms: the 10 by 6 room of the scenario; a unit square whose
    offset fails; a square of side 0.3, which an offset by 0.2 erases. *)
Definition three_rooms : list (Polygon.t float) :=
  [ rectangle (of_int 0) (of_int 0) (of_int 10) (of_int 6);
    rectangle_failing_buffer (of_int 0) (of_int 0) (of_int 1) (of_int 1);
    rectangle (of_int 0) (of_int 0) (lit 0.3) (lit 0.3) ].

(** An open polyline around the sliver [[0, 1e-6] x [0, 1]], whose area
    is the noise threshold itself. *)
Definition sliver_plan : list (Entity float) :=
  [ lwpolyline [ [of_int 0; of_int 0];
                 [lit 1e-6; of_int 0];
                 [lit 1e-6; of_int 1];
                 [of_int 0; of_int 1] ] ].

(** A polyline of two vertices. *)
Definition two_point_polyline : Entity float :=
  lwpolyline [ [of_int 0; of_int 0]; [of_int 10; of_int 0] ].

(** The open four-vertex polyline of [plan_10_by_6]. *)
Definition open_polyline : Entity float :=
  lwpolyline [ [of_int 0; of_int 0; of_int 0; of_int 0; of_int 0];
               [of_int 10; of_int 0; of_int 0; of_int 0; of_int 0];
               [of_int 10; of_int 6; of_int 0; of_int 0; of_int 0];
               [of_int 0; of_int 6; of_int 0; of_int 0; of_int 0] ].

(** The number stored in a work item, under either key. *)
Definition amount_value {F : Type} (a : amount F) : number F :=
  match a with
  | quantity v => v
  | quantity_m3 v => v
  end.

(** [v == 0] on a quantity. *)
Definition is_zero {F : Type} `{Scalar F} (v : number F) : bool :=
  match v with
  | Float x => (x ==? of_int 0)%py
  | Int n => (n =? 0)%Z
  end.

(** An aggregate result with the given totals and wall thickness. *)
Definition results_with {F : Type} (built_up carpet perimeter : F)
  (wall_thickness : F) : AggregateResult F :=
  {| units := "meters";
     wall_thickness := wall_thickness;
     rooms := [];
     totals := {| Totals.built_up_area := built_up;
                  Totals.carpet_area := carpet;
                  Totals.perimeter := perimeter |};
     notes := [margin_note] |}.

(** ** The totals of the 10 by 6 room, in binary64 *)

(** [area = 60], [carpet_area = 9.6 * 5.6], [perimeter = 32], for a given
    wall thickness. *)
Definition scenario_results (wall_thickness : float) : AggregateResult float :=
  results_with (of_int 60) (lit 53.76) (of_int 32) wall_thickness.

(** A modelspace from which nothing is extracted: a two-vertex polyline
    and an entity of a type the extractor does not read. *)
Definition nothing_to_extract : list (Entity float) :=
  [ two_point_polyline;
    {| dxftype := "CIRCLE";
       dxf_start := [];
       dxf_end := [];
       get_points := Raise AttributeError;
       vertices := Raise AttributeError |} ].

From Stdlib Require Import Permutation Qminmax.

(* ================================================================= *)
(** * [export_measurement_sheets_bytes] *)

(** A value stored in a dictionary of the report: a number, a string, or
    the unit label of a work item. *)
Inductive pyvalue (F : Type) : Type :=
| VNum (v : number F)
| VStr (s : string)
| VUnit (u : unit_label F).

Arguments VNum {F} v.
Arguments VStr {F} s.
Arguments VUnit {F} u.

(** A dictionary with string keys, as the list of its entries. *)
Definition pydict (F : Type) : Type := list (string * pyvalue F).

(** [d.get(key)]: [None] when the key is absent. *)
Fixpoint dict_get {F : Type} (d : pydict F) (key : string)
  : option (pyvalue F) :=
  match d with
  | [] => None
  | (k, v) :: d' => if (k =? key)%string then Some v else dict_get d' key
  end.

(** [key in d] *)
Definition dict_has {F : Type} (d : pydict F) (key : string) : bool :=
  match dict_get d key with
  | Some _ => true
  | None => false
  end.

(** The outcome of code that subscripts dictionaries: a value, or the
    [KeyError] of the missing key. *)
Inductive keyed (A : Type) : Type :=
| Found (a : A)
| KeyError (key : string).

Arguments Found {A} a.
Arguments KeyError {A} key.

(** [d[key]] *)
Definition dict_item {F : Type} (d : pydict F) (key : string)
  : keyed (pyvalue F) :=
  match dict_get d key with
  | Some v => Found v
  | None => KeyError key
  end.

(** The dictionary literal that [estimate_materials_for_workitems] writes
    for a work item: [item], then [quantity] or [quantity_m3], then
    [unit]. *)
Definition workitem_dict {F : Type} (w : WorkItem F) : pydict F :=
  [ ("item"%string, VStr (item w));
    match item_amount w with
    | quantity v => ("quantity"%string, VNum v)
    | quantity_m3 v => ("quantity_m3"%string, VNum v)
    end;
    ("unit"%string, VUnit (unit w)) ].

(** One row of the sheet [measurement_sheet]. *)
Record RoomRow (F : Type) : Type := {
  room_id : Z;
  area_m2 : F;
  carpet_area_m2 : F;
  perimeter_m : F;
  long_wall_m : F;
  short_wall_m : F
}.

(** One row of the sheet [abstract_sheet]. *)
Record AbstractRow (F : Type) : Type := {
  description : pyvalue F;
  row_quantity : pyvalue F
}.

Section ExportModel.

Variable F : Type.

(** The workbook writer ([pandas.DataFrame], [pandas.ExcelWriter] and
    [openpyxl]): from the rows of the two sheets to the bytes of the file. *)
Variable Bytes : Type.
Variable to_xlsx : list (RoomRow F) -> list (AbstractRow F) -> Bytes.

(** The dictionary appended to [room_rows] for the room [r]. *)
Definition room_row (r : Room.t F) : RoomRow F :=
  {| room_id := Room.id r;
     area_m2 := Room.area r;
     carpet_area_m2 := Room.carpet_area r;
     perimeter_m := Room.perimeter r;
     long_wall_m := Room.long_wall_length r;
     short_wall_m := Room.short_wall_length r |}.

(** The three rows that open [abstract_rows]. *)
Definition totals_rows (t : Totals.t F) : list (AbstractRow F) :=
  [ {| description := VStr "Built-up Area (m2)";
       row_quantity := VNum (Float (Totals.built_up_area t)) |};
    {| description := VStr "Carpet Area (m2)";
       row_quantity := VNum (Float (Totals.carpet_area t)) |};
    {| description := VStr "Perimeter (m)";
       row_quantity := VNum (Float (Totals.perimeter t)) |} ].

(** [w.get("quantity") if "quantity" in w else w.get("quantity_m3", "")] *)
Definition quantity_of (w : pydict F) : pyvalue F :=
  if dict_has w "quantity" then
    match dict_get w "quantity" with
    | Some q => q
    | None => VStr ""
    end
  else
    match dict_get w "quantity_m3" with
    | Some q => q
    | None => VStr ""
    end.

(** The row appended for the work item [w]; [w["item"]] is read after the
    quantity. *)
Definition workitem_row (w : pydict F) : keyed (AbstractRow F) :=
  let q := quantity_of w in
  match dict_item w "item" with
  | Found name => Found {| description := name; row_quantity := q |}
  | KeyError key => KeyError key
  end.

(** [for w in materials["workitems"]: abstract_rows.append(...)] *)
Fixpoint append_workitems (abstract_rows : list (AbstractRow F))
  (ws : list (pydict F)) : keyed (list (AbstractRow F)) :=
  match ws with
  | [] => Found abstract_rows
  | w :: ws' =>
      match workitem_row w with
      | Found row => append_workitems (abstract_rows ++ [row]) ws'
      | KeyError key => KeyError key
      end
  end.

(** The rows of the two sheets.  [materials] is [None] when the argument
    is falsy ([None] or an empty dictionary) and otherwise holds the list
    stored under its key [workitems]. *)
Definition sheet_rows (results : AggregateResult F)
  (materials : option (list (pydict F)))
  : keyed (list (RoomRow F) * list (AbstractRow F)) :=
  let room_rows := map room_row (rooms results) in
  let abstract_rows := totals_rows (totals results) in
  match materials with
  | Some ws =>
      match append_workitems abstract_rows ws with
      | Found abstract_rows' => Found (room_rows, abstract_rows')
      | KeyError key => KeyError key
      end
  | None => Found (room_rows, abstract_rows)
  end.

Definition export_measurement_sheets_bytes (results : AggregateResult F)
  (materials : option (list (pydict F))) : keyed Bytes :=
  match sheet_rows results materials with
  | Found (room_rows, abstract_rows) => Found (to_xlsx room_rows abstract_rows)
  | KeyError key => KeyError key
  end.

End ExportModel.

(** The argument [materials] that carries the result [m] of the
    estimator. *)
Definition materials_of {F : Type} (m : MaterialsResult F)
  : option (list (pydict F)) :=
  Some (map (@workitem_dict F) (workitems m)).

(* ================================================================= *)
(** * More sample inputs *)

(** A closed [LWPOLYLINE]: the 10 by 6 rectangle with its first vertex
    repeated at the end. *)
Definition closed_polyline : Entity float :=
  lwpolyline [ [of_int 0; of_int 0]; [of_int 10; of_int 0];
               [of_int 10; of_int 6]; [of_int 0; of_int 6];
               [of_int 0; of_int 0] ].

(** A [POLYLINE]: no [get_points], three-dimensional vertex locations. *)
Definition polyline_3d : Entity float :=
  {| dxftype := "POLYLINE";
     dxf_start := [];
     dxf_end := [];
     get_points := Raise AttributeError;
     vertices := OK [ [of_int 0; of_int 0; of_int 0];
                      [of_int 10; of_int 0; of_int 0];
                      [of_int 10; of_int 6; of_int 0] ] |}.

(** A polyline whose vertex data cannot be read at all. *)
Definition unreadable_polyline : Entity float :=
  {| dxftype := "POLYLINE";
     dxf_start := [];
     dxf_end := [];
     get_points := Raise AttributeError;
     vertices := Raise AttributeError |}.

(** The room [r] with its id moved up by [k]. *)
Definition shift_id {F : Type} (k : Z) (r : Room.t F) : Room.t F :=
  {| Room.id := Room.id r + k;
     Room.area := Room.area r;
     Room.carpet_area := Room.carpet_area r;
     Room.perimeter := Room.perimeter r;
     Room.long_wall_length := Room.long_wall_length r;
     Room.short_wall_length := Room.short_wall_length r;
     Room.bounds := Room.bounds r |}.

(** A polygon whose offset fails or is empty takes the linear carpet
    area. *)
Definition offset_fails {F : Type} (poly : Polygon.t F) (d : F) : Prop :=
  forall inner : Geometry F,
    Polygon.buffer poly d = OK inner -> is_empty inner = true.

(** Work items written by hand: one with both quantity entries, one
    without its [item] entry. *)
Definition both_quantities : pydict float :=
  [ ("item"%string, VStr "Sand");
    ("quantity_m3"%string, VNum (Float (of_int 2)));
    ("quantity"%string, VNum (Float (of_int 1))) ].

Definition nameless : pydict float :=
  [ ("quantity"%string, VNum (Float (of_int 3))) ].

(** The twelve names of the catalog. *)
Definition catalog : list string :=
  [ "Excavation"; "PCC (under slab)"; "Footing concrete"; "RCC slab/beams";
    "Reinforcement steel"; "Masonry (bricks)"; "Sand (for concrete/mortar)";
    "Coarse aggregate"; "Cement"; "Plaster (both sides)"; "Tiles / Flooring";
    "Paint (liters)" ]%string.

(** A row whose quantity is a number. *)
Definition numeric_row {F : Type} (row : AbstractRow F) : Prop :=
  exists v : number F, row_quantity row = VNum v.

(** A [LINE] with three-dimensional ends, and a [CIRCLE]. *)
Definition line_3d : Entity float :=
  line [of_int 0; of_int 0; of_int 3] [of_int 10; of_int 0; of_int 3].

Definition circle : Entity float :=
  {| dxftype := "CIRCLE";
     dxf_start := [];
     dxf_end := [];
     get_points := Raise AttributeError;
     vertices := Raise AttributeError |}.

(** An [int] that [float] holds exactly: its magnitude is at most [2^53]. *)
Definition exact_in_binary64 (n : Z) : Prop := (Z.abs n <= 2 ^ 53)%Z.

(** A square of side 0.3, which an offset by 0.2 erases, in exact
    arithmetic. *)
Definition small_square : Polygon.t Q := rectangle 0 0 0.3 0.3.
Unset Implicit Arguments.

(* ================================================================= *)
(** * The loop of [compute_areas_and_walls] *)

Section MetricsFacts.

Context {F : Type} `{Scalar F}.
Local Open Scope py_scope.

(** A property that holds before a loop and is kept by its body holds
    after it. *)
Lemma fold_left_invariant (A B : Type) (P : A -> Prop) (f : A -> B -> A)
  (l : list B) :
  forall a, P a -> (forall a' b, P a' -> P (f a' b)) -> P (fold_left f l a).
Proof.
  induction l as [|b l IH]; intros a Ha Hstep; simpl; auto.
Qed.

Lemma fsum_snoc (l : list F) (x : F) : fsum (l ++ [x]) = fsum l + x.
Proof.
  unfold fsum. now rewrite fold_left_app.
Qed.

Lemma totals_match_init : totals_match loop_init.
Proof.
  repeat split.
Qed.

Lemma totals_match_body (wt : F) (st : loop_state) (ip : Z * Polygon.t F) :
  totals_match st -> totals_match (loop_body wt st ip).
Proof.
  intros (Hb & Hc & Hp). destruct ip as [idx poly].
  unfold totals_match, loop_body; cbn [st_rooms total_built_up total_carpet
    total_perimeter].
  rewrite !map_app; cbn [map].
  rewrite !fsum_snoc, <- Hb, <- Hc, <- Hp.
  repeat split.
Qed.

(** The rooms are the records of the polygons, in order, numbered from
    the start index. *)
Lemma loop_rooms (wt : F) (polygons : list (Polygon.t F)) :
  forall (start : Z) (st : loop_state),
    st_rooms (fold_left (loop_body wt) (enumerate start polygons) st)
    = st_rooms st
      ++ map (fun ip => room_of wt (fst ip) (snd ip))
           (enumerate start polygons).
Proof.
  induction polygons as [|poly polygons IH]; intros start st; cbn.
  - now rewrite app_nil_r.
  - rewrite IH. cbn [loop_body st_rooms]. now rewrite <- app_assoc.
Qed.

Lemma rooms_of_polygons (polygons : list (Polygon.t F)) (wt : F)
  (units : string) :
  rooms (compute_areas_and_walls polygons wt units)
  = map (fun ip => room_of wt (fst ip) (snd ip)) (enumerate 1 polygons).
Proof.
  unfold compute_areas_and_walls; cbn [rooms].
  now rewrite loop_rooms.
Qed.

Lemma nth_error_enumerate (A : Type) (l : list A) :
  forall (start : Z) (i : nat) (x : A),
    nth_error l i = Some x ->
    nth_error (enumerate start l) i = Some ((start + Z.of_nat i)%Z, x).
Proof.
  induction l as [|y l IH]; intros start [|i] x Hx; try discriminate.
  - cbn in *. injection Hx as ->. now rewrite Z.add_0_r.
  - cbn [enumerate nth_error] in *. rewrite (IH _ _ _ Hx).
    replace (start + 1 + Z.of_nat i)%Z with (start + Z.of_nat (S i))%Z by lia.
    reflexivity.
Qed.

Lemma map_enumerate_snd (A B : Type) (g : A -> B) (l : list A) :
  forall start : Z, map (fun ip => g (snd ip)) (enumerate start l) = map g l.
Proof.
  induction l as [|x l IH]; intros start; cbn; [reflexivity|].
  now rewrite IH.
Qed.

(** The room at position [i] is the record of the polygon at position
    [i], with id [i + 1]. *)
Lemma room_at (polygons : list (Polygon.t F)) (wt : F) (units : string)
  (i : nat) (poly : Polygon.t F) :
  nth_error polygons i = Some poly ->
  nth_error (rooms (compute_areas_and_walls polygons wt units)) i
  = Some (room_of wt (Z.of_nat i + 1) poly).
Proof.
  intros Hi. rewrite rooms_of_polygons.
  rewrite nth_error_map, (nth_error_enumerate _ _ 1%Z _ _ Hi). cbn.
  now rewrite Z.add_comm.
Qed.

Lemma room_of_area (wt : F) (idx : Z) (poly : Polygon.t F) :
  Room.area (room_of wt idx poly) = Polygon.area poly.
Proof.
  unfold room_of. now destruct (Polygon.bounds poly) as [[[? ?] ?] ?].
Qed.

Lemma room_of_perimeter (wt : F) (idx : Z) (poly : Polygon.t F) :
  Room.perimeter (room_of wt idx poly) = Polygon.length poly.
Proof.
  unfold room_of. now destruct (Polygon.bounds poly) as [[[? ?] ?] ?].
Qed.

Lemma room_of_carpet_area (wt : F) (idx : Z) (poly : Polygon.t F) :
  Room.carpet_area (room_of wt idx poly) = carpet_of poly wt.
Proof.
  unfold room_of. now destruct (Polygon.bounds poly) as [[[? ?] ?] ?].
Qed.

Lemma room_of_id (wt : F) (idx : Z) (poly : Polygon.t F) :
  Room.id (room_of wt idx poly) = idx.
Proof.
  unfold room_of. now destruct (Polygon.bounds poly) as [[[? ?] ?] ?].
Qed.

End MetricsFacts.

(* ================================================================= *)
(** * Conservation of the totals *)

(** C1.  For every list of polygons, wall thickness and units label, each
    total returned by [compute_areas_and_walls] is the sum, accumulated in
    room order from [0.0], of the corresponding field of the returned rooms:
    [built_up_area] of the rooms' [area], [carpet_area] of their
    [carpet_area], [perimeter] of their [perimeter].  No total is obtained
    from a merged outline; the built-up total is also the sum of the areas
    of the polygons themselves. *)
Theorem totals_are_sums_over_rooms :
  forall (F : Type) (S : Scalar F) (polygons : list (Polygon.t F))
         (wall_thickness : F) (units : string),
    let r := compute_areas_and_walls polygons wall_thickness units in
    Totals.built_up_area (totals r) = fsum (map (@Room.area F) (rooms r)) /\
    Totals.carpet_area (totals r)
      = fsum (map (@Room.carpet_area F) (rooms r)) /\
    Totals.perimeter (totals r) = fsum (map (@Room.perimeter F) (rooms r)) /\
    Totals.built_up_area (totals r)
      = fsum (map (@Polygon.area F) polygons) /\
    Totals.perimeter (totals r) = fsum (map (@Polygon.length F) polygons).
Proof.
  intros F S polygons wt units r.
  assert (Hinv : totals_match
            (fold_left (loop_body wt) (enumerate 1 polygons) loop_init)).
  { apply fold_left_invariant.
    - apply totals_match_init.
    - intros st ip. apply totals_match_body. }
  destruct Hinv as (Hb & Hc & Hp).
  assert (Hrooms := rooms_of_polygons polygons wt units).
  fold r in Hrooms.
  assert (Ha : map (@Room.area F) (rooms r) = map (@Polygon.area F) polygons).
  { rewrite Hrooms, map_map.
    rewrite <- (map_enumerate_snd _ _ (@Polygon.area F) polygons 1).
    apply map_ext. intros [idx poly]. apply room_of_area. }
  assert (Hl : map (@Room.perimeter F) (rooms r)
               = map (@Polygon.length F) polygons).
  { rewrite Hrooms, map_map.
    rewrite <- (map_enumerate_snd _ _ (@Polygon.length F) polygons 1).
    apply map_ext. intros [idx poly]. apply room_of_perimeter. }
  rewrite <- Ha, <- Hl.
  subst r. unfold compute_areas_and_walls.
  cbn [totals rooms Totals.built_up_area Totals.carpet_area Totals.perimeter].
  auto.
Qed.

(* ================================================================= *)
(** * The advisory note *)

(** C9 (as amended).  For every call, [notes] holds exactly one note, the
    fixed text [margin_note], which recommends a setback of [1.5 m]; the
    text is the same whatever [units] is passed. *)
Theorem notes_is_the_fixed_margin_note :
  forall (F : Type) (S : Scalar F) (polygons : list (Polygon.t F))
         (wall_thickness : F) (units : string),
    notes (compute_areas_and_walls polygons wall_thickness units)
      = [margin_note] /\
    contains margin_note "setback"%string = true /\
    contains margin_note "1.5 m"%string = true /\
    forall units' : string,
      notes (compute_areas_and_walls polygons wall_thickness units')
      = notes (compute_areas_and_walls polygons wall_thickness units).
Proof.
  intros. repeat split.
Qed.

(** C9, as stated, fails: with [units = "feet"] the note is the very note
    produced for ["meters"], and it does not name the configured unit. *)
Lemma note_ignores_units :
  notes (compute_areas_and_walls (F := float) [] (lit 0.2) "feet")
    = notes (compute_areas_and_walls (F := float) [] (lit 0.2) "meters") /\
  (forall note : string,
     In note
       (notes (compute_areas_and_walls (F := float) [] (lit 0.2) "feet")) ->
     contains note "feet"%string = false) /\
  ~ (forall units : string,
       exists note : string,
         notes (compute_areas_and_walls (F := float) [] (lit 0.2) units)
           = [note] /\
         contains note units = true).
Proof.
  split; [reflexivity|]. split.
  - intros note [<-|[]]. reflexivity.
  - intros Hall. destruct (Hall "feet"%string) as (note & Hnote & Hin).
    injection Hnote as <-. discriminate Hin.
Qed.

(* ================================================================= *)
(** * Nominal wall lengths *)

(** C10.  The two nominal wall lengths are assigned by axis: for every
    list of polygons, the [long_wall_length] of each room is twice the
    x-extent of the bounding box of its polygon and the [short_wall_length]
    twice the y-extent, whichever is larger.  For the room 6 wide and 10
    tall, [long_wall_length = 12 < 20 = short_wall_length]. *)
Theorem wall_lengths_follow_axes :
  (forall (F : Type) (S : Scalar F) (polygons : list (Polygon.t F))
          (wall_thickness : F) (units : string),
     let r := compute_areas_and_walls polygons wall_thickness units in
     map (@Room.long_wall_length F) (rooms r)
       = map (fun poly => x_extent_twice (Polygon.bounds poly)) polygons /\
     map (@Room.short_wall_length F) (rooms r)
       = map (fun poly => y_extent_twice (Polygon.bounds poly)) polygons) /\
  (forall (wall_thickness : float) (units : string),
     exists room : Room.t float,
       rooms (compute_areas_and_walls [tall_room] wall_thickness units)
         = [room] /\
       Room.long_wall_length room = 12%float /\
       Room.short_wall_length room = 20%float /\
       (Room.short_wall_length room >? Room.long_wall_length room)%py = true).
Proof.
  split.
  - intros F S polygons wt units r. subst r.
    rewrite rooms_of_polygons, !map_map.
    rewrite <- (map_enumerate_snd _ _
                  (fun poly => x_extent_twice (Polygon.bounds poly)) polygons 1).
    rewrite <- (map_enumerate_snd _ _
                  (fun poly => y_extent_twice (Polygon.bounds poly)) polygons 1).
    split; apply map_ext; intros [idx poly]; cbn [fst snd];
      unfold room_of, x_extent_twice, y_extent_twice;
      now destruct (Polygon.bounds poly) as [[[minx miny] maxx] maxy].
  - intros wt units.
    exists (room_of wt 1 tall_room).
    split; [now rewrite rooms_of_polygons|].
    repeat split.
Qed.

(* ================================================================= *)
(** * Segment extraction *)

Section ExtractFacts.

Context {F : Type} `{Scalar F}.

Lemma extract_fold (msp : list (Entity F)) :
  forall acc : list (LineString F),
    fold_left extract_step msp acc = acc ++ flat_map entity_lines msp.
Proof.
  induction msp as [|e msp IH]; intros acc; cbn.
  - now rewrite app_nil_r.
  - rewrite IH. unfold extract_step. now rewrite <- app_assoc.
Qed.

(** [geom_lines] is the concatenation of what each entity contributes. *)
Lemma extract_lines_flat_map (msp : list (Entity F)) :
  extract_lines msp = flat_map entity_lines msp.
Proof.
  unfold extract_lines. now rewrite extract_fold.
Qed.

Lemma extract_lines_app (before after : list (Entity F)) :
  extract_lines (before ++ after)
  = extract_lines before ++ extract_lines after.
Proof.
  rewrite !extract_lines_flat_map. apply flat_map_app.
Qed.

Lemma extract_lines_cons (e : Entity F) (after : list (Entity F)) :
  extract_lines (e :: after) = entity_lines e ++ extract_lines after.
Proof.
  now rewrite !extract_lines_flat_map.
Qed.

(** Appending a point to a non-empty chain adds the edge from its last
    point to the new one. *)
Lemma edges_snoc (pts : list (point F)) (p : point F) :
  pts <> [] -> edges (pts ++ [p]) = edges pts ++ [(last pts [], p)].
Proof.
  unfold edges. induction pts as [|a pts IH]; intros Hne; [congruence|].
  destruct pts as [|b pts]; [reflexivity|].
  change (combine ((a :: b :: pts) ++ [p]) (tl ((a :: b :: pts) ++ [p])))
    with ((a, b) :: combine ((b :: pts) ++ [p]) (tl ((b :: pts) ++ [p]))).
  rewrite IH by discriminate. reflexivity.
Qed.

Lemma polyline_lines (e : Entity F) :
  dxftype e = "LWPOLYLINE"%string \/ dxftype e = "POLYLINE"%string ->
  entity_lines e
  = if (3 <=? List.length (polyline_points e))%nat
    then [close_chain (polyline_points e)] else [].
Proof.
  unfold entity_lines. intros [-> | ->]; reflexivity.
Qed.

End ExtractFacts.

(** C7.  In segment extraction, a poly-vertex entity ([LWPOLYLINE] or
    [POLYLINE]) whose point list has fewer than 3 points adds nothing to the
    extracted lines, hence no segment.  One with at least 3 points whose
    first point differs from its last adds the single chain made of its
    points followed by its first point, so that the segments it yields are
    the edges of its points and then the closing edge from the last point
    back to the first. *)
Theorem polyline_dropped_or_closed :
  forall (F : Type) (S : Scalar F) (before after : list (Entity F))
         (e : Entity F),
    dxftype e = "LWPOLYLINE"%string \/ dxftype e = "POLYLINE"%string ->
    let pts := polyline_points e in
    ((List.length pts < 3)%nat ->
       extract_lines (before ++ e :: after)
         = extract_lines before ++ extract_lines after /\
       segments (extract_lines (before ++ e :: after))
         = segments (extract_lines before)
           ++ segments (extract_lines after)) /\
    ((3 <= List.length pts)%nat ->
     tuple_eqb (nth 0 pts []) (last pts []) = false ->
       extract_lines (before ++ e :: after)
         = extract_lines before ++ [pts ++ [nth 0 pts []]]
           ++ extract_lines after /\
       segments (extract_lines (before ++ e :: after))
         = segments (extract_lines before)
           ++ (edges pts ++ [(last pts [], nth 0 pts [])])
           ++ segments (extract_lines after)).
Proof.
  intros F S before after e Htype pts.
  assert (Hlines := polyline_lines e Htype). fold pts in Hlines.
  split.
  - intros Hshort.
    assert (Hleb : (3 <=? List.length pts)%nat = false)
      by (apply Nat.leb_gt; exact Hshort).
    rewrite Hleb in Hlines.
    assert (Hx : extract_lines (before ++ e :: after)
                 = extract_lines before ++ extract_lines after)
      by now rewrite extract_lines_app, extract_lines_cons, Hlines.
    split; [exact Hx|].
    rewrite Hx. unfold segments. apply flat_map_app.
  - intros Hlong Hopen.
    assert (Hleb : (3 <=? List.length pts)%nat = true)
      by (apply Nat.leb_le; exact Hlong).
    rewrite Hleb in Hlines.
    unfold close_chain in Hlines. rewrite Hopen in Hlines. cbn in Hlines.
    assert (Hx : extract_lines (before ++ e :: after)
                 = extract_lines before ++ [pts ++ [nth 0 pts []]]
                   ++ extract_lines after)
      by now rewrite extract_lines_app, extract_lines_cons, Hlines.
    split; [exact Hx|].
    rewrite Hx. unfold segments. rewrite !flat_map_app. cbn [flat_map].
    rewrite app_nil_r, edges_snoc; [reflexivity|].
    intros Hnil. rewrite Hnil in Hlong. cbn in Hlong. lia.
Qed.

(** The theorem at a polyline of two vertices (dropped) and at the open
    four-vertex polyline of the 10 by 6 plan (closed by a fifth point). *)
Lemma polyline_dropped_or_closed_witness :
  (dxftype two_point_polyline = "LWPOLYLINE"%string /\
   (List.length (polyline_points two_point_polyline) < 3)%nat /\
   extract_lines ([] ++ two_point_polyline :: []) = []) /\
  (dxftype open_polyline = "LWPOLYLINE"%string /\
   (3 <= List.length (polyline_points open_polyline))%nat /\
   tuple_eqb (nth 0 (polyline_points open_polyline) [])
     (last (polyline_points open_polyline) []) = false /\
   extract_lines ([] ++ open_polyline :: [])
     = [ [ [0; 0]; [10; 0]; [10; 6]; [0; 6]; [0; 0] ] ]%float).
Proof.
  split.
  - split; [reflexivity|]. split; [cbn; lia|].
    destruct (polyline_dropped_or_closed float binary64 [] []
                two_point_polyline (or_introl eq_refl)) as [Hshort _].
    destruct Hshort as [Hx _]; [cbn; lia|].
    rewrite Hx. reflexivity.
  - split; [reflexivity|]. split; [cbn; lia|]. split; [reflexivity|].
    destruct (polyline_dropped_or_closed float binary64 [] []
                open_polyline (or_introl eq_refl)) as [_ Hlong].
    destruct Hlong as [Hx _]; [cbn; lia|reflexivity|].
    rewrite Hx. reflexivity.
Defined.

(* ================================================================= *)
(** * The noise filter *)

(** In exact arithmetic a face is not above the threshold exactly when its
    area is at most [1e-6]: the boundary value is on the discarded side. *)
Lemma not_above_noise_exact (face : Polygon.t Q) :
  above_noise face = false <-> Polygon.area face <= 1e-6.
Proof.
  unfold above_noise, noise_threshold; cbn.
  rewrite negb_false_iff. apply Qle_bool_iff.
Qed.

(** C6 (as amended).  When some line was extracted, the polygons returned
    are the candidate faces, in order, whose area is strictly above
    [1e-6]: a candidate is returned exactly when [area > 1e-6] holds, so a
    face whose area equals the threshold is discarded like the smaller
    ones.  Every returned polygon is closed, its first point equal to its
    last, and has area above the threshold. *)
Theorem reconstruct_keeps_faces_above_noise :
  forall (F : Type) (S : Scalar F) (Merged : Type)
         (unary_union : list (LineString F) -> Merged)
         (polygonize : Merged -> list (Polygon.t F))
         (geom_lines : list (LineString F)),
    geom_lines <> [] ->
    let faces := candidate_faces unary_union polygonize geom_lines in
    let polys := reconstruct unary_union polygonize geom_lines in
    polys = filter above_noise faces /\
    (forall face : Polygon.t F,
       In face polys <->
       In face faces /\ (Polygon.area face >? lit 1e-6)%py = true) /\
    (forall face : Polygon.t F,
       In face faces ->
       (Polygon.area face >? lit 1e-6)%py = false ->
       ~ In face polys) /\
    (forall poly : Polygon.t F,
       In poly polys ->
       Polygon.exterior poly <> [] /\
       nth 0 (Polygon.exterior poly) [] = last (Polygon.exterior poly) [] /\
       (Polygon.area poly >? lit 1e-6)%py = true).
Proof.
  intros F S Merged uu pz geom_lines Hne faces polys.
  assert (Hpolys : polys = filter above_noise faces).
  { subst polys faces. unfold reconstruct.
    destruct geom_lines; [congruence | reflexivity]. }
  split; [exact Hpolys|]. split; [|split].
  - intros face. rewrite Hpolys. apply filter_In.
  - intros face _ Hbelow Hin. rewrite Hpolys in Hin.
    apply filter_In in Hin as [_ Habove].
    unfold above_noise, noise_threshold in Habove. congruence.
  - intros poly Hin. rewrite Hpolys in Hin.
    apply filter_In in Hin as [_ Habove].
    destruct (Polygon.ring_closed poly) as [Hpoints Hends].
    repeat split; assumption.
Qed.

(** The theorem on the 10 by 6 plan: one line is extracted, its one face
    is returned, closed and above the threshold. *)
Lemma reconstruct_keeps_faces_above_noise_witness :
  extract_lines (F := float) plan_10_by_6 <> [] /\
  parse_dxf_to_polygons (F := float) rect_union rect_polygonize plan_10_by_6
    = [rectangle (of_int 0) (of_int 0) (of_int 10) (of_int 6)] /\
  forall poly : Polygon.t float,
    In poly (parse_dxf_to_polygons rect_union rect_polygonize plan_10_by_6) ->
    Polygon.exterior poly <> [] /\
    nth 0 (Polygon.exterior poly) [] = last (Polygon.exterior poly) [] /\
    (Polygon.area poly >? lit 1e-6)%py = true.
Proof.
  assert (Hne : extract_lines (F := float) plan_10_by_6 <> [])
    by discriminate.
  destruct (reconstruct_keeps_faces_above_noise float binary64 _
              rect_union rect_polygonize _ Hne) as (Hpolys & _ & _ & Hout).
  split; [exact Hne|]. split.
  - unfold parse_dxf_to_polygons. rewrite Hpolys. reflexivity.
  - exact Hout.
Defined.

(** C6, as stated, fails at the boundary: the sliver of area exactly
    [1e-6] is a candidate face whose area does not fall below the
    threshold, and it is discarded. *)
Lemma face_at_threshold_is_discarded :
  let sliver : Polygon.t float :=
    rectangle (of_int 0) (of_int 0) (lit 1e-6) (of_int 1) in
  In sliver (candidate_faces rect_union rect_polygonize
               (extract_lines sliver_plan)) /\
  Polygon.area sliver = lit 1e-6 /\
  (lit 1e-6 >? Polygon.area sliver)%py = false /\
  parse_dxf_to_polygons rect_union rect_polygonize sliver_plan = [] /\
  ~ (forall face : Polygon.t float,
       In face (candidate_faces rect_union rect_polygonize
                  (extract_lines sliver_plan)) ->
       (~ In face (parse_dxf_to_polygons rect_union rect_polygonize
                     sliver_plan)
        <-> (lit 1e-6 >? Polygon.area face)%py = true)).
Proof.
  intros sliver.
  assert (Hin : In sliver (candidate_faces rect_union rect_polygonize
                             (extract_lines sliver_plan)))
    by (left; reflexivity).
  assert (Hout : parse_dxf_to_polygons rect_union rect_polygonize sliver_plan
                 = []) by reflexivity.
  repeat split; try assumption; try reflexivity.
  intros Hall. destruct (Hall sliver Hin) as [Hdiscarded _].
  assert (Hbelow : (lit 1e-6 >? Polygon.area sliver)%py = true).
  { apply Hdiscarded. rewrite Hout. intros []. }
  discriminate Hbelow.
Qed.

(* ================================================================= *)
(** * Material quantities *)

Section MaterialsFacts.

Context {F : Type} `{Scalar F}.
Local Open Scope py_scope.

(** The 1:2:4 mix with a non-zero bag mass: no division raises. *)
Lemma concrete_mix_returns (cement_bag_kg v : F) :
  (cement_bag_kg ==? of_int 0) = false ->
  concrete_materials_for_volume cement_bag_kg v (1, 2, 4)%Z
  = OK {| concrete_volume_m3 := v;
          cement_kg := v * lit 1.54 * (of_int 1 / of_int 7) * of_int 1440;
          cement_bags :=
            v * lit 1.54 * (of_int 1 / of_int 7) * of_int 1440
            / cement_bag_kg;
          sand_m3 := v * lit 1.54 * (of_int 2 / of_int 7);
          aggregate_m3 := v * lit 1.54 * (of_int 4 / of_int 7) |}.
Proof.
  intros Hbag.
  unfold concrete_materials_for_volume, int_truediv, py_div.
  cbn. now rewrite Hbag.
Qed.

(** With a zero bag mass the division [cement_kg / cement_bag_kg] raises. *)
Lemma concrete_mix_raises (cement_bag_kg v : F) :
  (cement_bag_kg ==? of_int 0) = true ->
  concrete_materials_for_volume cement_bag_kg v (1, 2, 4)%Z
  = Raise ZeroDivisionError.
Proof.
  intros Hbag.
  unfold concrete_materials_for_volume, int_truediv, py_div.
  cbn. now rewrite Hbag.
Qed.

(** The volume of concrete handed to the mix: slab, footing and PCC. *)
Lemma estimate_returns (results : AggregateResult F)
  (cement_bag_kg plaster_thickness_mm tile_size_mm : F) (n : Z) :
  tiles_for (Totals.carpet_area (totals results)) tile_size_mm = OK n ->
  (cement_bag_kg ==? of_int 0) = false ->
  let A := Totals.built_up_area (totals results) in
  let P := Totals.perimeter (totals results) in
  let t := wall_thickness results in
  let combined := A * lit 0.15 + P * lit 0.6 * lit 0.5 + A * lit 0.10 in
  exists (m : MaterialsResult F) (mix : ConcreteMix F),
    estimate_materials_for_workitems results
      cement_bag_kg plaster_thickness_mm tile_size_mm = OK m /\
    concrete_materials_for_volume cement_bag_kg combined (1, 2, 4)%Z
      = OK mix /\
    concrete_breakdown m = mix /\
    tiles_count m = n /\
    bricks_count m = P * t * lit 3.0 * of_int 500 /\
    plaster_volume_m3 m
      = P * lit 3.0 * (plaster_thickness_mm / lit 1000.0) /\
    paint_liters m = P * lit 3.0 / of_int 10 /\
    map (fun w => (item w, item_amount w)) (workitems m)
    = [ ("Excavation"%string, quantity (Float (P * lit 1.0 * lit 1.0)));
        ("PCC (under slab)"%string, quantity (Float (A * lit 0.10)));
        ("Footing concrete"%string,
          quantity (Float (P * lit 0.6 * lit 0.5)));
        ("RCC slab/beams"%string, quantity (Float (A * lit 0.15)));
        ("Reinforcement steel"%string,
          quantity (Float (combined * of_int 80)));
        ("Masonry (bricks)"%string,
          quantity (Float (P * t * lit 3.0 * of_int 500)));
        ("Sand (for concrete/mortar)"%string,
          quantity_m3 (Float (sand_m3 mix)));
        ("Coarse aggregate"%string,
          quantity_m3 (Float (aggregate_m3 mix)));
        ("Cement"%string, quantity (Float (cement_bags mix)));
        ("Plaster (both sides)"%string,
          quantity
            (Float (P * lit 3.0 * (plaster_thickness_mm / lit 1000.0))));
        ("Tiles / Flooring"%string, quantity (Int n));
        ("Paint (liters)"%string,
          quantity (Float (P * lit 3.0 / of_int 10))) ].
Proof.
  intros Htiles Hbag A P t combined.
  unfold estimate_materials_for_workitems.
  fold A P t. rewrite Htiles. cbn [bind].
  fold combined.
  rewrite concrete_mix_returns by exact Hbag. cbn [bind].
  eexists. eexists. split; [reflexivity|].
  repeat split.
Qed.

(** With a zero bag mass the estimate raises as soon as the tile count
    has been computed. *)
Lemma estimate_raises (results : AggregateResult F)
  (cement_bag_kg plaster_thickness_mm tile_size_mm : F) (n : Z) :
  tiles_for (Totals.carpet_area (totals results)) tile_size_mm = OK n ->
  (cement_bag_kg ==? of_int 0) = true ->
  estimate_materials_for_workitems results
    cement_bag_kg plaster_thickness_mm tile_size_mm
  = Raise ZeroDivisionError.
Proof.
  intros Htiles Hbag.
  unfold estimate_materials_for_workitems.
  rewrite Htiles. cbn [bind].
  now rewrite concrete_mix_raises by exact Hbag.
Qed.

End MaterialsFacts.

(** C3.  With a non-zero bag mass, the concrete-mix function on a volume
    [v] and the 1:2:4 mix returns [dry_volume = v * 1.54] split as
    [cement_volume = dry_volume * (1/7)], [cement_kg = cement_volume * 1440],
    [cement_bags = cement_kg / cement_bag_kg], sand [dry_volume * (2/7)] and
    aggregate [dry_volume * (4/7)].  In [estimate_materials_for_workitems]
    its one result, computed on the sum of the slab, footing and PCC
    volumes, is the [concrete_breakdown] and supplies the sand, aggregate and
    cement work items. *)
Theorem concrete_mix_on_combined_volume :
  forall (F : Type) (S : Scalar F) (cement_bag_kg : F),
    (cement_bag_kg ==? of_int 0)%py = false ->
    (forall v : F,
       let dry_volume := (v * lit 1.54)%py in
       let cement_volume := (dry_volume * (of_int 1 / of_int 7))%py in
       let cement_mass := (cement_volume * of_int 1440)%py in
       concrete_materials_for_volume cement_bag_kg v (1, 2, 4)%Z
       = OK {| concrete_volume_m3 := v;
               cement_kg := cement_mass;
               cement_bags := (cement_mass / cement_bag_kg)%py;
               sand_m3 := (dry_volume * (of_int 2 / of_int 7))%py;
               aggregate_m3 := (dry_volume * (of_int 4 / of_int 7))%py |}) /\
    (forall (results : AggregateResult F)
            (plaster_thickness_mm tile_size_mm : F) (n : Z),
       tiles_for (Totals.carpet_area (totals results)) tile_size_mm = OK n ->
       let A := Totals.built_up_area (totals results) in
       let P := Totals.perimeter (totals results) in
       let slab_volume := (A * lit 0.15)%py in
       let footing_volume := (P * lit 0.6 * lit 0.5)%py in
       let pcc_volume := (A * lit 0.10)%py in
       exists (m : MaterialsResult F) (mix : ConcreteMix F),
         estimate_materials_for_workitems results
           cement_bag_kg plaster_thickness_mm tile_size_mm = OK m /\
         concrete_materials_for_volume cement_bag_kg
           (slab_volume + footing_volume + pcc_volume)%py (1, 2, 4)%Z
           = OK mix /\
         concrete_breakdown m = mix /\
         nth_error (workitems m) 6
           = Some {| item := "Sand (for concrete/mortar)";
                     item_amount := quantity_m3 (Float (sand_m3 mix));
                     unit := label "m3" |} /\
         nth_error (workitems m) 7
           = Some {| item := "Coarse aggregate";
                     item_amount := quantity_m3 (Float (aggregate_m3 mix));
                     unit := label "m3" |} /\
         nth_error (workitems m) 8
           = Some {| item := "Cement";
                     item_amount := quantity (Float (cement_bags mix));
                     unit := bags_of cement_bag_kg |}).
Proof.
  intros F S bag Hbag. split.
  - intros v. cbv zeta. now apply concrete_mix_returns.
  - intros results pt ts n Htiles. cbv zeta.
    unfold estimate_materials_for_workitems.
    rewrite Htiles. cbn [bind].
    rewrite concrete_mix_returns by exact Hbag. cbn [bind].
    eexists. eexists. split; [reflexivity|].
    repeat split.
Qed.

(** The theorem at the 10 by 6 room with the default constants: 24.6 m3
    of concrete, 155.8656 bags of 50 kg. *)
Lemma concrete_mix_on_combined_volume_witness :
  (Binary64.of_int 50 ==? of_int 0)%py = false /\
  tiles_for (Totals.carpet_area (totals (scenario_results (lit 0.2))))
    (of_int 600) = OK 150%Z /\
  exists (m : MaterialsResult float),
    estimate_materials_for_workitems (scenario_results (lit 0.2))
      (of_int 50) (of_int 12) (of_int 600) = OK m /\
    concrete_breakdown m
    = {| concrete_volume_m3 := 24.600000000000001%float;
         cement_kg := 7793.2799999999997%float;
         cement_bags := 155.8656%float;
         sand_m3 := 10.824%float;
         aggregate_m3 := 21.648%float |}.
Proof.
  split; [reflexivity|]. split; [reflexivity|].
  assert (Hbag : (Binary64.of_int 50 ==? of_int 0)%py = false)
    by reflexivity.
  assert (Htiles :
    tiles_for (Totals.carpet_area (totals (scenario_results (lit 0.2))))
      (of_int 600) = OK 150%Z) by reflexivity.
  destruct (concrete_mix_on_combined_volume float binary64 _ Hbag)
    as [_ Hest].
  destruct (Hest (scenario_results (lit 0.2)) (of_int 12) (of_int 600)
              150%Z Htiles)
    as (m & mix & Hm & Hmix & Hbreak & _).
  exists m. split; [exact Hm|].
  rewrite Hbreak.
  assert (Hvalue :
    OK mix = OK {| concrete_volume_m3 := 24.600000000000001%float;
                   cement_kg := 7793.2799999999997%float;
                   cement_bags := 155.8656%float;
                   sand_m3 := 10.824%float;
                   aggregate_m3 := 21.648%float |}).
  { rewrite <- Hmix. reflexivity. }
  now injection Hvalue.
Defined.

(* ================================================================= *)
(** * Faults of the estimate *)

(** C5.  The zero tile area is special-cased: when the tile area
    [(tile_size_mm / 1000.0) ** 2] is not above [0], the tile count is [0]
    and the division by it is not attempted.  The division by
    [cement_bag_kg] has no such guard: whenever the tile count is computed
    and [cement_bag_kg] is zero, [estimate_materials_for_workitems] raises
    [ZeroDivisionError] instead of returning. *)
Theorem zero_bag_mass_raises :
  forall (F : Type) (S : Scalar F),
    (forall carpet tile_size_mm tile_area_m2 : F,
       fsquare (tile_size_mm / lit 1000.0)%py = OK tile_area_m2 ->
       (tile_area_m2 >? of_int 0)%py = false ->
       tiles_for carpet tile_size_mm = OK 0%Z) /\
    (forall (results : AggregateResult F)
            (cement_bag_kg plaster_thickness_mm tile_size_mm : F) (n : Z),
       tiles_for (Totals.carpet_area (totals results)) tile_size_mm = OK n ->
       (cement_bag_kg ==? of_int 0)%py = true ->
       estimate_materials_for_workitems results
         cement_bag_kg plaster_thickness_mm tile_size_mm
       = Raise ZeroDivisionError).
Proof.
  intros F S. split.
  - intros carpet ts ta Hsquare Hflat.
    unfold tiles_for. rewrite Hsquare. cbn [bind]. now rewrite Hflat.
  - intros results bag pt ts n Htiles Hbag.
    now apply estimate_raises with (n := n).
Qed.

(** The failing input: the 10 by 6 room, [cement_bag_kg = 0], the other
    constants at their defaults; and the guarded case, a zero tile size. *)
Lemma zero_bag_mass_raises_witness :
  (fsquare (Binary64.of_int 0 / lit 1000.0)%py = OK 0%float /\
   (0%float >? of_int 0)%py = false /\
   tiles_for (F := float) (lit 53.76) (Binary64.of_int 0) = OK 0%Z) /\
  (tiles_for (Totals.carpet_area (totals (scenario_results (lit 0.2))))
     (of_int 600) = OK 150%Z /\
   (Binary64.of_int 0 ==? of_int 0)%py = true /\
   estimate_materials_for_workitems (scenario_results (lit 0.2))
     (of_int 0) (of_int 12) (of_int 600)
   = Raise ZeroDivisionError).
Proof.
  destruct (zero_bag_mass_raises float binary64) as [Hguard Hraise].
  split.
  - assert (Hsquare : fsquare (Binary64.of_int 0 / lit 1000.0)%py
                      = OK 0%float) by reflexivity.
    assert (Hflat : (0%float >? of_int 0)%py = false) by reflexivity.
    split; [exact Hsquare|]. split; [exact Hflat|].
    exact (Hguard (lit 53.76) _ _ Hsquare Hflat).
  - assert (Htiles :
      tiles_for (Totals.carpet_area (totals (scenario_results (lit 0.2))))
        (of_int 600) = OK 150%Z) by reflexivity.
    assert (Hbag : (Binary64.of_int 0 ==? of_int 0)%py = true)
      by reflexivity.
    split; [exact Htiles|]. split; [exact Hbag|].
    exact (Hraise (scenario_results (lit 0.2))
             _ (Binary64.of_int 12) _ 150%Z Htiles Hbag).
Defined.

(** The guarded division: a zero tile size gives a zero tile count. *)
Lemma zero_tile_size_gives_no_tiles :
  tiles_for (F := float) (lit 53.76) (of_int 0) = OK 0%Z /\
  forall carpet : Q, tiles_for (F := Q) carpet 0 = OK 0%Z.
Proof.
  split; reflexivity.
Qed.

(* ================================================================= *)
(** * Exact arithmetic *)

Ltac exact_arith :=
  cbn [of_int lit fneg fadd fsub fmul fdiv feqb fltb fsquare fceil exact]
    in *.

Lemma exact_nonzero (x : Q) : ~ x == 0 -> (x ==? of_int 0)%py = false.
Proof.
  intros Hx. exact_arith.
  destruct (Qeq_bool x (inject_Z 0)) eqn:E; [|reflexivity].
  apply Qeq_bool_iff in E. contradiction.
Qed.

Lemma exact_is_zero (x : Q) : x == 0 -> is_zero (Float x) = true.
Proof.
  intros Hx. unfold is_zero. exact_arith. now apply Qeq_bool_iff.
Qed.

(** In exact arithmetic the tile count never raises, and it is [0] for a
    zero carpet area. *)
Lemma tiles_for_exact (carpet tile_size_mm : Q) :
  exists n : Z,
    tiles_for carpet tile_size_mm = OK n /\ (carpet == 0 -> n = 0%Z).
Proof.
  unfold tiles_for, py_div. exact_arith. cbn [bind].
  set (tile_area := (tile_size_mm / 1000.0) * (tile_size_mm / 1000.0)).
  destruct (Qle_bool tile_area (inject_Z 0)) eqn:Hle; cbn [negb].
  - exists 0%Z. now split.
  - destruct (Qeq_bool tile_area (inject_Z 0)) eqn:Heq.
    + apply Qeq_bool_iff in Heq.
      assert (Hle' : Qle_bool tile_area (inject_Z 0) = true)
        by (apply Qle_bool_iff; rewrite Heq; apply Qle_refl).
      congruence.
    + cbn [bind]. exists (Qceiling (carpet / tile_area)).
      split; [reflexivity|].
      intros Hc. rewrite Hc. unfold Qdiv. now rewrite Qmult_0_l.
Qed.

(** In exact arithmetic a non-zero bag mass is all the estimate needs to
    return. *)
Lemma estimate_exact_returns (results : AggregateResult Q)
  (cement_bag_kg plaster_thickness_mm tile_size_mm : Q) :
  ~ cement_bag_kg == 0 ->
  exists m : MaterialsResult Q,
    estimate_materials_for_workitems results
      cement_bag_kg plaster_thickness_mm tile_size_mm = OK m.
Proof.
  intros Hbag.
  destruct (tiles_for_exact (Totals.carpet_area (totals results))
              tile_size_mm) as (n & Hn & _).
  destruct (estimate_returns results cement_bag_kg plaster_thickness_mm
              tile_size_mm n Hn (exact_nonzero _ Hbag))
    as (m & _ & Hm & _).
  now exists m.
Qed.

(* ================================================================= *)
(** * Wall thickness and material quantities *)

(** C4 (as amended).  Take two aggregate results with the same totals and
    the same tunable constants.  Whenever both estimates return, their
    [plaster_volume_m3], concrete breakdown (cement, sand, aggregate), tile
    count and paint are equal: none of them depends on the wall thickness,
    so none decreases and the plaster volume does not increase either.  In
    exact arithmetic, with a non-zero bag mass, both estimates return, and
    when the total perimeter is positive the strictly larger wall thickness
    gives a strictly larger [bricks_count]. *)
Theorem wall_thickness_changes_bricks_only :
  (forall (F : Type) (S : Scalar F) (r1 r2 : AggregateResult F)
          (cement_bag_kg plaster_thickness_mm tile_size_mm : F)
          (m1 m2 : MaterialsResult F),
     totals r1 = totals r2 ->
     estimate_materials_for_workitems r1
       cement_bag_kg plaster_thickness_mm tile_size_mm = OK m1 ->
     estimate_materials_for_workitems r2
       cement_bag_kg plaster_thickness_mm tile_size_mm = OK m2 ->
     plaster_volume_m3 m1 = plaster_volume_m3 m2 /\
     concrete_breakdown m1 = concrete_breakdown m2 /\
     tiles_count m1 = tiles_count m2 /\
     paint_liters m1 = paint_liters m2) /\
  (forall (r1 r2 : AggregateResult Q)
          (cement_bag_kg plaster_thickness_mm tile_size_mm : Q),
     totals r1 = totals r2 ->
     ~ cement_bag_kg == 0 ->
     0 < Totals.perimeter (totals r1) ->
     wall_thickness r1 < wall_thickness r2 ->
     exists m1 m2 : MaterialsResult Q,
       estimate_materials_for_workitems r1
         cement_bag_kg plaster_thickness_mm tile_size_mm = OK m1 /\
       estimate_materials_for_workitems r2
         cement_bag_kg plaster_thickness_mm tile_size_mm = OK m2 /\
       bricks_count m1 < bricks_count m2 /\
       plaster_volume_m3 m1 = plaster_volume_m3 m2 /\
       cement_bags (concrete_breakdown m1)
         = cement_bags (concrete_breakdown m2) /\
       sand_m3 (concrete_breakdown m1) = sand_m3 (concrete_breakdown m2) /\
       aggregate_m3 (concrete_breakdown m1)
         = aggregate_m3 (concrete_breakdown m2)).
Proof.
  split.
  - intros F S r1 r2 bag pt ts m1 m2 Htot H1 H2.
    unfold estimate_materials_for_workitems in H1, H2.
    rewrite Htot in H1.
    destruct (tiles_for (Totals.carpet_area (totals r2)) ts) as [n|e];
      [|discriminate]. cbn [bind] in H1, H2.
    destruct (concrete_materials_for_volume _ _ _) as [mix|e];
      [|discriminate]. cbn [bind] in H1, H2.
    injection H1 as <-. injection H2 as <-. repeat split.
  - intros r1 r2 bag pt ts Htot Hbag Hperim Hthick.
    destruct (tiles_for_exact (Totals.carpet_area (totals r1)) ts)
      as (n & Hn & _).
    assert (Hn2 := Hn). rewrite Htot in Hn2.
    destruct (estimate_returns r1 bag pt ts n Hn (exact_nonzero _ Hbag))
      as (m1 & mix1 & Hm1 & Hmix1 & Hb1 & _ & Hbricks1 & Hpl1 & _).
    destruct (estimate_returns r2 bag pt ts n Hn2 (exact_nonzero _ Hbag))
      as (m2 & mix2 & Hm2 & Hmix2 & Hb2 & _ & Hbricks2 & Hpl2 & _).
    exists m1, m2. split; [exact Hm1|]. split; [exact Hm2|].
    assert (Hmix : mix1 = mix2).
    { rewrite Htot in Hmix1. rewrite Hmix1 in Hmix2. now injection Hmix2. }
    rewrite Hbricks1, Hbricks2, Hpl1, Hpl2, Hb1, Hb2, Hmix, <- Htot.
    split; [|repeat split].
    exact_arith.
    apply Qmult_lt_r; [reflexivity|].
    apply Qmult_lt_r; [reflexivity|].
    apply Qmult_lt_l; assumption.
Qed.

(** The theorem at the totals of the 10 by 6 room, wall thickness 0.2
    against 0.3: in binary64 the plaster and the concrete do not move; in
    exact arithmetic the bricks go from 9600 to 14400. *)
Lemma wall_thickness_changes_bricks_only_witness :
  (exists m1 m2 : MaterialsResult float,
     estimate_materials_for_workitems (scenario_results (lit 0.2))
       (of_int 50) (of_int 12) (of_int 600) = OK m1 /\
     estimate_materials_for_workitems (scenario_results (lit 0.3))
       (of_int 50) (of_int 12) (of_int 600) = OK m2 /\
     plaster_volume_m3 m1 = plaster_volume_m3 m2 /\
     concrete_breakdown m1 = concrete_breakdown m2) /\
  (~ 50 == 0 /\ 0 < 32 /\ 0.2 < 0.3 /\
   exists m1 m2 : MaterialsResult Q,
     estimate_materials_for_workitems (results_with 60 53.76 32 0.2)
       50 12 600 = OK m1 /\
     estimate_materials_for_workitems (results_with 60 53.76 32 0.3)
       50 12 600 = OK m2 /\
     bricks_count m1 < bricks_count m2).
Proof.
  destruct wall_thickness_changes_bricks_only as [Hany Hexact].
  split.
  - destruct (estimate_materials_for_workitems (scenario_results (lit 0.2))
                (of_int 50) (of_int 12) (of_int 600)) as [m1|e] eqn:H1;
      [|vm_compute in H1; discriminate H1].
    destruct (estimate_materials_for_workitems (scenario_results (lit 0.3))
                (of_int 50) (of_int 12) (of_int 600)) as [m2|e] eqn:H2;
      [|vm_compute in H2; discriminate H2].
    exists m1, m2.
    destruct (Hany float binary64 (scenario_results (lit 0.2))
                (scenario_results (lit 0.3)) _ _ _ m1 m2 eq_refl H1 H2)
      as (Hpl & Hmix & _).
    repeat split; assumption.
  - assert (Hbag : ~ 50 == 0) by (intros E; discriminate E).
    assert (Hperim : 0 < 32) by reflexivity.
    assert (Hthick : 0.2 < 0.3) by reflexivity.
    split; [exact Hbag|]. split; [exact Hperim|]. split; [exact Hthick|].
    destruct (Hexact (results_with 60 53.76 32 0.2)
                (results_with 60 53.76 32 0.3) 50 12 600
                eq_refl Hbag Hperim Hthick)
      as (m1 & m2 & H1 & H2 & Hbricks & _).
    exists m1, m2. repeat split; assumption.
Defined.

(** C4, as stated, fails.  In binary64, on the totals of the 10 by 6 room
    with the default constants, raising the wall thickness from 0.2 to 0.3
    leaves [plaster_volume_m3] at [1.1520000000000001]: it is not strictly
    larger.  And with a zero total perimeter the brick count stays [0]. *)
Lemma plaster_ignores_wall_thickness :
  (lit (F := float) 0.3 >? lit 0.2)%py = true /\
  (exists m1 m2 : MaterialsResult float,
     estimate_materials_for_workitems (scenario_results (lit 0.2))
       (of_int 50) (of_int 12) (of_int 600) = OK m1 /\
     estimate_materials_for_workitems (scenario_results (lit 0.3))
       (of_int 50) (of_int 12) (of_int 600) = OK m2 /\
     plaster_volume_m3 m1 = 1.1520000000000001%float /\
     plaster_volume_m3 m2 = 1.1520000000000001%float /\
     (plaster_volume_m3 m2 >? plaster_volume_m3 m1)%py = false) /\
  (exists m1 m2 : MaterialsResult float,
     estimate_materials_for_workitems
       (results_with (of_int 0) (of_int 0) (of_int 0) (lit 0.2))
       (of_int 50) (of_int 12) (of_int 600) = OK m1 /\
     estimate_materials_for_workitems
       (results_with (of_int 0) (of_int 0) (of_int 0) (lit 0.3))
       (of_int 50) (of_int 12) (of_int 600) = OK m2 /\
     (bricks_count m2 >? bricks_count m1)%py = false).
Proof.
  split; [reflexivity|]. split.
  - eexists. eexists. split; [reflexivity|]. split; [reflexivity|].
    repeat split.
  - eexists. eexists. split; [reflexivity|]. split; [reflexivity|].
    reflexivity.
Qed.

(* ================================================================= *)
(** * Zeros in binary64 *)

(** How the IEEE operations treat a zero operand, read off the
    specification of the primitive floats. *)
Module Binary64Facts.

Lemma zero_finite (x : float) :
  Binary64.zero x = true -> Binary64.finite x = true.
Proof.
  unfold Binary64.zero, Binary64.finite. now destruct (Prim2SF x).
Qed.

Lemma eqb_zero (x : float) : PrimFloat.eqb x 0 = Binary64.zero x.
Proof.
  rewrite FloatAxioms.eqb_spec. unfold Binary64.zero.
  change (Prim2SF 0) with (S754_zero false).
  destruct (Prim2SF x) as [s|s| |s m e]; try reflexivity.
  - now destruct s.
  - now destruct s.
Qed.

Lemma mul_zero (x y : float) :
  Binary64.zero x = true -> Binary64.finite y = true ->
  Binary64.zero (PrimFloat.mul x y) = true.
Proof.
  unfold Binary64.zero, Binary64.finite. rewrite FloatAxioms.mul_spec.
  destruct (Prim2SF x), (Prim2SF y); try discriminate; reflexivity.
Qed.

Lemma add_zero (x y : float) :
  Binary64.zero x = true -> Binary64.zero y = true ->
  Binary64.zero (PrimFloat.add x y) = true.
Proof.
  unfold Binary64.zero. rewrite FloatAxioms.add_spec.
  destruct (Prim2SF x) as [sx|sx| |sx mx ex],
           (Prim2SF y) as [sy|sy| |sy my ey]; try discriminate.
  now destruct sx, sy.
Qed.

Lemma div_zero (x y : float) :
  Binary64.zero x = true ->
  Binary64.zero y = false -> Binary64.not_nan y = true ->
  Binary64.zero (PrimFloat.div x y) = true.
Proof.
  unfold Binary64.zero, Binary64.not_nan. rewrite FloatAxioms.div_spec.
  destruct (Prim2SF x), (Prim2SF y); try discriminate; reflexivity.
Qed.

Lemma positive_not_zero (x : float) :
  PrimFloat.ltb 0 x = true ->
  Binary64.zero x = false /\ Binary64.not_nan x = true.
Proof.
  rewrite FloatAxioms.ltb_spec. unfold Binary64.zero, Binary64.not_nan.
  change (Prim2SF 0) with (S754_zero false).
  destruct (Prim2SF x); try discriminate; now split.
Qed.

Lemma fceil_zero (x : float) :
  Binary64.zero x = true -> Binary64.fceil x = OK 0%Z.
Proof.
  unfold Binary64.zero, Binary64.fceil. now destruct (Prim2SF x).
Qed.

Lemma is_zero_float (x : float) :
  Binary64.zero x = true -> is_zero (Float x) = true.
Proof.
  intros Hx. unfold is_zero. cbn [feqb of_int binary64].
  change (Binary64.of_int 0) with 0%float. now rewrite eqb_zero.
Qed.

Lemma nonzero_float (x : float) :
  Binary64.zero x = false -> (x ==? of_int 0)%py = false.
Proof.
  intros Hx. cbn [feqb of_int binary64].
  change (Binary64.of_int 0) with 0%float. now rewrite eqb_zero.
Qed.

(** The tile count of a zero carpet area is [0] whenever it is computed. *)
Lemma tiles_for_zero (carpet tile_size_mm : float) (n : Z) :
  Binary64.zero carpet = true ->
  tiles_for carpet tile_size_mm = OK n -> n = 0%Z.
Proof.
  intros Hc. unfold tiles_for, py_div.
  cbn [of_int lit fdiv fsquare feqb fltb fceil binary64].
  destruct (Binary64.fsquare _) as [tile_area|e]; [|discriminate].
  cbn [bind]. change (Binary64.of_int 0) with 0%float.
  destruct (PrimFloat.ltb 0 tile_area) eqn:Hpos.
  - destruct (positive_not_zero _ Hpos) as [Hnz Hnn].
    rewrite eqb_zero, Hnz. cbn [bind].
    rewrite (fceil_zero _ (div_zero _ _ Hc Hnz Hnn)).
    congruence.
  - congruence.
Qed.

Ltac zero_propagates :=
  cbn [fadd fmul fdiv of_int lit binary64];
  repeat first
    [ assumption
    | reflexivity
    | apply mul_zero
    | apply add_zero
    | apply div_zero ].

(** On zero totals, with a finite wall thickness, a finite plaster
    thickness in metres and a bag mass that is a non-zero number, every
    quantity of the estimate is a zero, as soon as the tile count is
    computed. *)
Lemma estimate_zero_totals (results : AggregateResult float)
  (cement_bag_kg plaster_thickness_mm tile_size_mm : float) (n : Z) :
  Binary64.zero (Totals.built_up_area (totals results)) = true ->
  Binary64.zero (Totals.carpet_area (totals results)) = true ->
  Binary64.zero (Totals.perimeter (totals results)) = true ->
  Binary64.finite (wall_thickness results) = true ->
  Binary64.finite (plaster_thickness_mm / lit 1000.0)%py = true ->
  Binary64.zero cement_bag_kg = false ->
  Binary64.not_nan cement_bag_kg = true ->
  tiles_for (Totals.carpet_area (totals results)) tile_size_mm = OK n ->
  exists m : MaterialsResult float,
    estimate_materials_for_workitems results
      cement_bag_kg plaster_thickness_mm tile_size_mm = OK m /\
    List.length (workitems m) = 12%nat /\
    Forall (fun w => is_zero (amount_value (item_amount w)) = true)
      (workitems m) /\
    tiles_count m = 0%Z /\
    Binary64.zero (bricks_count m) = true /\
    Binary64.zero (plaster_volume_m3 m) = true /\
    Binary64.zero (paint_liters m) = true /\
    Binary64.zero (cement_kg (concrete_breakdown m)) = true /\
    Binary64.zero (cement_bags (concrete_breakdown m)) = true /\
    Binary64.zero (sand_m3 (concrete_breakdown m)) = true /\
    Binary64.zero (aggregate_m3 (concrete_breakdown m)) = true.
Proof.
  intros HA HC HP Hwt Hpt Hbag Hnan Htiles.
  assert (Hn := tiles_for_zero _ _ _ HC Htiles). subst n.
  destruct (estimate_returns results cement_bag_kg plaster_thickness_mm
              tile_size_mm 0%Z Htiles (nonzero_float _ Hbag))
    as (m & mix & Hm & Hmix & Hbreak & Hcount & Hbricks & Hplaster
        & Hpaint & Hitems).
  rewrite concrete_mix_returns in Hmix by exact (nonzero_float _ Hbag).
  injection Hmix as <-.
  cbn [fdiv lit binary64] in Hpt.
  exists m. split; [exact Hm|].
  split.
  { rewrite <- (length_map (fun w => (item w, item_amount w))), Hitems.
    reflexivity. }
  split.
  { apply (Forall_map (fun w => (item w, item_amount w))
             (fun p => is_zero (amount_value (snd p)) = true)).
    rewrite Hitems. cbn [sand_m3 aggregate_m3 cement_bags].
    repeat constructor; cbn [snd amount_value];
      apply is_zero_float; zero_propagates. }
  split; [exact Hcount|].
  rewrite Hbricks, Hplaster, Hpaint, Hbreak.
  cbn [cement_kg cement_bags sand_m3 aggregate_m3].
  repeat split; zero_propagates.
Qed.

End Binary64Facts.

(* ================================================================= *)
(** * Empty input *)

(** C8.  Empty input degrades without a fault.  (1) When no line is
    extracted from the drawing, [parse_dxf_to_polygons] returns the empty
    list, without consulting the geometry library.  (2) On the empty list of
    polygons [compute_areas_and_walls] returns no room and the totals
    [(0.0, 0.0, 0.0)].  (3) On totals that are all zero, and a non-zero bag
    mass, [estimate_materials_for_workitems] returns (exact arithmetic): its
    twelve work items all have quantity zero, the tile count is [0], and so
    are the bricks, plaster, paint and concrete quantities, whatever the
    tile size, zero included.  (4) The same in binary64: on zero totals,
    with a finite wall thickness, a finite plaster thickness in metres and
    a bag mass that is a number other than zero, the estimate returns as
    soon as its tile count is computed, and all these quantities are
    zeros. *)
Theorem empty_input_gives_zero_quantities :
  (forall (F : Type) (S : Scalar F) (Merged : Type)
          (unary_union : list (LineString F) -> Merged)
          (polygonize : Merged -> list (Polygon.t F))
          (msp : list (Entity F)),
     extract_lines msp = [] ->
     parse_dxf_to_polygons unary_union polygonize msp = []) /\
  (forall (F : Type) (S : Scalar F) (wall_thickness : F) (units : string),
     let r := compute_areas_and_walls [] wall_thickness units in
     rooms r = [] /\
     totals r = {| Totals.built_up_area := lit 0.0;
                   Totals.carpet_area := lit 0.0;
                   Totals.perimeter := lit 0.0 |}) /\
  (forall (results : AggregateResult Q)
          (cement_bag_kg plaster_thickness_mm tile_size_mm : Q),
     Totals.built_up_area (totals results) == 0 ->
     Totals.carpet_area (totals results) == 0 ->
     Totals.perimeter (totals results) == 0 ->
     ~ cement_bag_kg == 0 ->
     exists m : MaterialsResult Q,
       estimate_materials_for_workitems results
         cement_bag_kg plaster_thickness_mm tile_size_mm = OK m /\
       List.length (workitems m) = 12%nat /\
       Forall (fun w => is_zero (amount_value (item_amount w)) = true)
         (workitems m) /\
       tiles_count m = 0%Z /\
       bricks_count m == 0 /\
       plaster_volume_m3 m == 0 /\
       paint_liters m == 0 /\
       concrete_volume_m3 (concrete_breakdown m) == 0 /\
       cement_kg (concrete_breakdown m) == 0 /\
       cement_bags (concrete_breakdown m) == 0 /\
       sand_m3 (concrete_breakdown m) == 0 /\
       aggregate_m3 (concrete_breakdown m) == 0) /\
  (forall (results : AggregateResult float)
          (cement_bag_kg plaster_thickness_mm tile_size_mm : float) (n : Z),
     Binary64.zero (Totals.built_up_area (totals results)) = true ->
     Binary64.zero (Totals.carpet_area (totals results)) = true ->
     Binary64.zero (Totals.perimeter (totals results)) = true ->
     Binary64.finite (wall_thickness results) = true ->
     Binary64.finite (plaster_thickness_mm / lit 1000.0)%py = true ->
     Binary64.zero cement_bag_kg = false ->
     Binary64.not_nan cement_bag_kg = true ->
     tiles_for (Totals.carpet_area (totals results)) tile_size_mm = OK n ->
     exists m : MaterialsResult float,
       estimate_materials_for_workitems results
         cement_bag_kg plaster_thickness_mm tile_size_mm = OK m /\
       List.length (workitems m) = 12%nat /\
       Forall (fun w => is_zero (amount_value (item_amount w)) = true)
         (workitems m) /\
       tiles_count m = 0%Z /\
       Binary64.zero (bricks_count m) = true /\
       Binary64.zero (plaster_volume_m3 m) = true /\
       Binary64.zero (paint_liters m) = true /\
       Binary64.zero (cement_kg (concrete_breakdown m)) = true /\
       Binary64.zero (cement_bags (concrete_breakdown m)) = true /\
       Binary64.zero (sand_m3 (concrete_breakdown m)) = true /\
       Binary64.zero (aggregate_m3 (concrete_breakdown m)) = true).
Proof.
  split; [|split; [|split]]; [| | |exact Binary64Facts.estimate_zero_totals].
  - intros F S Merged uu pz msp Hnone.
    unfold parse_dxf_to_polygons. now rewrite Hnone.
  - intros F S wt units. split; reflexivity.
  - intros results bag pt ts HA HC HP Hbag.
    destruct (tiles_for_exact (Totals.carpet_area (totals results)) ts)
      as (n & Hn & Hzero).
    specialize (Hzero HC). subst n.
    destruct (estimate_returns results bag pt ts 0%Z Hn
                (exact_nonzero _ Hbag))
      as (m & mix & Hm & Hmix & Hbreak & Htiles & Hbricks & Hplaster
          & Hpaint & Hitems).
    rewrite concrete_mix_returns in Hmix by exact (exact_nonzero _ Hbag).
    injection Hmix as <-.
    exists m. split; [exact Hm|].
    split.
    { rewrite <- (length_map (fun w => (item w, item_amount w))), Hitems.
      reflexivity. }
    split.
    { apply (Forall_map (fun w => (item w, item_amount w))
               (fun p => is_zero (amount_value (snd p)) = true)).
      rewrite Hitems. cbn [sand_m3 aggregate_m3 cement_bags].
      repeat constructor; cbn [snd amount_value];
        try (apply exact_is_zero; exact_arith; rewrite ?HA, ?HP;
             unfold Qdiv; ring). }
    split; [exact Htiles|].
    rewrite Hbricks, Hplaster, Hpaint, Hbreak.
    cbn [concrete_volume_m3 cement_kg cement_bags sand_m3 aggregate_m3].
    exact_arith. rewrite ?HA, ?HP.
    repeat split; unfold Qdiv; ring.
Qed.

(** The theorem on a drawing from which nothing is extracted, and on the
    result of the metrics stage for no polygon, with the default
    constants, in exact arithmetic and in binary64. *)
Lemma empty_input_gives_zero_quantities_witness :
  (extract_lines nothing_to_extract = [] /\
   parse_dxf_to_polygons rect_union rect_polygonize nothing_to_extract
     = []) /\
  (~ 50 == 0 /\
   exists m : MaterialsResult Q,
     estimate_materials_for_workitems
       (compute_areas_and_walls [] 0.2 "meters") 50 12 600 = OK m /\
     Forall (fun w => is_zero (amount_value (item_amount w)) = true)
       (workitems m) /\
     tiles_count m = 0%Z) /\
  (Binary64.finite (lit 0.2) = true /\
   Binary64.finite (Binary64.of_int 12 / lit 1000.0)%py = true /\
   Binary64.zero (Binary64.of_int 50) = false /\
   Binary64.not_nan (Binary64.of_int 50) = true /\
   tiles_for (F := float) (lit 0.0) (of_int 600) = OK 0%Z /\
   exists m : MaterialsResult float,
     estimate_materials_for_workitems
       (compute_areas_and_walls [] (lit 0.2) "meters")
       (of_int 50) (of_int 12) (of_int 600) = OK m /\
     Forall (fun w => is_zero (amount_value (item_amount w)) = true)
       (workitems m) /\
     tiles_count m = 0%Z).
Proof.
  destruct empty_input_gives_zero_quantities
    as (Hparse & _ & Hzero & Hzero64).
  split; [|split].
  - assert (Hnone : extract_lines nothing_to_extract = []) by reflexivity.
    split; [exact Hnone|].
    exact (Hparse float binary64 _ rect_union rect_polygonize
             nothing_to_extract Hnone).
  - assert (Hbag : ~ 50 == 0) by (intros E; discriminate E).
    split; [exact Hbag|].
    assert (HA : Totals.built_up_area
                   (totals (compute_areas_and_walls (F := Q) [] 0.2 "meters"))
                 == 0) by (vm_compute; reflexivity).
    assert (HC : Totals.carpet_area
                   (totals (compute_areas_and_walls (F := Q) [] 0.2 "meters"))
                 == 0) by (vm_compute; reflexivity).
    assert (HP : Totals.perimeter
                   (totals (compute_areas_and_walls (F := Q) [] 0.2 "meters"))
                 == 0) by (vm_compute; reflexivity).
    destruct (Hzero (compute_areas_and_walls [] 0.2 "meters") 50 12 600
                HA HC HP Hbag)
      as (m & Hm & _ & Hall & Htiles & _).
    exists m. repeat split; assumption.
  - assert (Hwt : Binary64.finite (lit 0.2) = true) by reflexivity.
    assert (Hpt : Binary64.finite (Binary64.of_int 12 / lit 1000.0)%py
                  = true) by reflexivity.
    assert (Hbag : Binary64.zero (Binary64.of_int 50) = false)
      by reflexivity.
    assert (Hnan : Binary64.not_nan (Binary64.of_int 50) = true)
      by reflexivity.
    assert (Htiles : tiles_for (F := float) (lit 0.0) (of_int 600)
                     = OK 0%Z) by reflexivity.
    repeat (split; [assumption|]).
    assert (HA : Binary64.zero
                   (Totals.built_up_area
                      (totals (compute_areas_and_walls [] (lit 0.2) "meters")))
                 = true) by reflexivity.
    assert (HC : Binary64.zero
                   (Totals.carpet_area
                      (totals (compute_areas_and_walls [] (lit 0.2) "meters")))
                 = true) by reflexivity.
    assert (HP : Binary64.zero
                   (Totals.perimeter
                      (totals (compute_areas_and_walls [] (lit 0.2) "meters")))
                 = true) by reflexivity.
    destruct (Hzero64 _ _ _ _ _ HA HC HP Hwt Hpt Hbag Hnan Htiles)
      as (m & Hm & _ & Hall & Hcount & _).
    exists m. repeat split; assumption.
Defined.

(** The same run in binary64, end to end, with the default constants:
    every quantity is [0.0] and the tile count is [0]. *)
Lemma empty_plan_in_binary64 :
  exists m : MaterialsResult float,
    run nothing_to_extract (lit 0.2) "meters"
      (of_int 50) (of_int 12) (of_int 600) = OK m /\
    Forall (fun w => is_zero (amount_value (item_amount w)) = true)
      (workitems m) /\
    tiles_count m = 0%Z /\
    bricks_count m = 0%float /\
    plaster_volume_m3 m = 0%float.
Proof.
  eexists. split; [reflexivity|].
  split; [|repeat split].
  repeat constructor.
Qed.

(** The scenario of the specification in binary64: the closed 10 by 6
    rectangle with wall thickness 0.2 gives one room of area 60, perimeter
    32, nominal walls 20 and 12; excavation 32, slab 9 and PCC 6. *)
Lemma scenario_10_by_6 :
  let polygons :=
    parse_dxf_to_polygons (F := float) rect_union rect_polygonize
      plan_10_by_6 in
  map (fun room => (Room.id room, Room.area room, Room.perimeter room,
                    Room.bounds room, Room.long_wall_length room,
                    Room.short_wall_length room))
    (rooms (compute_areas_and_walls polygons (lit 0.2) "meters"))
  = [ (1%Z, 60, 32, (0, 0, 10, 6), 20, 12) ]%float /\
  exists m : MaterialsResult float,
    run plan_10_by_6 (lit 0.2) "meters" (of_int 50) (of_int 12) (of_int 600)
      = OK m /\
    firstn 4 (map (@item_amount float) (workitems m))
    = [ quantity (Float 32); quantity (Float 6);
        quantity (Float 9.5999999999999996); quantity (Float 9) ]%float.
Proof.
  split; [reflexivity|].
  eexists. split; reflexivity.
Qed.

(* ================================================================= *)
(** * The binary64 instance *)

(** On the decimal literals of [utils.py], [lit] is the double that the
    literal denotes. *)
Lemma binary64_literals :
  map (@lit float binary64)
    [0.0; 1e-6; 1.0; 0.5; 0.6; 0.15; 0.10; 3.0; 1000.0; 1.54]
  = [0; 1e-6; 1; 0.5; 0.6; 0.15; 0.10; 3; 1000; 1.54]%float.
Proof.
  reflexivity.
Qed.

(** In binary64 the square of the tile size can overflow, which Python
    reports as [OverflowError]: a fault of the estimate that exact
    arithmetic does not have. *)
Lemma huge_tile_size_overflows :
  tiles_for (F := float) (lit 53.76) 1e200%float = Raise OverflowError.
Proof.
  reflexivity.
Qed.

(** Rounding can stall the brick count: with a total perimeter of the
    smallest positive double, wall thicknesses 1.0 and 1.25 give the same
    count.  Strict growth is a property of exact arithmetic. *)
Lemma bricks_can_stall_in_binary64 :
  let perimeter := 5e-324%float in
  (perimeter >? of_int 0)%py = true /\
  (lit (F := float) 1.25 >? lit 1.0)%py = true /\
  exists m1 m2 : MaterialsResult float,
    estimate_materials_for_workitems
      (results_with (of_int 0) (of_int 0) perimeter (lit 1.0))
      (of_int 50) (of_int 12) (of_int 600) = OK m1 /\
    estimate_materials_for_workitems
      (results_with (of_int 0) (of_int 0) perimeter (lit 1.25))
      (of_int 50) (of_int 12) (of_int 600) = OK m2 /\
    bricks_count m1 = bricks_count m2.
Proof.
  split; [reflexivity|]. split; [reflexivity|].
  eexists. eexists. split; [reflexivity|]. split; reflexivity.
Qed.

(* ================================================================= *)
(** * Further properties of the extraction *)

Section ChainFacts.

Context {F : Type} `{Scalar F}.

Lemma close_chain_length (pts : list (point F)) :
  (List.length pts <= List.length (close_chain pts))%nat.
Proof.
  unfold close_chain.
  destruct (negb _); [rewrite length_app; cbn; lia | lia].
Qed.

Lemma close_chain_In (pts : list (point F)) (p : point F) :
  In p (close_chain pts) -> In p pts.
Proof.
  destruct pts as [|a pts]; [intros []|].
  unfold close_chain. destruct (negb _); [|auto].
  intros Hin. apply in_app_or in Hin as [Hin|[<-|[]]]; [exact Hin|].
  now left.
Qed.

Lemma last_snoc (pts : list (point F)) (p d : point F) :
  last (pts ++ [p]) d = p.
Proof.
  apply last_last.
Qed.

(** The chain is closed: its ends compare equal, or are the same point. *)
Lemma close_chain_closed (pts : list (point F)) :
  tuple_eqb (nth 0 (close_chain pts) []) (last (close_chain pts) []) = true
  \/ nth 0 (close_chain pts) [] = last (close_chain pts) [].
Proof.
  unfold close_chain.
  destruct (tuple_eqb (nth 0 pts []) (last pts [])) eqn:Heq; cbn [negb].
  - now left.
  - right. rewrite last_snoc. destruct pts; reflexivity.
Qed.

(** What an entity can contribute: nothing, the two ends of a line, or
    the closed chain of at least three polyline points. *)
Lemma entity_lines_cases (e : Entity F) :
  entity_lines e = []
  \/ (dxftype e = "LINE"%string
      /\ entity_lines e = [[dxf_start e; dxf_end e]])
  \/ ((dxftype e = "LWPOLYLINE"%string \/ dxftype e = "POLYLINE"%string)
      /\ (3 <= List.length (polyline_points e))%nat
      /\ entity_lines e = [close_chain (polyline_points e)]).
Proof.
  unfold entity_lines.
  destruct (dxftype e =? "LINE")%string eqn:Hline.
  - right; left. apply String.eqb_eq in Hline. now split.
  - destruct (dxftype e =? "LWPOLYLINE")%string eqn:Hlw;
    destruct (dxftype e =? "POLYLINE")%string eqn:Hpl; cbn [orb];
      try (now left);
      (destruct (3 <=? List.length (polyline_points e))%nat eqn:Hlen;
       [|now left]);
      right; right; apply Nat.leb_le in Hlen.
    + apply String.eqb_eq in Hlw. auto.
    + apply String.eqb_eq in Hlw. auto.
    + apply String.eqb_eq in Hpl. auto.
Qed.

Lemma entity_lines_length (e : Entity F) :
  (List.length (entity_lines e) <= 1)%nat.
Proof.
  destruct (entity_lines_cases e) as [-> | [[_ ->] | (_ & _ & ->)]];
    cbn; lia.
Qed.

Lemma entity_chain_length (e : Entity F) (chain : LineString F) :
  In chain (entity_lines e) -> (2 <= List.length chain)%nat.
Proof.
  destruct (entity_lines_cases e) as [-> | [[_ ->] | (_ & Hlen & ->)]].
  - intros [].
  - intros [<-|[]]. cbn. lia.
  - intros [<-|[]]. pose proof (close_chain_length (polyline_points e)). lia.
Qed.

Lemma edges_length (chain : LineString F) :
  List.length (edges chain) = Nat.pred (List.length chain).
Proof.
  unfold edges. rewrite length_combine.
  destruct chain as [|a chain]; [reflexivity|].
  cbn [tl List.length Nat.pred]. lia.
Qed.

Lemma segments_length_ge (lines : list (LineString F)) :
  (forall chain, In chain lines -> (2 <= List.length chain)%nat) ->
  (List.length lines <= List.length (segments lines))%nat.
Proof.
  unfold segments. induction lines as [|c lines IH]; intros Hall; cbn.
  - lia.
  - rewrite length_app, edges_length.
    assert (2 <= List.length c)%nat by (apply Hall; now left).
    assert (List.length lines <= List.length (flat_map (@edges F) lines))%nat
      by (apply IH; intros; apply Hall; now right).
    lia.
Qed.

End ChainFacts.

(** X1.  Extraction yields at most one chain per entity, every extracted
    chain has at least two points, hence at least one segment, and the
    segments are at least as many as the chains. *)
Theorem extraction_one_chain_per_entity :
  forall (F : Type) (S : Scalar F) (msp : list (Entity F)),
    (List.length (extract_lines msp) <= List.length msp)%nat /\
    (forall chain : LineString F,
       In chain (extract_lines msp) ->
       (2 <= List.length chain)%nat /\ edges chain <> []) /\
    (List.length (extract_lines msp)
     <= List.length (segments (extract_lines msp)))%nat.
Proof.
  intros F S msp.
  assert (Hchains : forall chain : LineString F,
             In chain (extract_lines msp) -> (2 <= List.length chain)%nat).
  { intros chain Hin. rewrite extract_lines_flat_map in Hin.
    apply in_flat_map in Hin as (e & _ & Hin).
    now apply entity_chain_length with (e := e). }
  split; [|split].
  - rewrite extract_lines_flat_map. clear Hchains.
    induction msp as [|e msp IH]; cbn; [lia|].
    rewrite length_app. pose proof (entity_lines_length e). lia.
  - intros chain Hin. split; [now apply Hchains|].
    intros Hnil. apply (f_equal (@List.length _)) in Hnil.
    rewrite edges_length in Hnil. apply Hchains in Hin. cbn in Hnil. lia.
  - now apply segments_length_ge.
Qed.

(** X2.  Every chain that a poly-vertex entity contributes has at least
    three points and is closed: its first and last points compare equal,
    or are the very same point (the appended copy of the first).  In exact
    arithmetic the two ends always compare equal. *)
Theorem polyline_chains_are_closed :
  (forall (F : Type) (S : Scalar F) (e : Entity F) (chain : LineString F),
     dxftype e = "LWPOLYLINE"%string \/ dxftype e = "POLYLINE"%string ->
     In chain (entity_lines e) ->
     (3 <= List.length chain)%nat /\
     (tuple_eqb (nth 0 chain []) (last chain []) = true
      \/ nth 0 chain [] = last chain [])) /\
  (forall (e : Entity Q) (chain : LineString Q),
     dxftype e = "LWPOLYLINE"%string \/ dxftype e = "POLYLINE"%string ->
     In chain (entity_lines e) ->
     tuple_eqb (nth 0 chain []) (last chain []) = true).
Proof.
  assert (Hgen : forall (F : Type) (S : Scalar F) (e : Entity F)
                        (chain : LineString F),
             dxftype e = "LWPOLYLINE"%string \/ dxftype e = "POLYLINE"%string ->
             In chain (entity_lines e) ->
             (3 <= List.length chain)%nat /\
             (tuple_eqb (nth 0 chain []) (last chain []) = true
              \/ nth 0 chain [] = last chain [])).
  { intros F S e chain Htype Hin.
    rewrite (polyline_lines e Htype) in Hin.
    destruct (3 <=? List.length (polyline_points e))%nat eqn:Hlen;
      [|destruct Hin].
    destruct Hin as [<-|[]]. apply Nat.leb_le in Hlen.
    split.
    - pose proof (close_chain_length (polyline_points e)). lia.
    - apply close_chain_closed. }
  split; [exact Hgen|].
  intros e chain Htype Hin.
  destruct (Hgen Q exact e chain Htype Hin) as [_ [Heq | Heq]];
    [exact Heq|].
  rewrite <- Heq.
  generalize (nth 0 chain []). intros p.
  induction p as [|x p IH]; cbn; [reflexivity|].
  rewrite IH, andb_true_r. apply Qeq_bool_iff. reflexivity.
Qed.

(** The theorem at the open four-vertex polyline: its chain has five
    points and ends where it starts. *)
Lemma polyline_chains_are_closed_witness :
  dxftype open_polyline = "LWPOLYLINE"%string /\
  In [ [0; 0]; [10; 0]; [10; 6]; [0; 6]; [0; 0] ]%float
    (entity_lines open_polyline) /\
  (3 <= 5)%nat.
Proof.
  destruct polyline_chains_are_closed as [Hgen _].
  assert (Htype : dxftype open_polyline = "LWPOLYLINE"%string)
    by reflexivity.
  assert (Hin : In [ [0; 0]; [10; 0]; [10; 6]; [0; 6]; [0; 0] ]%float
                  (entity_lines open_polyline)) by (left; reflexivity).
  split; [exact Htype|]. split; [exact Hin|].
  exact (proj1 (Hgen float binary64 open_polyline _ (or_introl Htype) Hin)).
Defined.

(** X3.  A poly-vertex entity with at least three points whose first and
    last points compare equal contributes its point list as it is: no
    closing point is added, and its segments are the edges of its points. *)
Theorem closed_polyline_is_kept_as_is :
  forall (F : Type) (S : Scalar F) (before after : list (Entity F))
         (e : Entity F),
    dxftype e = "LWPOLYLINE"%string \/ dxftype e = "POLYLINE"%string ->
    (3 <= List.length (polyline_points e))%nat ->
    tuple_eqb (nth 0 (polyline_points e) []) (last (polyline_points e) [])
      = true ->
    extract_lines (before ++ e :: after)
      = extract_lines before ++ [polyline_points e] ++ extract_lines after /\
    segments (extract_lines (before ++ e :: after))
      = segments (extract_lines before) ++ edges (polyline_points e)
        ++ segments (extract_lines after).
Proof.
  intros F S before after e Htype Hlen Hclosed.
  assert (Hlines : entity_lines e = [polyline_points e]).
  { rewrite (polyline_lines e Htype).
    apply Nat.leb_le in Hlen. rewrite Hlen.
    unfold close_chain. now rewrite Hclosed. }
  assert (Hx : extract_lines (before ++ e :: after)
               = extract_lines before ++ [polyline_points e]
                 ++ extract_lines after)
    by now rewrite extract_lines_app, extract_lines_cons, Hlines.
  split; [exact Hx|].
  rewrite Hx. unfold segments. rewrite !flat_map_app. cbn [flat_map].
  now rewrite app_nil_r.
Qed.

(** The theorem at the rectangle drawn with its first vertex repeated:
    five points in, five points out. *)
Lemma closed_polyline_is_kept_as_is_witness :
  dxftype closed_polyline = "LWPOLYLINE"%string /\
  (3 <= List.length (polyline_points closed_polyline))%nat /\
  tuple_eqb (nth 0 (polyline_points closed_polyline) [])
    (last (polyline_points closed_polyline) []) = true /\
  extract_lines ([] ++ closed_polyline :: [])
    = [ [ [0; 0]; [10; 0]; [10; 6]; [0; 6]; [0; 0] ] ]%float.
Proof.
  assert (Htype : dxftype closed_polyline = "LWPOLYLINE"%string)
    by reflexivity.
  assert (Hlen : (3 <= List.length (polyline_points closed_polyline))%nat)
    by (cbn; lia).
  assert (Hclosed :
    tuple_eqb (nth 0 (polyline_points closed_polyline) [])
      (last (polyline_points closed_polyline) []) = true) by reflexivity.
  repeat (split; [assumption|]).
  destruct (closed_polyline_is_kept_as_is float binary64 [] []
              closed_polyline (or_introl Htype) Hlen Hclosed) as [Hx _].
  rewrite Hx. reflexivity.
Defined.

(** X4.  Reading the vertices of a poly-vertex entity is best effort.
    When [get_points] raises, the locations of [vertices] are used whole,
    with all their coordinates.  When both raise, the entity is dropped
    and the entities before and after it are extracted as if it were not
    there. *)
Theorem unreadable_vertices_are_recovered_or_dropped :
  forall (F : Type) (S : Scalar F) (before after : list (Entity F))
         (e : Entity F) (raised : exn),
    dxftype e = "LWPOLYLINE"%string \/ dxftype e = "POLYLINE"%string ->
    get_points e = Raise raised ->
    (forall locations : list (point F),
       vertices e = OK locations ->
       polyline_points e = locations /\
       ((3 <= List.length locations)%nat ->
        extract_lines (before ++ e :: after)
          = extract_lines before ++ [close_chain locations]
            ++ extract_lines after)) /\
    (forall raised' : exn,
       vertices e = Raise raised' ->
       extract_lines (before ++ e :: after)
         = extract_lines before ++ extract_lines after).
Proof.
  intros F S before after e raised Htype Hget.
  assert (Hlines := polyline_lines e Htype).
  split.
  - intros locations Hv.
    assert (Hpts : polyline_points e = locations).
    { unfold polyline_points. now rewrite Hget, Hv. }
    split; [exact Hpts|]. intros Hlen.
    rewrite Hpts in Hlines. apply Nat.leb_le in Hlen. rewrite Hlen in Hlines.
    now rewrite extract_lines_app, extract_lines_cons, Hlines.
  - intros raised' Hv.
    assert (Hpts : polyline_points e = []).
    { unfold polyline_points. now rewrite Hget, Hv. }
    rewrite Hpts in Hlines. cbn in Hlines.
    now rewrite extract_lines_app, extract_lines_cons, Hlines.
Qed.

(** The theorem at a [POLYLINE] with three-dimensional vertices (kept
    whole and closed by a fourth point) and at an unreadable one
    (dropped). *)
Lemma unreadable_vertices_are_recovered_or_dropped_witness :
  (dxftype polyline_3d = "POLYLINE"%string /\
   get_points polyline_3d = Raise AttributeError /\
   extract_lines ([] ++ polyline_3d :: [])
     = [ [ [0; 0; 0]; [10; 0; 0]; [10; 6; 0]; [0; 0; 0] ] ]%float) /\
  (dxftype unreadable_polyline = "POLYLINE"%string /\
   get_points unreadable_polyline = Raise AttributeError /\
   vertices unreadable_polyline = Raise AttributeError /\
   extract_lines ([open_polyline] ++ unreadable_polyline :: [])
     = extract_lines [open_polyline]).
Proof.
  split.
  - assert (Htype : dxftype polyline_3d = "POLYLINE"%string) by reflexivity.
    assert (Hget : get_points polyline_3d = Raise AttributeError)
      by reflexivity.
    split; [exact Htype|]. split; [exact Hget|].
    destruct (unreadable_vertices_are_recovered_or_dropped float binary64
                [] [] polyline_3d AttributeError (or_intror Htype) Hget)
      as [Hrecover _].
    destruct (Hrecover _ eq_refl) as [_ Hx].
    rewrite Hx; [reflexivity | cbn; lia].
  - assert (Htype : dxftype unreadable_polyline = "POLYLINE"%string)
      by reflexivity.
    assert (Hget : get_points unreadable_polyline = Raise AttributeError)
      by reflexivity.
    assert (Hv : vertices unreadable_polyline = Raise AttributeError)
      by reflexivity.
    repeat (split; [assumption|]).
    destruct (unreadable_vertices_are_recovered_or_dropped float binary64
                [open_polyline] [] unreadable_polyline AttributeError
                (or_intror Htype) Hget)
      as [_ Hdrop].
    rewrite (Hdrop _ Hv). now rewrite app_nil_r.
Defined.

(** X5.  The points of a chain read through [get_points] carry at most
    two coordinates: widths, bulge and any further component of a vertex
    are cut off. *)
Theorem get_points_chains_are_planar :
  forall (F : Type) (S : Scalar F) (e : Entity F) (ps : list (point F))
         (chain : LineString F) (p : point F),
    dxftype e = "LWPOLYLINE"%string \/ dxftype e = "POLYLINE"%string ->
    get_points e = OK ps ->
    In chain (entity_lines e) ->
    In p chain ->
    (List.length p <= 2)%nat /\
    exists raw : point F, In raw ps /\ p = firstn 2 raw.
Proof.
  intros F S e ps chain p Htype Hget Hchain Hp.
  rewrite (polyline_lines e Htype) in Hchain.
  destruct (3 <=? List.length (polyline_points e))%nat; [|destruct Hchain].
  destruct Hchain as [<-|[]].
  apply close_chain_In in Hp.
  unfold polyline_points in Hp. rewrite Hget in Hp.
  apply in_map_iff in Hp as (raw & <- & Hraw).
  unfold xy_of.
  destruct (2 <=? List.length raw)%nat eqn:Hlen.
  - split; [rewrite length_firstn; lia|]. now exists raw.
  - apply Nat.leb_gt in Hlen. split; [lia|].
    exists raw. split; [exact Hraw|].
    symmetry. apply firstn_all2. lia.
Qed.

(** The theorem at the open polyline, whose vertices carry five numbers
    each: the points of its chain carry two. *)
Lemma get_points_chains_are_planar_witness :
  dxftype open_polyline = "LWPOLYLINE"%string /\
  In [ [0; 0]; [10; 0]; [10; 6]; [0; 6]; [0; 0] ]%float
    (entity_lines open_polyline) /\
  In [10; 6]%float [ [0; 0]; [10; 0]; [10; 6]; [0; 6]; [0; 0] ]%float /\
  (List.length [10; 6]%float <= 2)%nat.
Proof.
  assert (Htype : dxftype open_polyline = "LWPOLYLINE"%string)
    by reflexivity.
  assert (Hchain : In [ [0; 0]; [10; 0]; [10; 6]; [0; 6]; [0; 0] ]%float
                     (entity_lines open_polyline)) by (left; reflexivity).
  assert (Hp : In [10; 6]%float
                 [ [0; 0]; [10; 0]; [10; 6]; [0; 6]; [0; 0] ]%float)
    by (right; right; left; reflexivity).
  repeat (split; [assumption|]).
  exact (proj1 (get_points_chains_are_planar float binary64 open_polyline
                  _ _ _ (or_introl Htype) eq_refl Hchain Hp)).
Defined.

(* ================================================================= *)
(** * Further properties of the metrics *)

Section MetricsMore.

Context {F : Type} `{Scalar F}.
Local Open Scope py_scope.

Lemma enumerate_fst (A : Type) (l : list A) :
  forall k : nat,
    map fst (enumerate (Z.of_nat k) l)
    = map Z.of_nat (seq k (List.length l)).
Proof.
  induction l as [|x l IH]; intros k; cbn; [reflexivity|].
  f_equal. rewrite <- IH. do 2 f_equal. lia.
Qed.

Lemma enumerate_app (A : Type) (l1 l2 : list A) :
  forall start : Z,
    enumerate start (l1 ++ l2)
    = enumerate start l1
      ++ enumerate (start + Z.of_nat (List.length l1)) l2.
Proof.
  induction l1 as [|x l1 IH]; intros start.
  - cbn. now rewrite Z.add_0_r.
  - cbn [app enumerate List.length]. rewrite IH. cbn. do 3 f_equal. lia.
Qed.

Lemma enumerate_shift (A : Type) (l : list A) (k : Z) :
  forall start : Z,
    enumerate (start + k) l
    = map (fun ip => ((fst ip + k)%Z, snd ip)) (enumerate start l).
Proof.
  induction l as [|x l IH]; intros start; cbn; [reflexivity|].
  f_equal. rewrite <- IH. f_equal. lia.
Qed.

Lemma room_of_shift (wt : F) (idx k : Z) (poly : Polygon.t F) :
  room_of wt (idx + k) poly = shift_id k (room_of wt idx poly).
Proof.
  unfold room_of, shift_id.
  now destruct (Polygon.bounds poly) as [[[minx miny] maxx] maxy].
Qed.

Lemma room_of_bounds (wt : F) (idx : Z) (poly : Polygon.t F) :
  Room.bounds (room_of wt idx poly) = Polygon.bounds poly.
Proof.
  unfold room_of.
  now destruct (Polygon.bounds poly) as [[[minx miny] maxx] maxy].
Qed.

(** The totals as running sums over the polygons. *)
Lemma totals_of_polygons (polygons : list (Polygon.t F)) (wt : F)
  (units : string) :
  let r := compute_areas_and_walls polygons wt units in
  Totals.built_up_area (totals r) = fsum (map (@Polygon.area F) polygons) /\
  Totals.carpet_area (totals r)
    = fsum (map (fun poly => carpet_of poly wt) polygons) /\
  Totals.perimeter (totals r) = fsum (map (@Polygon.length F) polygons).
Proof.
  intros r.
  assert (Hinv : totals_match
            (fold_left (loop_body wt) (enumerate 1 polygons) loop_init)).
  { apply fold_left_invariant.
    - apply totals_match_init.
    - intros st ip. apply totals_match_body. }
  destruct Hinv as (Hb & Hc & Hp).
  assert (Hrooms : st_rooms
            (fold_left (loop_body wt) (enumerate 1 polygons) loop_init)
          = map (fun ip => room_of wt (fst ip) (snd ip))
              (enumerate 1 polygons)).
  { now rewrite loop_rooms. }
  rewrite Hrooms, map_map in Hb, Hc, Hp.
  subst r. unfold compute_areas_and_walls.
  cbn [totals Totals.built_up_area Totals.carpet_area Totals.perimeter].
  rewrite Hb, Hc, Hp.
  rewrite <- (map_enumerate_snd _ _ (@Polygon.area F) polygons 1).
  rewrite <- (map_enumerate_snd _ _ (fun poly => carpet_of poly wt)
                polygons 1).
  rewrite <- (map_enumerate_snd _ _ (@Polygon.length F) polygons 1).
  repeat split; f_equal; apply map_ext; intros [idx poly]; cbn [fst snd].
  - apply room_of_area.
  - apply room_of_carpet_area.
  - apply room_of_perimeter.
Qed.

End MetricsMore.

(** X6.  The rooms returned by [compute_areas_and_walls] are as many as
    the polygons, in the same order, numbered 1, 2, ..., n, each with the
    bounds of its polygon; the [units] label and the wall thickness are
    handed back unchanged. *)
Theorem rooms_are_numbered_from_one :
  forall (F : Type) (S : Scalar F) (polygons : list (Polygon.t F))
         (thickness : F) (label : string),
    let r := compute_areas_and_walls polygons thickness label in
    List.length (rooms r) = List.length polygons /\
    map (@Room.id F) (rooms r)
      = map Z.of_nat (seq 1 (List.length polygons)) /\
    map (@Room.bounds F) (rooms r) = map (@Polygon.bounds F) polygons /\
    units r = label /\
    wall_thickness r = thickness.
Proof.
  intros F S polygons wt label r. subst r.
  rewrite rooms_of_polygons. change 1%Z with (Z.of_nat 1).
  split; [|split; [|split; [|split; reflexivity]]].
  - rewrite length_map.
    rewrite <- (length_map fst), (enumerate_fst _ polygons 1).
    now rewrite length_map, length_seq.
  - rewrite <- (enumerate_fst _ polygons 1), map_map.
    apply map_ext. intros [idx poly]. apply room_of_id.
  - rewrite map_map.
    rewrite <- (map_enumerate_snd _ _ (@Polygon.bounds F) polygons 1).
    apply map_ext. intros [idx poly]. apply room_of_bounds.
Qed.

(* ================================================================= *)
(** * Sums and the linear carpet area in exact arithmetic *)

Lemma fold_left_Qplus (l : list Q) :
  forall a : Q, fold_left Qplus l a == a + fold_left Qplus l 0.
Proof.
  induction l as [|x l IH]; intros a; cbn.
  - ring.
  - rewrite (IH (a + x)), (IH (0 + x)). ring.
Qed.

Lemma fsum_exact_cons (x : Q) (l : list Q) : fsum (x :: l) == x + fsum l.
Proof.
  unfold fsum. exact_arith. cbn [fold_left].
  rewrite (fold_left_Qplus l (0.0 + x)), (fold_left_Qplus l 0.0). ring.
Qed.

Lemma fsum_exact_app (l1 l2 : list Q) :
  fsum (l1 ++ l2) == fsum l1 + fsum l2.
Proof.
  induction l1 as [|x l1 IH]; cbn [app].
  - unfold fsum at 2. exact_arith. cbn [fold_left]. ring.
  - rewrite !fsum_exact_cons, IH. ring.
Qed.

Lemma fsum_exact_perm (l1 l2 : list Q) :
  Permutation l1 l2 -> fsum l1 == fsum l2.
Proof.
  induction 1 as [|x l1 l2 _ IH|x y l|l1 l2 l3 _ IH12 _ IH23].
  - reflexivity.
  - now rewrite !fsum_exact_cons, IH.
  - rewrite !fsum_exact_cons. ring.
  - now rewrite IH12.
Qed.

(** The linear carpet area is the positive part of
    [area - perimeter * wall_thickness]. *)
Lemma linear_carpet_exact (area perim wt : Q) :
  0 <= linear_carpet area perim wt /\
  (0 <= area - perim * wt ->
   linear_carpet area perim wt == area - perim * wt) /\
  (area - perim * wt <= 0 -> linear_carpet area perim wt == 0).
Proof.
  unfold linear_carpet, py_max. exact_arith.
  assert (Hzero : 0.0 == 0) by reflexivity.
  destruct (Qle_bool (area - perim * wt) 0.0) eqn:Hle; cbn [negb].
  - apply Qle_bool_iff in Hle. rewrite Hzero in Hle.
    split; [discriminate|]. split; intros Hsign.
    + rewrite Hzero. apply Qle_antisym; [exact Hsign | exact Hle].
    + exact Hzero.
  - assert (Hpos : 0 < area - perim * wt).
    { apply Qnot_le_lt. intros Hneg. rewrite <- Hzero in Hneg.
      apply Qle_bool_iff in Hneg. congruence. }
    split; [now apply Qlt_le_weak|]. split; intros Hsign.
    + reflexivity.
    + exfalso. apply (Qlt_irrefl 0).
      now apply Qlt_le_trans with (area - perim * wt).
Qed.

(** X7.  In exact arithmetic, a room whose offset is empty or fails gets
    the carpet area [area - perimeter * wall_thickness] when that is
    positive and [0] otherwise: never a negative value and, for a
    non-negative perimeter and wall thickness, never more than the area of
    the room. *)
Theorem fallback_carpet_is_clamped :
  forall (polygons : list (Polygon.t Q)) (wt : Q) (label : string)
         (i : nat) (poly : Polygon.t Q),
    nth_error polygons i = Some poly ->
    offset_fails poly (- wt) ->
    exists room : Room.t Q,
      nth_error (rooms (compute_areas_and_walls polygons wt label)) i
        = Some room /\
      0 <= Room.carpet_area room /\
      (0 <= Polygon.area poly - Polygon.length poly * wt ->
       Room.carpet_area room
         == Polygon.area poly - Polygon.length poly * wt) /\
      (Polygon.area poly - Polygon.length poly * wt <= 0 ->
       Room.carpet_area room == 0) /\
      (0 <= Polygon.area poly -> 0 <= Polygon.length poly -> 0 <= wt ->
       Room.carpet_area room <= Polygon.area poly).
Proof.
  intros polygons wt label i poly Hi Hfails.
  exists (room_of wt (Z.of_nat i + 1) poly).
  split; [now apply room_at|].
  rewrite room_of_carpet_area.
  assert (Hcarpet : carpet_of poly wt
                    = linear_carpet (Polygon.area poly)
                        (Polygon.length poly) wt).
  { unfold carpet_of, offset_fails in *. exact_arith.
    destruct (Polygon.buffer poly (- wt)) as [inner|e]; [|reflexivity].
    now rewrite (Hfails inner eq_refl). }
  rewrite Hcarpet.
  destruct (linear_carpet_exact (Polygon.area poly) (Polygon.length poly) wt)
    as (Hnonneg & Hpos & Hneg).
  repeat (split; [assumption|]).
  intros Harea Hperim Hwt.
  assert (Hprod : 0 <= Polygon.length poly * wt)
    by now apply Qmult_le_0_compat.
  destruct (Qlt_le_dec (Polygon.area poly - Polygon.length poly * wt) 0)
    as [Hlt|Hge].
  - rewrite (Hneg (Qlt_le_weak _ _ Hlt)). exact Harea.
  - rewrite (Hpos Hge). lra.
Qed.

(** The theorem at a unit square whose offset fails, with wall thickness
    0.2 (carpet area 0.2) and 0.3 (carpet area 0). *)
Lemma fallback_carpet_is_clamped_witness :
  nth_error [rectangle_failing_buffer (F := Q) 0 0 1 1] 0
    = Some (rectangle_failing_buffer 0 0 1 1) /\
  offset_fails (rectangle_failing_buffer (F := Q) 0 0 1 1) (- 0.3) /\
  exists room : Room.t Q,
    nth_error
      (rooms (compute_areas_and_walls
                [rectangle_failing_buffer 0 0 1 1] 0.3 "meters")) 0
      = Some room /\
    Room.carpet_area room == 0.
Proof.
  assert (Hi : nth_error [rectangle_failing_buffer (F := Q) 0 0 1 1] 0
               = Some (rectangle_failing_buffer 0 0 1 1)) by reflexivity.
  assert (Hfails : offset_fails
                     (rectangle_failing_buffer (F := Q) 0 0 1 1) (- 0.3))
    by (intros inner Hinner; discriminate Hinner).
  split; [exact Hi|]. split; [exact Hfails|].
  destruct (fallback_carpet_is_clamped
              [rectangle_failing_buffer 0 0 1 1] 0.3 "meters" 0 _ Hi Hfails)
    as (room & Hroom & _ & _ & Hzero & _).
  exists room. split; [exact Hroom|].
  apply Hzero. vm_compute. discriminate.
Defined.

(* ================================================================= *)
(** * The linear carpet area in binary64 *)

Lemma positive_not_below_zero (x : float) :
  PrimFloat.ltb 0 x = true -> PrimFloat.ltb x 0 = false.
Proof.
  rewrite !FloatAxioms.ltb_spec.
  change (Prim2SF 0) with (S754_zero false).
  destruct (Prim2SF x) as [s|s| |s m e]; try discriminate;
    destruct s; try discriminate; reflexivity.
Qed.

Lemma linear_carpet_binary64 (area perim wt : float) :
  Binary64.not_nan (linear_carpet area perim wt) = true /\
  (of_int 0 >? linear_carpet area perim wt)%py = false.
Proof.
  unfold linear_carpet, py_max.
  cbn [lit of_int fsub fmul fltb binary64].
  change (Binary64.lit 0.0) with 0%float.
  change (Binary64.of_int 0) with 0%float.
  destruct (PrimFloat.ltb 0 (PrimFloat.sub area (PrimFloat.mul perim wt)))
    eqn:Hpos.
  - split.
    + now destruct (Binary64Facts.positive_not_zero _ Hpos).
    + now apply positive_not_below_zero.
  - split; reflexivity.
Qed.

(** X8.  In binary64, a room whose offset is empty or fails never gets a
    NaN or a negative carpet area, whatever the area, the perimeter and
    the wall thickness are, NaN and infinities included. *)
Theorem fallback_carpet_is_a_nonnegative_number :
  forall (polygons : list (Polygon.t float)) (wt : float) (label : string)
         (i : nat) (poly : Polygon.t float),
    nth_error polygons i = Some poly ->
    offset_fails poly (- wt)%py ->
    exists room : Room.t float,
      nth_error (rooms (compute_areas_and_walls polygons wt label)) i
        = Some room /\
      Binary64.not_nan (Room.carpet_area room) = true /\
      (of_int 0 >? Room.carpet_area room)%py = false.
Proof.
  intros polygons wt label i poly Hi Hfails.
  exists (room_of wt (Z.of_nat i + 1) poly).
  split; [now apply room_at|].
  rewrite room_of_carpet_area.
  assert (Hcarpet : carpet_of poly wt
                    = linear_carpet (Polygon.area poly)
                        (Polygon.length poly) wt).
  { unfold carpet_of, offset_fails in *.
    destruct (Polygon.buffer poly (- wt)%py) as [inner|e]; [|reflexivity].
    now rewrite (Hfails inner eq_refl). }
  rewrite Hcarpet. apply linear_carpet_binary64.
Qed.

(** The theorem at a unit square whose offset fails, with a wall
    thickness that is not a number. *)
Lemma fallback_carpet_is_a_nonnegative_number_witness :
  let square :=
    rectangle_failing_buffer (F := float) (of_int 0) (of_int 0)
      (of_int 1) (of_int 1) in
  nth_error [square] 0 = Some square /\
  offset_fails square (- nan)%py /\
  exists room : Room.t float,
    nth_error (rooms (compute_areas_and_walls [square] nan "meters")) 0
      = Some room /\
    Room.carpet_area room = 0%float.
Proof.
  intros square.
  assert (Hi : nth_error [square] 0 = Some square) by reflexivity.
  assert (Hfails : offset_fails square (- nan)%py)
    by (intros inner Hinner; discriminate Hinner).
  split; [exact Hi|]. split; [exact Hfails|].
  destruct (fallback_carpet_is_a_nonnegative_number
              [square] nan "meters" 0 square Hi Hfails)
    as (room & Hroom & _ & _).
  exists room. split; [exact Hroom|].
  assert (Hsame : Some room
                  = Some (room_of nan (Z.of_nat 0 + 1) square)).
  { rewrite <- Hroom. reflexivity. }
  injection Hsame as ->. reflexivity.
Defined.

(* ================================================================= *)
(** * Several drawings *)

(** X9.  Processing two lists of polygons one after the other is
    processing them separately: the rooms of the concatenation are the
    rooms of the first list followed by the rooms of the second with their
    ids moved up by the length of the first, and in exact arithmetic each
    total is the sum of the two totals. *)
Theorem metrics_of_concatenation :
  (forall (F : Type) (S : Scalar F) (first second : list (Polygon.t F))
          (wt : F) (label : string),
     rooms (compute_areas_and_walls (first ++ second) wt label)
     = rooms (compute_areas_and_walls first wt label)
       ++ map (shift_id (Z.of_nat (List.length first)))
            (rooms (compute_areas_and_walls second wt label))) /\
  (forall (first second : list (Polygon.t Q)) (wt : Q) (label : string),
     let whole := totals (compute_areas_and_walls (first ++ second) wt label)
     in
     let t1 := totals (compute_areas_and_walls first wt label) in
     let t2 := totals (compute_areas_and_walls second wt label) in
     Totals.built_up_area whole
       == Totals.built_up_area t1 + Totals.built_up_area t2 /\
     Totals.carpet_area whole
       == Totals.carpet_area t1 + Totals.carpet_area t2 /\
     Totals.perimeter whole
       == Totals.perimeter t1 + Totals.perimeter t2).
Proof.
  split.
  - intros F S first second wt label.
    rewrite !rooms_of_polygons, enumerate_app, map_app.
    apply (f_equal (app _)).
    rewrite enumerate_shift, !map_map.
    apply map_ext. intros [idx poly]. cbn [fst snd].
    apply room_of_shift.
  - intros first second wt label whole t1 t2. subst whole t1 t2.
    destruct (totals_of_polygons (first ++ second) wt label)
      as (-> & -> & ->).
    destruct (totals_of_polygons first wt label) as (-> & -> & ->).
    destruct (totals_of_polygons second wt label) as (-> & -> & ->).
    rewrite !map_app. repeat split; apply fsum_exact_app.
Qed.

(** X10.  In exact arithmetic the totals do not depend on the order of
    the polygons: two lists that are permutations of each other give the
    same built-up area, carpet area and perimeter. *)
Theorem totals_do_not_depend_on_order :
  forall (polygons polygons' : list (Polygon.t Q)) (wt : Q)
         (label : string),
    Permutation polygons polygons' ->
    let t := totals (compute_areas_and_walls polygons wt label) in
    let t' := totals (compute_areas_and_walls polygons' wt label) in
    Totals.built_up_area t == Totals.built_up_area t' /\
    Totals.carpet_area t == Totals.carpet_area t' /\
    Totals.perimeter t == Totals.perimeter t'.
Proof.
  intros polygons polygons' wt label Hperm t t'. subst t t'.
  destruct (totals_of_polygons polygons wt label) as (-> & -> & ->).
  destruct (totals_of_polygons polygons' wt label) as (-> & -> & ->).
  repeat split; apply fsum_exact_perm; now apply Permutation_map.
Qed.

(** The theorem at two rooms listed in either order. *)
Lemma totals_do_not_depend_on_order_witness :
  let a := rectangle (F := Q) 0 0 10 6 in
  let b := rectangle (F := Q) 20 0 23 4 in
  Permutation [a; b] [b; a] /\
  Totals.built_up_area (totals (compute_areas_and_walls [a; b] 0.2 "meters"))
  == Totals.built_up_area
       (totals (compute_areas_and_walls [b; a] 0.2 "meters")).
Proof.
  intros a b.
  assert (Hperm : Permutation [a; b] [b; a]) by apply perm_swap.
  split; [exact Hperm|].
  exact (proj1 (totals_do_not_depend_on_order [a; b] [b; a] 0.2 "meters"
                  Hperm)).
Defined.

(* ================================================================= *)
(** * Further properties of the estimate *)

Section EstimateMore.

Context {F : Type} `{Scalar F}.
Local Open Scope py_scope.

(** The mix function for any mix: its two faults and its result. *)
Lemma concrete_mix_cases (cement_bag_kg v : F) (a b c : Z) :
  ((a + b + c = 0)%Z ->
   concrete_materials_for_volume cement_bag_kg v (a, b, c)
   = Raise ZeroDivisionError) /\
  ((cement_bag_kg ==? of_int 0) = true ->
   concrete_materials_for_volume cement_bag_kg v (a, b, c)
   = Raise ZeroDivisionError) /\
  ((a + b + c <> 0)%Z ->
   (cement_bag_kg ==? of_int 0) = false ->
   concrete_materials_for_volume cement_bag_kg v (a, b, c)
   = OK {| concrete_volume_m3 := v;
           cement_kg :=
             v * lit 1.54 * (of_int a / of_int (a + b + c)) * of_int 1440;
           cement_bags :=
             v * lit 1.54 * (of_int a / of_int (a + b + c)) * of_int 1440
             / cement_bag_kg;
           sand_m3 := v * lit 1.54 * (of_int b / of_int (a + b + c));
           aggregate_m3 :=
             v * lit 1.54 * (of_int c / of_int (a + b + c)) |}).
Proof.
  unfold concrete_materials_for_volume, int_truediv, py_div.
  split; [|split].
  - intros Hsum. apply Z.eqb_eq in Hsum. now rewrite Hsum.
  - intros Hbag. destruct (a + b + c =? 0)%Z; [reflexivity|].
    cbn [bind]. now rewrite Hbag.
  - intros Hsum Hbag. apply Z.eqb_neq in Hsum. rewrite Hsum.
    cbn [bind]. now rewrite Hbag.
Qed.

(** What a returned estimate was computed from. *)
Lemma estimate_inversion (results : AggregateResult F)
  (cement_bag_kg plaster_thickness_mm tile_size_mm : F)
  (m : MaterialsResult F) :
  estimate_materials_for_workitems results
    cement_bag_kg plaster_thickness_mm tile_size_mm = OK m ->
  exists n : Z,
    tiles_for (Totals.carpet_area (totals results)) tile_size_mm = OK n /\
    (cement_bag_kg ==? of_int 0) = false.
Proof.
  unfold estimate_materials_for_workitems.
  destruct (tiles_for _ _) as [n|e]; [|discriminate]. cbn [bind].
  intros Hm. exists n. split; [reflexivity|].
  destruct (cement_bag_kg ==? of_int 0) eqn:Hbag; [|reflexivity].
  rewrite concrete_mix_raises in Hm by exact Hbag. discriminate Hm.
Qed.

End EstimateMore.

(** X11.  Whenever the estimate returns, its work items are the twelve
    items of the catalog, in this order and with these units (the cement
    unit naming the bag mass), the contingency note is the fixed text, and
    the summary fields repeat the catalog: brick, plaster, tile and paint
    amounts and the sand, aggregate and cement of the concrete breakdown
    are the amounts of the corresponding items; the steel is 80 times the
    concrete volume of the breakdown. *)
Theorem catalog_and_summary_agree :
  forall (F : Type) (S : Scalar F) (results : AggregateResult F)
         (cement_bag_kg plaster_thickness_mm tile_size_mm : F)
         (m : MaterialsResult F),
    estimate_materials_for_workitems results
      cement_bag_kg plaster_thickness_mm tile_size_mm = OK m ->
    map (fun w => (item w, unit w)) (workitems m)
    = [ ("Excavation"%string, label "m3");
        ("PCC (under slab)"%string, label "m3");
        ("Footing concrete"%string, label "m3");
        ("RCC slab/beams"%string, label "m3");
        ("Reinforcement steel"%string, label "kg");
        ("Masonry (bricks)"%string, label "nos");
        ("Sand (for concrete/mortar)"%string, label "m3");
        ("Coarse aggregate"%string, label "m3");
        ("Cement"%string, bags_of cement_bag_kg);
        ("Plaster (both sides)"%string, label "m3");
        ("Tiles / Flooring"%string, label "nos");
        ("Paint (liters)"%string, label "liters") ] /\
    contingency_note m
      = "Add ~10% contingency for waste and variations."%string /\
    skipn 4 (map (@item_amount F) (workitems m))
    = [ quantity
          (Float (concrete_volume_m3 (concrete_breakdown m) * of_int 80)%py);
        quantity (Float (bricks_count m));
        quantity_m3 (Float (sand_m3 (concrete_breakdown m)));
        quantity_m3 (Float (aggregate_m3 (concrete_breakdown m)));
        quantity (Float (cement_bags (concrete_breakdown m)));
        quantity (Float (plaster_volume_m3 m));
        quantity (Int (tiles_count m));
        quantity (Float (paint_liters m)) ].
Proof.
  intros F S results bag pt ts m Hm.
  destruct (estimate_inversion results bag pt ts m Hm) as (n & Hn & Hbag).
  unfold estimate_materials_for_workitems in Hm.
  rewrite Hn in Hm. cbn [bind] in Hm.
  rewrite concrete_mix_returns in Hm by exact Hbag. cbn [bind] in Hm.
  injection Hm as <-. repeat split.
Qed.

(** The theorem at the 10 by 6 room with the default constants. *)
Lemma catalog_and_summary_agree_witness :
  exists m : MaterialsResult float,
    estimate_materials_for_workitems (scenario_results (lit 0.2))
      (of_int 50) (of_int 12) (of_int 600) = OK m /\
    map (@item float) (workitems m)
    = [ "Excavation"; "PCC (under slab)"; "Footing concrete";
        "RCC slab/beams"; "Reinforcement steel"; "Masonry (bricks)";
        "Sand (for concrete/mortar)"; "Coarse aggregate"; "Cement";
        "Plaster (both sides)"; "Tiles / Flooring"; "Paint (liters)"
      ]%string.
Proof.
  destruct (estimate_materials_for_workitems (scenario_results (lit 0.2))
              (of_int 50) (of_int 12) (of_int 600)) as [m|e] eqn:Hm;
    [|vm_compute in Hm; discriminate Hm].
  exists m. split; [reflexivity|].
  destruct (catalog_and_summary_agree float binary64 _ _ _ _ m Hm)
    as (Hcatalog & _).
  apply (f_equal (map fst)) in Hcatalog.
  rewrite map_map in Hcatalog. exact Hcatalog.
Defined.

(** X12.  For any mix [(a, b, c)], the concrete-mix function raises
    [ZeroDivisionError] when the parts sum to zero.  For a mix whose parts
    and their sum are integers that [float] holds exactly (magnitude at
    most [2^53], where the promotion of an [int] and the true division of
    two [int]s are the operations of the model), it raises
    [ZeroDivisionError] when the bag mass is zero, and in every other case
    returns: the volume it was given, and the dry volume [v * 1.54] split
    by [a], [b] and [c] over their sum. *)
Theorem concrete_mix_faults :
  forall (F : Type) (S : Scalar F) (cement_bag_kg v : F) (a b c : Z),
    ((a + b + c = 0)%Z ->
     concrete_materials_for_volume cement_bag_kg v (a, b, c)
     = Raise ZeroDivisionError) /\
    (exact_in_binary64 a -> exact_in_binary64 b -> exact_in_binary64 c ->
     exact_in_binary64 (a + b + c) ->
     ((cement_bag_kg ==? of_int 0)%py = true ->
      concrete_materials_for_volume cement_bag_kg v (a, b, c)
      = Raise ZeroDivisionError) /\
     ((a + b + c <> 0)%Z /\ (cement_bag_kg ==? of_int 0)%py = false ->
      exists mix : ConcreteMix F,
        concrete_materials_for_volume cement_bag_kg v (a, b, c) = OK mix /\
        concrete_volume_m3 mix = v /\
        cement_kg mix
          = (v * lit 1.54 * (of_int a / of_int (a + b + c))
             * of_int 1440)%py /\
        cement_bags mix = (cement_kg mix / cement_bag_kg)%py /\
        sand_m3 mix
          = (v * lit 1.54 * (of_int b / of_int (a + b + c)))%py /\
        aggregate_m3 mix
          = (v * lit 1.54 * (of_int c / of_int (a + b + c)))%py)).
Proof.
  intros F S bag v a b c.
  destruct (concrete_mix_cases bag v a b c) as (Hsum & Hzero & Hok).
  split; [exact Hsum|].
  intros _ _ _ _. split; [exact Hzero|].
  intros [Hs Hb]. eexists. split; [now apply Hok|]. repeat split.
Qed.

(** The theorem at a mix whose parts cancel, and at the mix 1:3:6. *)
Lemma concrete_mix_faults_witness :
  concrete_materials_for_volume (F := float) (of_int 50) (lit 24.6)
    (1, 1, -2)%Z = Raise ZeroDivisionError /\
  (exact_in_binary64 1 /\ exact_in_binary64 3 /\ exact_in_binary64 6 /\
   exact_in_binary64 (1 + 3 + 6) /\
   concrete_materials_for_volume (F := float) (of_int 0) (lit 24.6)
     (1, 3, 6)%Z = Raise ZeroDivisionError /\
   exists mix : ConcreteMix float,
     concrete_materials_for_volume (of_int 50) (lit 24.6) (1, 3, 6)%Z
       = OK mix /\
     concrete_volume_m3 mix = lit 24.6 /\
     sand_m3 mix = 11.3652%float).
Proof.
  destruct (concrete_mix_faults float binary64 (of_int 50) (lit 24.6)
              1 1 (-2)) as [Hraise _].
  destruct (concrete_mix_faults float binary64 (of_int 50) (lit 24.6)
              1 3 6) as [_ Hsmall].
  destruct (concrete_mix_faults float binary64 (of_int 0) (lit 24.6)
              1 3 6) as [_ Hsmall0].
  assert (H1 : exact_in_binary64 1) by (unfold exact_in_binary64; cbn; lia).
  assert (H3 : exact_in_binary64 3) by (unfold exact_in_binary64; cbn; lia).
  assert (H6 : exact_in_binary64 6) by (unfold exact_in_binary64; cbn; lia).
  assert (H10 : exact_in_binary64 (1 + 3 + 6))
    by (unfold exact_in_binary64; cbn; lia).
  split; [apply Hraise; reflexivity|].
  repeat (split; [assumption|]).
  split.
  - apply (Hsmall0 H1 H3 H6 H10). reflexivity.
  - destruct (proj2 (Hsmall H1 H3 H6 H10)) as (mix & Hmix & Hvol & _ & _
                                               & Hsand & _).
    + split; [discriminate | reflexivity].
    + exists mix. split; [exact Hmix|]. split; [exact Hvol|].
      rewrite Hsand. reflexivity.
Defined.

(** X13.  In exact arithmetic, for any mix whose parts do not sum to zero
    and a non-zero bag mass, the mix function loses nothing: the cement
    volume ([cement_kg / 1440]), the sand and the aggregate add up to the
    dry volume [1.54 * v], and the bags times the bag mass give back the
    cement mass. *)
Theorem concrete_mix_conserves_volume :
  forall (cement_bag_kg v : Q) (a b c : Z),
    (a + b + c <> 0)%Z ->
    ~ cement_bag_kg == 0 ->
    exists mix : ConcreteMix Q,
      concrete_materials_for_volume cement_bag_kg v (a, b, c) = OK mix /\
      cement_kg mix / 1440 + sand_m3 mix + aggregate_m3 mix == 1.54 * v /\
      cement_bags mix * cement_bag_kg == cement_kg mix.
Proof.
  intros bag v a b c Hsum Hbag.
  destruct (concrete_mix_cases bag v a b c) as (_ & _ & Hok).
  eexists. split; [exact (Hok Hsum (exact_nonzero _ Hbag))|].
  cbn [cement_kg cement_bags sand_m3 aggregate_m3]. exact_arith.
  assert (Htotal : ~ inject_Z (a + b + c) == 0).
  { intros Hz. apply Hsum.
    exact (proj1 (inject_Z_injective (a + b + c) 0) Hz). }
  split.
  - transitivity (v * 1.54 * ((inject_Z a + inject_Z b + inject_Z c)
                              / inject_Z (a + b + c))).
    + change (inject_Z 1440) with 1440. field. exact Htotal.
    + rewrite <- !inject_Z_plus. field. exact Htotal.
  - field. now split.
Qed.

(** The theorem at 24.6 m3 with the mix 1:2:4 and bags of 50 kg. *)
Lemma concrete_mix_conserves_volume_witness :
  (1 + 2 + 4 <> 0)%Z /\ ~ 50 == 0 /\
  exists mix : ConcreteMix Q,
    concrete_materials_for_volume 50 24.6 (1, 2, 4)%Z = OK mix /\
    cement_kg mix / 1440 + sand_m3 mix + aggregate_m3 mix == 1.54 * 24.6.
Proof.
  assert (Hsum : (1 + 2 + 4 <> 0)%Z) by discriminate.
  assert (Hbag : ~ 50 == 0) by (intros E; discriminate E).
  split; [exact Hsum|]. split; [exact Hbag|].
  destruct (concrete_mix_conserves_volume 50 24.6 1 2 4 Hsum Hbag)
    as (mix & Hmix & Hvol & _).
  exists mix. split; assumption.
Defined.

(* ================================================================= *)
(** * The tile count in exact arithmetic *)

Lemma tile_area_positive (tile_size_mm : Q) :
  ~ tile_size_mm == 0 ->
  0 < (tile_size_mm / 1000.0) * (tile_size_mm / 1000.0).
Proof.
  intros Hts.
  assert (Hside : ~ tile_size_mm / 1000.0 == 0).
  { intros Hz. apply Hts.
    assert (Hmul : tile_size_mm == tile_size_mm / 1000.0 * 1000.0)
      by (field; discriminate).
    rewrite Hmul, Hz. ring. }
  destruct (Q_dec (tile_size_mm / 1000.0) 0) as [[Hneg|Hpos]|Hz];
    [| |contradiction].
  - setoid_replace ((tile_size_mm / 1000.0) * (tile_size_mm / 1000.0))
      with ((- (tile_size_mm / 1000.0)) * (- (tile_size_mm / 1000.0)))
      by ring.
    apply Qmult_lt_0_compat; lra.
  - now apply Qmult_lt_0_compat.
Qed.

(** The tile count as a function of the carpet area and the tile area. *)
Lemma tiles_for_exact_value (carpet tile_size_mm : Q) :
  let tile_area := (tile_size_mm / 1000.0) * (tile_size_mm / 1000.0) in
  tiles_for carpet tile_size_mm
  = OK (if Qle_bool tile_area 0 then 0%Z else Qceiling (carpet / tile_area)).
Proof.
  intros tile_area. unfold tiles_for, py_div. exact_arith. cbn [bind].
  fold tile_area. change (inject_Z 0) with 0.
  destruct (Qle_bool tile_area 0) eqn:Hle; cbn [negb]; [reflexivity|].
  destruct (Qeq_bool tile_area 0) eqn:Heq; [|reflexivity].
  apply Qeq_bool_iff in Heq.
  assert (Hle' : Qle_bool tile_area 0 = true)
    by (apply Qle_bool_iff; rewrite Heq; apply Qle_refl).
  congruence.
Qed.

(** X14.  In exact arithmetic, for a non-zero tile size, the tile count
    [n] is the least number of tiles that cover the carpet area: [n] tiles
    cover it and [n - 1] tiles do not.  It is not negative when the carpet
    area is not. *)
Theorem tiles_cover_the_carpet_area :
  forall carpet tile_size_mm : Q,
    ~ tile_size_mm == 0 ->
    let tile_area := (tile_size_mm / 1000.0) * (tile_size_mm / 1000.0) in
    exists n : Z,
      tiles_for carpet tile_size_mm = OK n /\
      carpet <= inject_Z n * tile_area /\
      inject_Z (n - 1) * tile_area < carpet /\
      (0 <= carpet -> (0 <= n)%Z).
Proof.
  intros carpet ts Hts tile_area.
  assert (Hpos : 0 < tile_area) by now apply tile_area_positive.
  assert (Hnz : ~ tile_area == 0) by lra.
  exists (Qceiling (carpet / tile_area)).
  split.
  - rewrite tiles_for_exact_value. fold tile_area.
    destruct (Qle_bool tile_area 0) eqn:Hle; [|reflexivity].
    apply Qle_bool_iff in Hle. lra.
  - pose proof (Qle_ceiling (carpet / tile_area)) as Hup.
    pose proof (Qceiling_lt (carpet / tile_area)) as Hdown.
    assert (Hcarpet : carpet == carpet / tile_area * tile_area)
      by (field; exact Hnz).
    split; [|split].
    + rewrite Hcarpet at 1. apply Qmult_le_compat_r; [exact Hup | lra].
    + rewrite Hcarpet at 2. apply Qmult_lt_compat_r; assumption.
    + intros Hc.
      assert (Hq : 0 <= carpet / tile_area).
      { apply Qle_shift_div_l; [exact Hpos | lra]. }
      change 0%Z with (Qceiling 0). now apply Qceiling_resp_le.
Qed.

(** The theorem at the carpet area of the 10 by 6 room and 600 mm tiles:
    150 tiles of 0.36 m2 cover 53.76 m2, 149 do not. *)
Lemma tiles_cover_the_carpet_area_witness :
  ~ 600 == 0 /\
  tiles_for (F := Q) 53.76 600 = OK 150%Z /\
  53.76 <= inject_Z 150 * ((600 / 1000.0) * (600 / 1000.0)) /\
  inject_Z 149 * ((600 / 1000.0) * (600 / 1000.0)) < 53.76.
Proof.
  assert (Hts : ~ 600 == 0) by (intros E; discriminate E).
  split; [exact Hts|].
  destruct (tiles_cover_the_carpet_area 53.76 600 Hts)
    as (n & Hn & Hcover & Hshort & _).
  assert (Hvalue : OK n = OK 150%Z) by (rewrite <- Hn; reflexivity).
  injection Hvalue as ->.
  repeat split; assumption.
Defined.

(** X15.  In exact arithmetic the tile count never decreases when the
    carpet area grows, and it depends on the tile size through its square
    only: a negative tile size gives the count of its absolute value. *)
Theorem tile_count_is_monotone :
  forall carpet carpet' tile_size_mm : Q,
    carpet <= carpet' ->
    exists n n' : Z,
      tiles_for carpet tile_size_mm = OK n /\
      tiles_for carpet' tile_size_mm = OK n' /\
      (n <= n')%Z /\
      tiles_for carpet (- tile_size_mm) = OK n.
Proof.
  intros carpet carpet' ts Hle.
  set (tile_area := (ts / 1000.0) * (ts / 1000.0)).
  exists (if Qle_bool tile_area 0 then 0%Z
          else Qceiling (carpet / tile_area)).
  exists (if Qle_bool tile_area 0 then 0%Z
          else Qceiling (carpet' / tile_area)).
  split; [apply tiles_for_exact_value|].
  split; [apply tiles_for_exact_value|].
  split.
  - destruct (Qle_bool tile_area 0) eqn:Hflat; [lia|].
    assert (Hpos : 0 < tile_area).
    { apply Qnot_le_lt. intros Hneg. apply Qle_bool_iff in Hneg.
      congruence. }
    apply Qceiling_resp_le.
    unfold Qdiv. apply Qmult_le_compat_r; [exact Hle|].
    apply Qlt_le_weak. now apply Qinv_lt_0_compat.
  - rewrite tiles_for_exact_value. cbv zeta.
    assert (Hsame : (- ts / 1000.0) * (- ts / 1000.0) == tile_area)
      by (unfold tile_area; field; discriminate).
    assert (Hflat : Qle_bool ((- ts / 1000.0) * (- ts / 1000.0)) 0
                    = Qle_bool tile_area 0).
    { destruct (Qle_bool tile_area 0) eqn:Hle0.
      - apply Qle_bool_iff. rewrite Hsame. now apply Qle_bool_iff.
      - destruct (Qle_bool ((- ts / 1000.0) * (- ts / 1000.0)) 0) eqn:Hle1;
          [|reflexivity].
        apply Qle_bool_iff in Hle1. rewrite Hsame in Hle1.
        apply Qle_bool_iff in Hle1. congruence. }
    f_equal. rewrite Hflat.
    destruct (Qle_bool tile_area 0); [reflexivity|].
    apply Qceiling_comp. now rewrite Hsame.
Qed.

(** The theorem at carpet areas 53.76 and 60 with 600 mm tiles. *)
Lemma tile_count_is_monotone_witness :
  53.76 <= 60 /\
  tiles_for (F := Q) 53.76 600 = OK 150%Z /\
  tiles_for (F := Q) 60 600 = OK 167%Z /\
  tiles_for (F := Q) 53.76 (- 600) = OK 150%Z.
Proof.
  assert (Hle : 53.76 <= 60) by discriminate.
  split; [exact Hle|].
  destruct (tile_count_is_monotone 53.76 60 600 Hle)
    as (n & n' & Hn & Hn' & _ & Hneg).
  assert (Hvalue : OK n = OK 150%Z) by (rewrite <- Hn; reflexivity).
  injection Hvalue as ->.
  assert (Hvalue' : OK n' = OK 167%Z) by (rewrite <- Hn'; reflexivity).
  injection Hvalue' as ->.
  repeat split; assumption.
Defined.

(* ================================================================= *)
(** * Closed forms and faults of the estimate *)

(** X16.  In exact arithmetic, with a non-zero bag mass, the estimate
    returns and its quantities have these closed forms in the built-up
    area [A], the perimeter [P], the wall thickness [t] and the plaster
    thickness: concrete [0.25 A + 0.3 P] m3, cement 316.8 kg, sand 0.44 m3
    and aggregate 0.88 m3 per m3 of concrete, bricks [1500 P t], plaster
    [0.003 P plaster_thickness_mm], paint [0.3 P]. *)
Theorem estimate_closed_forms :
  forall (results : AggregateResult Q)
         (cement_bag_kg plaster_thickness_mm tile_size_mm : Q),
    ~ cement_bag_kg == 0 ->
    let A := Totals.built_up_area (totals results) in
    let P := Totals.perimeter (totals results) in
    let t := wall_thickness results in
    exists m : MaterialsResult Q,
      estimate_materials_for_workitems results
        cement_bag_kg plaster_thickness_mm tile_size_mm = OK m /\
      let volume := concrete_volume_m3 (concrete_breakdown m) in
      volume == 0.25 * A + 0.3 * P /\
      cement_kg (concrete_breakdown m) == 316.8 * volume /\
      cement_bags (concrete_breakdown m)
        == 316.8 * volume / cement_bag_kg /\
      sand_m3 (concrete_breakdown m) == 0.44 * volume /\
      aggregate_m3 (concrete_breakdown m) == 0.88 * volume /\
      bricks_count m == 1500 * P * t /\
      plaster_volume_m3 m == 0.003 * P * plaster_thickness_mm /\
      paint_liters m == 0.3 * P.
Proof.
  intros results bag pt ts Hbag A P t.
  destruct (tiles_for_exact (Totals.carpet_area (totals results)) ts)
    as (n & Hn & _).
  destruct (estimate_returns results bag pt ts n Hn (exact_nonzero _ Hbag))
    as (m & mix & Hm & Hmix & Hbreak & _ & Hbricks & Hplaster & Hpaint & _).
  rewrite concrete_mix_returns in Hmix by exact (exact_nonzero _ Hbag).
  injection Hmix as <-.
  exists m. split; [exact Hm|]. cbv zeta.
  rewrite Hbricks, Hplaster, Hpaint, Hbreak.
  cbn [concrete_volume_m3 cement_kg cement_bags sand_m3 aggregate_m3].
  exact_arith. fold A P t.
  change (inject_Z 1) with 1. change (inject_Z 7) with 7.
  change (inject_Z 1440) with 1440. change (inject_Z 500) with 500.
  change (inject_Z 10) with 10. change (inject_Z 2) with 2.
  change (inject_Z 4) with 4.
  repeat split; try (field; exact Hbag); field.
Qed.

(** The theorem at the totals of the 10 by 6 room: 24.6 m3 of concrete. *)
Lemma estimate_closed_forms_witness :
  ~ 50 == 0 /\
  exists m : MaterialsResult Q,
    estimate_materials_for_workitems (results_with 60 53.76 32 0.2)
      50 12 600 = OK m /\
    concrete_volume_m3 (concrete_breakdown m) == 24.6.
Proof.
  assert (Hbag : ~ 50 == 0) by (intros E; discriminate E).
  split; [exact Hbag|].
  destruct (estimate_closed_forms (results_with 60 53.76 32 0.2)
              50 12 600 Hbag) as (m & Hm & Hvol & _).
  exists m. split; [exact Hm|].
  rewrite Hvol. reflexivity.
Defined.

(** X17.  The estimate returns exactly when its tile count is computed
    and the bag mass is not zero.  A fault of the tile count is the fault
    of the estimate, whatever the bag mass; otherwise a zero bag mass
    raises [ZeroDivisionError].  In exact arithmetic the tile count is
    always computed, so the estimate returns exactly when the bag mass is
    not zero. *)
Theorem estimate_returns_or_raises :
  (forall (F : Type) (S : Scalar F) (results : AggregateResult F)
          (cement_bag_kg plaster_thickness_mm tile_size_mm : F),
     let tiles :=
       tiles_for (Totals.carpet_area (totals results)) tile_size_mm in
     let estimate :=
       estimate_materials_for_workitems results
         cement_bag_kg plaster_thickness_mm tile_size_mm in
     ((exists m, estimate = OK m) <->
      (exists n, tiles = OK n) /\ (cement_bag_kg ==? of_int 0)%py = false) /\
     (forall e : exn, tiles = Raise e -> estimate = Raise e) /\
     (forall n : Z,
        tiles = OK n -> (cement_bag_kg ==? of_int 0)%py = true ->
        estimate = Raise ZeroDivisionError)) /\
  (forall (results : AggregateResult Q)
          (cement_bag_kg plaster_thickness_mm tile_size_mm : Q),
     (exists m,
        estimate_materials_for_workitems results
          cement_bag_kg plaster_thickness_mm tile_size_mm = OK m)
     <-> ~ cement_bag_kg == 0).
Proof.
  split.
  - intros F S results bag pt ts tiles estimate. subst tiles estimate.
    split; [|split].
    + split.
      * intros [m Hm].
        destruct (estimate_inversion results bag pt ts m Hm)
          as (n & Hn & Hbag).
        split; [now exists n | exact Hbag].
      * intros [[n Hn] Hbag].
        destruct (estimate_returns results bag pt ts n Hn Hbag)
          as (m & _ & Hm & _).
        now exists m.
    + intros e He. unfold estimate_materials_for_workitems.
      now rewrite He.
    + intros n Hn Hbag. now apply estimate_raises with (n := n).
  - intros results bag pt ts. split.
    + intros [m Hm] Hzero.
      destruct (estimate_inversion results bag pt ts m Hm) as (_ & _ & Hbag).
      exact_arith. apply Qeq_bool_neq in Hbag. now apply Hbag.
    + apply estimate_exact_returns.
Qed.

(** X18.  The division of the carpet area by the tile area never raises
    [ZeroDivisionError]: in binary64 the tile count is computed or fails
    with [OverflowError] (the squared tile size or the quotient is
    infinite) or [ValueError] (the quotient is not a number); in exact
    arithmetic it is always computed. *)
Theorem tile_division_is_guarded :
  (forall carpet tile_size_mm : float,
     (exists n : Z, tiles_for carpet tile_size_mm = OK n)
     \/ tiles_for carpet tile_size_mm = Raise OverflowError
     \/ tiles_for carpet tile_size_mm = Raise ValueError) /\
  (forall carpet tile_size_mm : Q,
     exists n : Z, tiles_for carpet tile_size_mm = OK n).
Proof.
  split.
  - intros carpet ts. unfold tiles_for, py_div.
    cbn [of_int lit fdiv fsquare feqb fltb fceil binary64].
    unfold Binary64.fsquare.
    destruct (_ && _); [right; left; reflexivity|]. cbn [bind].
    change (Binary64.of_int 0) with 0%float.
    match goal with
    | |- context [PrimFloat.ltb 0 ?a] =>
        destruct (PrimFloat.ltb 0 a) eqn:Hpos
    end.
    + destruct (Binary64Facts.positive_not_zero _ Hpos) as [Hnz _].
      rewrite Binary64Facts.eqb_zero, Hnz. cbn [bind].
      unfold Binary64.fceil.
      destruct (Prim2SF _) as [s|s| |s m e].
      * left. now eexists.
      * right; left. reflexivity.
      * right; right. reflexivity.
      * left. now eexists.
    + left. now exists 0%Z.
  - intros carpet ts. eexists. apply tiles_for_exact_value.
Qed.

(** The theorem at a tile size whose square overflows: the estimate
    raises [OverflowError], also with a zero bag mass. *)
Lemma estimate_returns_or_raises_witness :
  tiles_for (Totals.carpet_area (totals (scenario_results (lit 0.2))))
    1e200%float = Raise OverflowError /\
  estimate_materials_for_workitems (scenario_results (lit 0.2))
    (Binary64.of_int 0) (Binary64.of_int 12) 1e200%float
  = Raise OverflowError.
Proof.
  destruct estimate_returns_or_raises as [Hany _].
  destruct (Hany float binary64 (scenario_results (lit 0.2))
              (Binary64.of_int 0) (Binary64.of_int 12) 1e200%float)
    as (_ & Hfault & _).
  assert (Htiles :
    tiles_for (Totals.carpet_area (totals (scenario_results (lit 0.2))))
      1e200%float = Raise OverflowError) by reflexivity.
  split; [exact Htiles|].
  exact (Hfault OverflowError Htiles).
Defined.

(* ================================================================= *)
(** * The rows of the report *)

Section ExportFacts.

Variable F : Type.

Lemma dict_has_item (w : pydict F) (key : string) :
  dict_has w key = true -> exists v, dict_get w key = Some v.
Proof.
  unfold dict_has. destruct (dict_get w key) as [v|]; [|discriminate].
  intros _. now exists v.
Qed.

Lemma workitem_row_found (w : pydict F) :
  dict_has w "item" = true ->
  exists name : pyvalue F,
    dict_get w "item" = Some name /\
    workitem_row w
    = Found {| description := name; row_quantity := quantity_of w |}.
Proof.
  intros Hitem. destruct (dict_has_item w "item" Hitem) as [name Hname].
  exists name. split; [exact Hname|].
  unfold workitem_row, dict_item. now rewrite Hname.
Qed.

Lemma workitem_row_keyerror (w : pydict F) :
  dict_has w "item" = false -> workitem_row w = KeyError "item".
Proof.
  unfold dict_has, workitem_row, dict_item.
  now destruct (dict_get w "item").
Qed.

Lemma append_workitems_found (ws : list (pydict F)) :
  forall rows0 : list (AbstractRow F),
    Forall (fun w => dict_has w "item" = true) ws ->
    exists rows : list (AbstractRow F),
      append_workitems rows0 ws = Found (rows0 ++ rows) /\
      Forall2 (fun w row => workitem_row w = Found row) ws rows.
Proof.
  induction ws as [|w ws IH]; intros rows0 Hall.
  - exists []. cbn. now rewrite app_nil_r.
  - inversion Hall as [|w' ws' Hw Hws]; subst.
    destruct (workitem_row_found w Hw) as (name & _ & Hrow).
    destruct (IH (rows0 ++ [{| description := name;
                               row_quantity := quantity_of w |}]) Hws)
      as (rows & Hrows & Hall2).
    exists ({| description := name; row_quantity := quantity_of w |}
            :: rows).
    cbn [append_workitems]. rewrite Hrow, Hrows, <- app_assoc.
    split; [reflexivity|]. now constructor.
Qed.

Lemma append_workitems_keyerror (ws : list (pydict F)) :
  forall rows0 : list (AbstractRow F),
    Exists (fun w => dict_has w "item" = false) ws ->
    append_workitems rows0 ws = KeyError "item".
Proof.
  induction ws as [|w ws IH]; intros rows0 Hex; [inversion Hex|].
  cbn [append_workitems].
  destruct (dict_has w "item") eqn:Hw.
  - destruct (workitem_row_found w Hw) as (name & _ & ->).
    apply IH. inversion Hex as [w' ws' Hbad|w' ws' Htail]; subst;
      [congruence | exact Htail].
  - now rewrite (workitem_row_keyerror w Hw).
Qed.

(** The rows written for the work items of the estimator. *)
Lemma append_estimator_items (ws : list (WorkItem F)) :
  forall rows0 : list (AbstractRow F),
    append_workitems rows0 (map (@workitem_dict F) ws)
    = Found (rows0
             ++ map (fun w =>
                       {| description := VStr (item w);
                          row_quantity :=
                            VNum (amount_value (item_amount w)) |}) ws).
Proof.
  induction ws as [|w ws IH]; intros rows0; cbn [map append_workitems].
  - now rewrite app_nil_r.
  - assert (Hrow : workitem_row (workitem_dict w)
                   = Found {| description := VStr (item w);
                              row_quantity :=
                                VNum (amount_value (item_amount w)) |}).
    { unfold workitem_row, workitem_dict, quantity_of, dict_item, dict_has.
      now destruct (item_amount w). }
    rewrite Hrow, IH, <- app_assoc. reflexivity.
Qed.

End ExportFacts.

(** X19.  How the abstract sheet reads a work item.  Its quantity is the
    entry [quantity] when there is one, whatever [quantity_m3] holds;
    otherwise the entry [quantity_m3]; otherwise the empty string, without
    a fault.  Its description is the entry [item], and a work item without
    it makes the export raise [KeyError] for [item]: the export returns
    exactly when every work item has that entry, with one row per work
    item after the three rows of the totals. *)
Theorem abstract_rows_of_workitems :
  forall (F : Type) (results : AggregateResult F) (ws : list (pydict F)),
    (forall (w : pydict F) (q : pyvalue F),
       (dict_get w "quantity" = Some q -> quantity_of w = q) /\
       (dict_get w "quantity" = None ->
        dict_get w "quantity_m3" = Some q -> quantity_of w = q) /\
       (dict_get w "quantity" = None ->
        dict_get w "quantity_m3" = None -> quantity_of w = VStr "")) /\
    (Forall (fun w => dict_has w "item" = true) ws ->
     exists rows : list (AbstractRow F),
       sheet_rows results (Some ws)
       = Found (map (@room_row F) (rooms results),
                totals_rows (totals results) ++ rows) /\
       Forall2 (fun w row =>
                  dict_get w "item" = Some (description row) /\
                  row_quantity row = quantity_of w) ws rows) /\
    (Exists (fun w => dict_has w "item" = false) ws ->
     sheet_rows results (Some ws) = KeyError "item").
Proof.
  intros F results ws. split; [|split].
  - intros w q. unfold quantity_of, dict_has.
    split; [|split].
    + now intros ->.
    + now intros -> ->.
    + now intros -> ->.
  - intros Hall.
    destruct (append_workitems_found F ws (totals_rows (totals results)) Hall)
      as (rows & Hrows & Hall2).
    exists rows. unfold sheet_rows. rewrite Hrows.
    split; [reflexivity|].
    clear Hrows. induction Hall2 as [|w row ws rows Hrow _ IH];
      constructor.
    + inversion Hall as [|w' ws' Hw _]; subst.
      destruct (workitem_row_found F w Hw) as (name & Hname & Hfound).
      rewrite Hfound in Hrow. injection Hrow as <-. now split.
    + apply IH. now inversion Hall.
  - intros Hex. unfold sheet_rows.
    now rewrite (append_workitems_keyerror F ws _ Hex).
Qed.

(** The theorem at a work item with both quantity entries (the entry
    [quantity] wins) followed by one without [item] (the export raises). *)
Lemma abstract_rows_of_workitems_witness :
  dict_get both_quantities "quantity" = Some (VNum (Float (of_int 1))) /\
  quantity_of both_quantities = VNum (Float (of_int 1)) /\
  Exists (fun w => dict_has w "item" = false) [both_quantities; nameless] /\
  sheet_rows (scenario_results (lit 0.2)) (Some [both_quantities; nameless])
    = KeyError "item".
Proof.
  destruct (abstract_rows_of_workitems float (scenario_results (lit 0.2))
              [both_quantities; nameless]) as (Hquantity & _ & Hraise).
  assert (Hq : dict_get both_quantities "quantity"
               = Some (VNum (Float (of_int 1)))) by reflexivity.
  assert (Hex : Exists (fun w => dict_has w "item" = false)
                  [both_quantities; nameless])
    by (right; left; reflexivity).
  split; [exact Hq|].
  split; [exact (proj1 (Hquantity both_quantities _) Hq)|].
  split; [exact Hex | exact (Hraise Hex)].
Defined.

(** X20.  The report of a run.  For the results of
    [compute_areas_and_walls] on a list of polygons and an estimate [m]
    returned for them, the export does not raise.  Its measurement sheet
    has one row per polygon, in order, with ids 1, 2, ..., n and the areas
    and perimeters of the polygons.  Its abstract sheet has fifteen rows:
    the three totals, then the twelve items of the catalog in order, every
    quantity a number (never the empty string of a missing entry).
    Without materials the abstract sheet is the three totals and the
    measurement sheet is the same. *)
Theorem report_of_a_run :
  forall (F : Type) (S : Scalar F) (Bytes : Type)
         (to_xlsx : list (RoomRow F) -> list (AbstractRow F) -> Bytes)
         (polygons : list (Polygon.t F)) (wt : F) (label : string)
         (cement_bag_kg plaster_thickness_mm tile_size_mm : F)
         (m : MaterialsResult F),
    let results := compute_areas_and_walls polygons wt label in
    estimate_materials_for_workitems results
      cement_bag_kg plaster_thickness_mm tile_size_mm = OK m ->
    exists (room_rows : list (RoomRow F))
           (item_rows : list (AbstractRow F)),
      export_measurement_sheets_bytes to_xlsx results (materials_of m)
        = Found (to_xlsx room_rows (totals_rows (totals results) ++ item_rows))
      /\
      export_measurement_sheets_bytes to_xlsx results None
        = Found (to_xlsx room_rows (totals_rows (totals results))) /\
      map (@room_id F) room_rows
        = map Z.of_nat (seq 1 (List.length polygons)) /\
      map (@area_m2 F) room_rows = map (@Polygon.area F) polygons /\
      map (@perimeter_m F) room_rows = map (@Polygon.length F) polygons /\
      map (@description F) item_rows = map VStr catalog /\
      List.length (totals_rows (totals results) ++ item_rows) = 15%nat /\
      Forall numeric_row (totals_rows (totals results) ++ item_rows).
Proof.
  intros F S Bytes to_xlsx polygons wt label bag pt ts m results Hm.
  destruct (estimate_inversion results bag pt ts m Hm) as (n & Hn & Hbag).
  destruct (estimate_returns results bag pt ts n Hn Hbag)
    as (m' & mix & Hm' & _ & _ & _ & _ & _ & _ & Hitems).
  rewrite Hm in Hm'. injection Hm' as <-.
  exists (map (@room_row F) (rooms results)).
  exists (map (fun w => {| description := VStr (item w);
                           row_quantity :=
                             VNum (amount_value (item_amount w)) |})
            (workitems m)).
  assert (Hnames : map (@item F) (workitems m) = catalog).
  { apply (f_equal (map fst)) in Hitems. rewrite map_map in Hitems.
    exact Hitems. }
  split; [|split; [|split; [|split; [|split; [|split; [|split]]]]]].
  - unfold export_measurement_sheets_bytes, sheet_rows, materials_of.
    now rewrite append_estimator_items.
  - reflexivity.
  - rewrite map_map. cbn [room_id room_row].
    subst results. rewrite rooms_of_polygons, map_map.
    change 1%Z with (Z.of_nat 1).
    rewrite <- (enumerate_fst _ polygons 1).
    apply map_ext. intros [idx poly]. apply room_of_id.
  - rewrite map_map. cbn [area_m2 room_row].
    subst results. rewrite rooms_of_polygons, map_map.
    rewrite <- (map_enumerate_snd _ _ (@Polygon.area F) polygons 1).
    apply map_ext. intros [idx poly]. apply room_of_area.
  - rewrite map_map. cbn [perimeter_m room_row].
    subst results. rewrite rooms_of_polygons, map_map.
    rewrite <- (map_enumerate_snd _ _ (@Polygon.length F) polygons 1).
    apply map_ext. intros [idx poly]. apply room_of_perimeter.
  - rewrite map_map. cbn [description]. now rewrite <- Hnames, map_map.
  - rewrite length_app, length_map.
    rewrite <- (length_map (@item F)), Hnames. reflexivity.
  - apply Forall_app. split.
    + repeat constructor; eexists; reflexivity.
    + apply Forall_map. apply Forall_forall. intros w _.
      eexists. reflexivity.
Qed.

(** The theorem on the 10 by 6 plan with the default constants, the
    writer leaving the rows as they are. *)
Lemma report_of_a_run_witness :
  let polygons :=
    parse_dxf_to_polygons (F := float) rect_union rect_polygonize
      plan_10_by_6 in
  let results := compute_areas_and_walls polygons (lit 0.2) "meters" in
  exists (m : MaterialsResult float)
         (room_rows : list (RoomRow float))
         (item_rows : list (AbstractRow float)),
    estimate_materials_for_workitems results
      (of_int 50) (of_int 12) (of_int 600) = OK m /\
    export_measurement_sheets_bytes (fun rows abstract => (rows, abstract))
      results (materials_of m)
    = Found (room_rows, totals_rows (totals results) ++ item_rows) /\
    map (@room_id float) room_rows = [1%Z] /\
    List.length (totals_rows (totals results) ++ item_rows) = 15%nat.
Proof.
  intros polygons results.
  destruct (estimate_materials_for_workitems results
              (of_int 50) (of_int 12) (of_int 600)) as [m|e] eqn:Hm;
    [|vm_compute in Hm; discriminate Hm].
  destruct (report_of_a_run float binary64 _
              (fun rows abstract => (rows, abstract))
              polygons (lit 0.2) "meters" _ _ _ m Hm)
    as (room_rows & item_rows & Hexport & _ & Hids & _ & _ & _ & Hlen & _).
  exists m, room_rows, item_rows.
  split; [reflexivity|]. split; [exact Hexport|].
  split; [exact Hids | exact Hlen].
Defined.

(* ================================================================= *)
(** * Carpet area against built-up area *)

Lemma fsum_exact_le (A : Type) (f g : A -> Q) (l : list A) :
  (forall x, In x l -> f x <= g x) -> fsum (map f l) <= fsum (map g l).
Proof.
  induction l as [|x l IH]; intros Hle; cbn [map].
  - apply Qle_refl.
  - rewrite !fsum_exact_cons.
    apply Qplus_le_compat.
    + apply Hle. now left.
    + apply IH. intros y Hy. apply Hle. now right.
Qed.

(** X21.  In exact arithmetic, when the carpet area of every room is at
    most its area, the total carpet area is at most the total built-up
    area; this is the case when every offset is empty or fails, the wall
    thickness is not negative and no polygon has a negative area or
    perimeter. *)
Theorem total_carpet_within_built_up :
  forall (polygons : list (Polygon.t Q)) (wt : Q) (label : string),
    let t := totals (compute_areas_and_walls polygons wt label) in
    ((forall poly, In poly polygons ->
        carpet_of poly wt <= Polygon.area poly) ->
     Totals.carpet_area t <= Totals.built_up_area t) /\
    (0 <= wt ->
     (forall poly, In poly polygons ->
        offset_fails poly (- wt) /\
        0 <= Polygon.area poly /\ 0 <= Polygon.length poly) ->
     0 <= Totals.carpet_area t /\
     Totals.carpet_area t <= Totals.built_up_area t).
Proof.
  intros polygons wt label t. subst t.
  destruct (totals_of_polygons polygons wt label) as (-> & -> & _).
  assert (Hgeneral : (forall poly, In poly polygons ->
                        carpet_of poly wt <= Polygon.area poly) ->
                     fsum (map (fun poly => carpet_of poly wt) polygons)
                     <= fsum (map (@Polygon.area Q) polygons))
    by apply fsum_exact_le.
  split; [exact Hgeneral|].
  intros Hwt Hall.
  assert (Hlinear : forall poly, In poly polygons ->
            carpet_of poly wt
            = linear_carpet (Polygon.area poly) (Polygon.length poly) wt).
  { intros poly Hin. destruct (Hall poly Hin) as (Hfails & _).
    unfold carpet_of, offset_fails in *. exact_arith.
    destruct (Polygon.buffer poly (- wt)) as [inner|e]; [|reflexivity].
    now rewrite (Hfails inner eq_refl). }
  split.
  - assert (Hzero : fsum (map (fun _ : Polygon.t Q => 0) polygons) == 0).
    { clear. induction polygons as [|p l IH]; cbn [map].
      - reflexivity.
      - rewrite fsum_exact_cons, IH. ring. }
    rewrite <- Hzero. apply fsum_exact_le.
    intros poly Hin. rewrite (Hlinear poly Hin).
    apply linear_carpet_exact.
  - apply Hgeneral. intros poly Hin. rewrite (Hlinear poly Hin).
    destruct (Hall poly Hin) as (_ & Harea & Hperim).
    destruct (linear_carpet_exact (Polygon.area poly)
                (Polygon.length poly) wt) as (_ & Hpos & Hneg).
    assert (Hprod : 0 <= Polygon.length poly * wt)
      by now apply Qmult_le_0_compat.
    destruct (Qlt_le_dec (Polygon.area poly - Polygon.length poly * wt) 0)
      as [Hlt|Hge].
    + rewrite (Hneg (Qlt_le_weak _ _ Hlt)). exact Harea.
    + rewrite (Hpos Hge). lra.
Qed.

(** The theorem at two squares whose offsets fail, with wall thickness
    0.2: total carpet area 0.2 + 2.4 against built-up area 1 + 4. *)
Lemma total_carpet_within_built_up_witness :
  let squares :=
    [ rectangle_failing_buffer (F := Q) 0 0 1 1;
      rectangle_failing_buffer (F := Q) 5 0 7 2 ] in
  0 <= 0.2 /\
  (forall poly, In poly squares ->
     offset_fails poly (- 0.2) /\
     0 <= Polygon.area poly /\ 0 <= Polygon.length poly) /\
  Totals.carpet_area (totals (compute_areas_and_walls squares 0.2 "meters"))
  <= Totals.built_up_area
       (totals (compute_areas_and_walls squares 0.2 "meters")).
Proof.
  intros squares.
  assert (Hwt : 0 <= 0.2) by discriminate.
  assert (Hall : forall poly, In poly squares ->
            offset_fails poly (- 0.2) /\
            0 <= Polygon.area poly /\ 0 <= Polygon.length poly).
  { intros poly [<-|[<-|[]]];
      (split; [intros inner Hinner; discriminate Hinner|]);
      split; vm_compute; discriminate. }
  split; [exact Hwt|]. split; [exact Hall|].
  destruct (total_carpet_within_built_up squares 0.2 "meters")
    as [_ Hfallback].
  exact (proj2 (Hfallback Hwt Hall)).
Defined.

(* ================================================================= *)
(** * Lines and other entities *)

(** X22.  A [LINE] entity contributes the single segment from its start
    to its end, with the two points as they are stored (a third coordinate
    is kept, not cut off as for the vertices read by [get_points]).  An
    entity of any type other than [LINE], [LWPOLYLINE] and [POLYLINE]
    contributes nothing. *)
Theorem lines_and_other_entities :
  forall (F : Type) (S : Scalar F) (before after : list (Entity F))
         (e : Entity F),
    (dxftype e = "LINE"%string ->
     extract_lines (before ++ e :: after)
       = extract_lines before ++ [[dxf_start e; dxf_end e]]
         ++ extract_lines after /\
     segments (extract_lines (before ++ e :: after))
       = segments (extract_lines before) ++ [(dxf_start e, dxf_end e)]
         ++ segments (extract_lines after)) /\
    (dxftype e <> "LINE"%string ->
     dxftype e <> "LWPOLYLINE"%string ->
     dxftype e <> "POLYLINE"%string ->
     extract_lines (before ++ e :: after)
       = extract_lines before ++ extract_lines after).
Proof.
  intros F S before after e. split.
  - intros Htype.
    assert (Hlines : entity_lines e = [[dxf_start e; dxf_end e]]).
    { unfold entity_lines. now rewrite Htype. }
    assert (Hx : extract_lines (before ++ e :: after)
                 = extract_lines before ++ [[dxf_start e; dxf_end e]]
                   ++ extract_lines after)
      by now rewrite extract_lines_app, extract_lines_cons, Hlines.
    split; [exact Hx|].
    rewrite Hx. unfold segments. rewrite !flat_map_app. reflexivity.
  - intros Hline Hlw Hpl.
    assert (Hlines : entity_lines e = []).
    { unfold entity_lines.
      apply String.eqb_neq in Hline, Hlw, Hpl.
      now rewrite Hline, Hlw, Hpl. }
    now rewrite extract_lines_app, extract_lines_cons, Hlines.
Qed.

(** The theorem at a line between two points at height 3, and at a
    circle. *)
Lemma lines_and_other_entities_witness :
  (dxftype line_3d = "LINE"%string /\
   extract_lines ([] ++ line_3d :: [])
     = [ [ [0; 0; 3]; [10; 0; 3] ] ]%float) /\
  (dxftype circle <> "LINE"%string /\
   dxftype circle <> "LWPOLYLINE"%string /\
   dxftype circle <> "POLYLINE"%string /\
   extract_lines ([line_3d] ++ circle :: []) = extract_lines [line_3d]).
Proof.
  split.
  - assert (Htype : dxftype line_3d = "LINE"%string) by reflexivity.
    split; [exact Htype|].
    destruct (lines_and_other_entities float binary64 [] [] line_3d)
      as [Hline _].
    destruct (Hline Htype) as [Hx _]. rewrite Hx. reflexivity.
  - assert (H1 : dxftype circle <> "LINE"%string) by discriminate.
    assert (H2 : dxftype circle <> "LWPOLYLINE"%string) by discriminate.
    assert (H3 : dxftype circle <> "POLYLINE"%string) by discriminate.
    repeat (split; [assumption|]).
    destruct (lines_and_other_entities float binary64 [line_3d] [] circle)
      as [_ Hother].
    rewrite (Hother H1 H2 H3). now rewrite app_nil_r.
Defined.

(* ================================================================= *)
(** * Not-a-number in the tile count *)

Lemma nan_div_l (x y : float) :
  Binary64.not_nan x = false -> Binary64.not_nan (PrimFloat.div x y) = false.
Proof.
  unfold Binary64.not_nan. rewrite FloatAxioms.div_spec.
  destruct (Prim2SF x); try discriminate. reflexivity.
Qed.

Lemma nan_mul (x : float) :
  Binary64.not_nan x = false -> Binary64.not_nan (PrimFloat.mul x x) = false.
Proof.
  unfold Binary64.not_nan. rewrite FloatAxioms.mul_spec.
  destruct (Prim2SF x); try discriminate. reflexivity.
Qed.

Lemma nan_is_not_infinite (x : float) :
  Binary64.not_nan x = false -> PrimFloat.is_infinity x = false.
Proof.
  unfold Binary64.not_nan, PrimFloat.is_infinity.
  rewrite FloatAxioms.eqb_spec, FloatAxioms.abs_spec.
  destruct (Prim2SF x); try discriminate. reflexivity.
Qed.

Lemma nan_is_not_positive (x : float) :
  Binary64.not_nan x = false -> PrimFloat.ltb 0 x = false.
Proof.
  unfold Binary64.not_nan. rewrite FloatAxioms.ltb_spec.
  destruct (Prim2SF x); try discriminate.
  now destruct (Prim2SF 0).
Qed.

Lemma fceil_nan (x : float) :
  Binary64.not_nan x = false -> Binary64.fceil x = Raise ValueError.
Proof.
  unfold Binary64.not_nan, Binary64.fceil.
  destruct (Prim2SF x); try discriminate. reflexivity.
Qed.

(** X23.  Not-a-number in binary64.  A tile size that is not a number
    gives a tile count of [0] without a fault, since its square is not
    above [0].  A carpet area that is not a number, with a tile area above
    [0], makes [math.ceil] raise [ValueError], and the estimate raises it
    too. *)
Theorem nan_in_the_tile_count :
  (forall carpet tile_size_mm : float,
     Binary64.not_nan tile_size_mm = false ->
     tiles_for carpet tile_size_mm = OK 0%Z) /\
  (forall (results : AggregateResult float)
          (cement_bag_kg plaster_thickness_mm tile_size_mm tile_area : float),
     Binary64.not_nan (Totals.carpet_area (totals results)) = false ->
     fsquare (tile_size_mm / lit 1000.0)%py = OK tile_area ->
     (tile_area >? of_int 0)%py = true ->
     tiles_for (Totals.carpet_area (totals results)) tile_size_mm
       = Raise ValueError /\
     estimate_materials_for_workitems results
       cement_bag_kg plaster_thickness_mm tile_size_mm
     = Raise ValueError).
Proof.
  split.
  - intros carpet ts Hnan. unfold tiles_for.
    cbn [of_int lit fdiv fsquare fltb binary64].
    assert (Hside := nan_div_l ts (Binary64.lit 1000.0) Hnan).
    assert (Harea := nan_mul _ Hside).
    unfold Binary64.fsquare.
    rewrite (nan_is_not_infinite _ Harea). cbn [andb bind].
    change (Binary64.of_int 0) with 0%float.
    now rewrite (nan_is_not_positive _ Harea).
  - intros results bag pt ts ta Hnan Hsquare Hpos.
    assert (Htiles :
      tiles_for (Totals.carpet_area (totals results)) ts
      = Raise ValueError).
    { unfold tiles_for, py_div. rewrite Hsquare. cbn [bind].
      rewrite Hpos.
      cbn [of_int fltb feqb fdiv fceil binary64] in *.
      change (Binary64.of_int 0) with 0%float in *.
      destruct (Binary64Facts.positive_not_zero _ Hpos) as [Hnz _].
      rewrite Binary64Facts.eqb_zero, Hnz. cbn [bind].
      now apply fceil_nan, nan_div_l. }
    split; [exact Htiles|].
    unfold estimate_materials_for_workitems. now rewrite Htiles.
Qed.

(** The theorem at a tile size that is not a number, and at a carpet
    area that is not a number with 600 mm tiles. *)
Lemma nan_in_the_tile_count_witness :
  (Binary64.not_nan nan = false /\
   tiles_for (F := float) (lit 53.76) nan = OK 0%Z) /\
  (Binary64.not_nan nan = false /\
   fsquare (Binary64.of_int 600 / lit 1000.0)%py = OK 0.36%float /\
   (0.36%float >? of_int 0)%py = true /\
   estimate_materials_for_workitems
     (results_with (of_int 60) nan (of_int 32) (lit 0.2))
     (Binary64.of_int 50) (Binary64.of_int 12) (Binary64.of_int 600)
   = Raise ValueError).
Proof.
  destruct nan_in_the_tile_count as [Hsize Hcarpet].
  assert (Hnan : Binary64.not_nan nan = false) by reflexivity.
  split.
  - split; [exact Hnan | exact (Hsize (lit 53.76) nan Hnan)].
  - assert (Hsquare : fsquare (Binary64.of_int 600 / lit 1000.0)%py
                      = OK 0.36%float) by reflexivity.
    assert (Hpos : (0.36%float >? of_int 0)%py = true) by reflexivity.
    repeat (split; [assumption|]).
    exact (proj2 (Hcarpet
                    (results_with (of_int 60) nan (of_int 32) (lit 0.2))
                    (Binary64.of_int 50) (Binary64.of_int 12) _ _
                    Hnan Hsquare Hpos)).
Defined.

(* ================================================================= *)
(** * Carpet area *)

(** C2.  For the polygon at any position of the list given to
    [compute_areas_and_walls], the room at that position exists (the
    function returns a room for that polygon in every case: no failure of
    the offset leaves it) and its [carpet_area] is the area of the polygon
    offset by [-wall_thickness] when the offset succeeds with a non-empty
    region.  When the offset is empty, and also when the offset computation
    raises, it is [max(0.0, area - perimeter * wall_thickness)]: that
    difference when it is above [0.0], and [0.0] otherwise.  In exact
    arithmetic this is the larger of [0] and the difference; in binary64 it
    is the difference when the difference is above zero and [0.0] in every
    other case, so it is never negative and never a NaN. *)
Theorem carpet_area_offset_or_linear :
  (forall (F : Type) (S : Scalar F) (polygons : list (Polygon.t F))
          (wt : F) (label : string) (i : nat) (poly : Polygon.t F),
     nth_error polygons i = Some poly ->
     exists room : Room.t F,
       nth_error (rooms (compute_areas_and_walls polygons wt label)) i
         = Some room /\
       Room.id room = (Z.of_nat i + 1)%Z /\
       Room.area room = Polygon.area poly /\
       Room.perimeter room = Polygon.length poly /\
       let difference :=
         (Polygon.area poly - Polygon.length poly * wt)%py in
       let clamped :=
         if (difference >? lit 0.0)%py then difference else lit 0.0 in
       Room.carpet_area room =
         match Polygon.buffer poly (- wt)%py with
         | OK inner => if is_empty inner then clamped else geom_area inner
         | Raise _ => clamped
         end) /\
  (forall (polygons : list (Polygon.t Q)) (wt : Q) (label : string)
          (i : nat) (poly : Polygon.t Q),
     nth_error polygons i = Some poly ->
     offset_fails poly (- wt) ->
     exists room : Room.t Q,
       nth_error (rooms (compute_areas_and_walls polygons wt label)) i
         = Some room /\
       Room.carpet_area room
         == Qmax 0 (Polygon.area poly - Polygon.length poly * wt)) /\
  (forall (polygons : list (Polygon.t float)) (wt : float) (label : string)
          (i : nat) (poly : Polygon.t float),
     nth_error polygons i = Some poly ->
     offset_fails poly (- wt)%py ->
     exists room : Room.t float,
       nth_error (rooms (compute_areas_and_walls polygons wt label)) i
         = Some room /\
       let difference :=
         PrimFloat.sub (Polygon.area poly)
           (PrimFloat.mul (Polygon.length poly) wt) in
       (PrimFloat.ltb 0 difference = true ->
        Room.carpet_area room = difference) /\
       (PrimFloat.ltb 0 difference = false ->
        Room.carpet_area room = 0%float) /\
       PrimFloat.ltb (Room.carpet_area room) 0 = false /\
       Binary64.not_nan (Room.carpet_area room) = true).
Proof.
  split; [|split].
  - intros F S polygons wt label i poly Hi.
    exists (room_of wt (Z.of_nat i + 1) poly).
    split; [now apply room_at|].
    rewrite room_of_id, room_of_area, room_of_perimeter, room_of_carpet_area.
    repeat split. cbv zeta.
    unfold carpet_of, linear_carpet, py_max.
    destruct (Polygon.buffer poly (- wt)%py) as [inner|e]; [|reflexivity].
    now destruct (is_empty inner).
  - intros polygons wt label i poly Hi Hfails.
    exists (room_of wt (Z.of_nat i + 1) poly).
    split; [now apply room_at|].
    rewrite room_of_carpet_area.
    assert (Hcarpet : carpet_of poly wt
                      = linear_carpet (Polygon.area poly)
                          (Polygon.length poly) wt).
    { unfold carpet_of, offset_fails in *. exact_arith.
      destruct (Polygon.buffer poly (- wt)) as [inner|e]; [|reflexivity].
      now rewrite (Hfails inner eq_refl). }
    rewrite Hcarpet.
    destruct (linear_carpet_exact (Polygon.area poly)
                (Polygon.length poly) wt) as (_ & Hpos & Hneg).
    destruct (Qlt_le_dec (Polygon.area poly - Polygon.length poly * wt) 0)
      as [Hlt|Hge].
    + rewrite (Hneg (Qlt_le_weak _ _ Hlt)).
      symmetry. apply Q.max_l. now apply Qlt_le_weak.
    + rewrite (Hpos Hge). symmetry. now apply Q.max_r.
  - intros polygons wt label i poly Hi Hfails.
    exists (room_of wt (Z.of_nat i + 1) poly).
    split; [now apply room_at|].
    rewrite room_of_carpet_area.
    assert (Hcarpet : carpet_of poly wt
                      = linear_carpet (Polygon.area poly)
                          (Polygon.length poly) wt).
    { unfold carpet_of, offset_fails in *.
      destruct (Polygon.buffer poly (- wt)%py) as [inner|e]; [|reflexivity].
      now rewrite (Hfails inner eq_refl). }
    rewrite Hcarpet. cbv zeta.
    destruct (linear_carpet_binary64 (Polygon.area poly)
                (Polygon.length poly) wt) as [Hnan Hsign].
    cbn [of_int fltb binary64] in Hsign.
    change (Binary64.of_int 0) with 0%float in Hsign.
    split; [|split; [|split; assumption]].
    + intros Hpos. unfold linear_carpet, py_max.
      cbn [lit fsub fmul fltb binary64].
      change (Binary64.lit 0.0) with 0%float. now rewrite Hpos.
    + intros Hflat. unfold linear_carpet, py_max.
      cbn [lit fsub fmul fltb binary64].
      change (Binary64.lit 0.0) with 0%float. now rewrite Hflat.
Qed.

(** The theorem at [three_rooms] with wall thickness 0.2: the unit square
    whose offset raises keeps [1 - 4 * 0.2]; the square of side 0.3, whose
    offset is empty and whose difference [0.09 - 1.2 * 0.2] is negative, is
    clamped to [0.0]; and the same square in exact arithmetic. *)
Lemma carpet_area_offset_or_linear_witness :
  (nth_error three_rooms 1
     = Some (rectangle_failing_buffer
               (of_int 0) (of_int 0) (of_int 1) (of_int 1)) /\
   exists room : Room.t float,
     nth_error (rooms (compute_areas_and_walls three_rooms (lit 0.2) "meters"))
       1 = Some room /\
     Room.id room = 2%Z /\
     Room.carpet_area room = 0.19999999999999996%float) /\
  (nth_error three_rooms 2
     = Some (rectangle (of_int 0) (of_int 0) (lit 0.3) (lit 0.3)) /\
   offset_fails (rectangle (F := float) (of_int 0) (of_int 0)
                   (lit 0.3) (lit 0.3)) (- lit 0.2)%py /\
   PrimFloat.ltb 0
     (PrimFloat.sub
        (Polygon.area (rectangle (F := float) (of_int 0) (of_int 0)
                         (lit 0.3) (lit 0.3)))
        (PrimFloat.mul
           (Polygon.length (rectangle (F := float) (of_int 0) (of_int 0)
                              (lit 0.3) (lit 0.3)))
           (lit 0.2))) = false /\
   exists room : Room.t float,
     nth_error (rooms (compute_areas_and_walls three_rooms (lit 0.2) "meters"))
       2 = Some room /\
     Room.carpet_area room = 0%float) /\
  (nth_error [small_square] 0 = Some small_square /\
   offset_fails small_square (- 0.2) /\
   exists room : Room.t Q,
     nth_error (rooms (compute_areas_and_walls [small_square] 0.2 "meters"))
       0 = Some room /\
     Room.carpet_area room == 0).
Proof.
  destruct carpet_area_offset_or_linear as (Hany & Hexact & Hfloat).
  split; [|split].
  - assert (Hi : nth_error three_rooms 1
                 = Some (rectangle_failing_buffer
                           (of_int 0) (of_int 0) (of_int 1) (of_int 1)))
      by reflexivity.
    split; [exact Hi|].
    destruct (Hany float binary64 three_rooms (lit 0.2) "meters"%string
                1%nat _ Hi)
      as (room & Hroom & Hid & _ & _ & Hcarpet).
    exists room. split; [exact Hroom|]. split; [exact Hid|].
    rewrite Hcarpet. reflexivity.
  - assert (Hi : nth_error three_rooms 2
                 = Some (rectangle (of_int 0) (of_int 0) (lit 0.3) (lit 0.3)))
      by reflexivity.
    assert (Hfails : offset_fails
                       (rectangle (F := float) (of_int 0) (of_int 0)
                          (lit 0.3) (lit 0.3)) (- lit 0.2)%py).
    { intros inner Hinner. vm_compute in Hinner.
      injection Hinner as <-. reflexivity. }
    assert (Hflat :
      PrimFloat.ltb 0
        (PrimFloat.sub
           (Polygon.area (rectangle (F := float) (of_int 0) (of_int 0)
                            (lit 0.3) (lit 0.3)))
           (PrimFloat.mul
              (Polygon.length (rectangle (F := float) (of_int 0) (of_int 0)
                                 (lit 0.3) (lit 0.3)))
              (lit 0.2))) = false) by reflexivity.
    repeat (split; [assumption|]).
    destruct (Hfloat three_rooms (lit 0.2) "meters"%string 2%nat _
                Hi Hfails)
      as (room & Hroom & _ & Hclamp & _).
    exists room. split; [exact Hroom | exact (Hclamp Hflat)].
  - assert (Hi : nth_error [small_square] 0 = Some small_square)
      by reflexivity.
    assert (Hfails : offset_fails small_square (- 0.2)).
    { intros inner Hinner. vm_compute in Hinner.
      injection Hinner as <-. reflexivity. }
    repeat (split; [assumption|]).
    destruct (Hexact [small_square] 0.2 "meters"%string 0%nat _ Hi Hfails)
      as (room & Hroom & Hcarpet).
    exists room. split; [exact Hroom|].
    rewrite Hcarpet. reflexivity.
Defined.
